(** * GTK4 display backend of QEMU: scanout pipeline, grab arbiter, input router

    A shallow embedding of the C code in [ui/gtk4.c], [ui/gtk4-gfx-vc.c] and
    [ui/gtk4-gl-area.c].  Struct fields keep their C names.  Calls into GTK,
    GDK, EGL and the QEMU core are recorded, in program order, in an event
    log that is threaded through every function; the values those libraries
    hand back (monitor refresh rate, window geometry, the texture produced by
    a dma-buf import, ...) are arguments of the embedded functions.

    Part I holds the embedding, Part II the properties proved about it. *)

From Stdlib Require Import ZArith Lia.
From Stdlib Require Floats.
From stdpp Require Import base option list gmap strings.

Local Open Scope Z_scope.

(** * Part I: the embedding *)

(** ** C integer conversions *)

Module C.

(** Value of an integer expression once stored in an unsigned [bits]-bit
    object. *)
Definition to_unsigned (bits v : Z) : Z := v mod 2 ^ bits.

(** Value once stored in a signed two's-complement [bits]-bit object (QEMU is
    built with -fwrapv). *)
Definition to_signed (bits v : Z) : Z :=
  let u := v mod 2 ^ bits in
  if u <? 2 ^ (bits - 1) then u else u - 2 ^ bits.

Definition int (v : Z) : Z := to_signed 32 v.
Definition uint32_t (v : Z) : Z := to_unsigned 32 v.
Definition size_t (v : Z) : Z := to_unsigned 64 v.
Definition uint64_t (v : Z) : Z := to_unsigned 64 v.

Definition INT_MIN : Z := - 2 ^ 31.
Definition INT_MAX : Z := 2 ^ 31 - 1.

(** [a / b] on C integers truncates towards zero. *)
Definition div (a b : Z) : Z := Z.quot a b.

(** The [MIN] macro of [qemu/osdep.h]. *)
Definition MIN (a b : Z) : Z := if a <? b then a else b.

(** [double] is IEEE 754 binary64. *)
Definition double : Set := PrimFloat.float.

(** [(double)n] for an [int] [n]; exact, an [int] has fewer than 53 bits. *)
Definition double_of_int (n : Z) : double :=
  if n <? 0 then PrimFloat.opp (PrimFloat.of_uint63 (Uint63.of_Z (- n)))
  else PrimFloat.of_uint63 (Uint63.of_Z n).

(** [(int)f]: the fraction is dropped.  Outside the range of [int], and for
    a NaN, the conversion instruction of x86-64 yields [INT_MIN]. *)
Definition int_of_double (f : double) : Z :=
  match FloatOps.Prim2SF f with
  | SpecFloat.S754_zero _ => 0
  | SpecFloat.S754_finite neg m e =>
      let a := if 0 <=? e then Z.pos m * 2 ^ e else Z.pos m / 2 ^ (- e) in
      let v := if neg then - a else a in
      if (INT_MIN <=? v) && (v <=? INT_MAX) then v else INT_MIN
  | _ => INT_MIN
  end.

End C.

(** ** Keyboard: scancode to keycode table ([ui/gtk4.c]) *)

Module Keymap.

(** The two file-scope statics [keycode_map] (NULL when no table was loaded)
    and [keycode_maplen]. *)
Record Statics := {
  keycode_map : option (list Z);
  keycode_maplen : Z;
}.

(** [gd_get_keymap]: on a Wayland display the xorg-evdev table and its
    length, otherwise NULL (the length static keeps its zero initialiser).
    The table itself comes from [keymaps.h]. *)
Definition gd_get_keymap (is_wayland : bool) (xorgevdev_to_qcode : list Z)
  : Statics :=
  if is_wayland
  then {| keycode_map := Some xorgevdev_to_qcode;
          keycode_maplen := Z.of_nat (length xorgevdev_to_qcode) |}
  else {| keycode_map := None; keycode_maplen := 0 |}.

(** What a call of [gd_map_keycode] does with the table. *)
Inductive Outcome :=
  | NoOp                       (* returned the literal 0, table untouched *)
  | Entry (i : nat) (v : Z)    (* returned keycode_map[i], i inside the table *)
  | PastEnd (i : Z).           (* evaluated keycode_map[i] outside the table *)

(** The C expression [keycode_map[i]] on a table of [length tbl] entries. *)
Definition index (tbl : list Z) (i : Z) : Outcome :=
  if i <? 0 then PastEnd i
  else match tbl !! Z.to_nat i with
       | Some v => Entry (Z.to_nat i) v
       | None => PastEnd i
       end.

(** [gd_map_keycode].  [scancode] is an [int]; the comparison against the
    [size_t] length converts it to [size_t] first. *)
Definition gd_map_keycode (st : Statics) (scancode : Z) : Outcome :=
  match keycode_map st with
  | None => NoOp
  | Some tbl =>
      if C.size_t scancode >? keycode_maplen st then NoOp
      else index tbl scancode
  end.

(** The value handed to the keyboard state tracker, when the read was
    defined. *)
Definition returned (o : Outcome) : option Z :=
  match o with
  | NoOp => Some 0
  | Entry _ v => Some v
  | PastEnd _ => None
  end.

(** A three-entry table, as loaded on Wayland. *)
Definition small_table : Statics := gd_get_keymap true [30; 48; 46].

End Keymap.

(** ** Shared data: surfaces, dma-bufs, the per-console graphics state *)

(** [DisplaySurface], as far as this code reads it: [surface_width],
    [surface_height] and [is_placeholder]. *)
Record DisplaySurface := {
  surface_width : Z;
  surface_height : Z;
  is_placeholder : bool;
}.

(** [QemuDmaBuf], owned by the guest side; the fields this code reads or
    writes. *)
Record QemuDmaBuf := {
  width : Z;
  height : Z;
  texture : Z;
  fence_fd : Z;
  allow_fences : bool;
  draw_submitted : bool;
}.

(** [VirtualGfxConsole] of [include/ui/gtk4.h].  Pointers are options;
    [guest_fb_dmabuf] is [guest_fb.dmabuf], an address in the dma-buf store.
    [dgc_gls] is [dgc.gls], [update_interval] is [dcl.update_interval].  The
    GL objects inside [guest_fb] are only ever touched by the EGL helpers and
    show up as events. *)
Record VirtualGfxConsole := {
  dgc_gls : bool;
  update_interval : Z;
  ds : option DisplaySurface;
  gls : bool;
  glupdates : Z;
  x : Z;
  y : Z;
  w : Z;
  h : Z;
  guest_fb_dmabuf : option nat;
  y0_top : bool;
  scanout_mode : bool;
  has_dmabuf : bool;
}.

Inductive Axis := INPUT_AXIS_X | INPUT_AXIS_Y.

Inductive Window := MainWindow | VcWindow (vc : nat).

(** Calls that leave this code, in the order they are made. *)
Inductive Event :=
  (* diagnostics *)
  | InfoReport (msg : string)
  | TraceGdSwitch (width height : Z)
  | TraceGrab (vc : nat) (label kind reason : string)
  | TraceUngrab (vc : nat) (label kind : string)
  (* GTK and GDK *)
  | WindowSetTitle (win : Window) (title : string)
  | WidgetSetCursor (vc : nat) (hidden : bool)
  | GlAreaQueueRender
  | WidgetQueueDraw
  | GlAreaMakeCurrent
  | GdUpdateWindowsize
  (* EGL and GL helpers *)
  | EglFbDestroy
  | EglFbSetupForTex (width height texture : Z)
  | SurfaceGlDestroyTexture (old : option DisplaySurface)
  | SurfaceGlCreateTexture (new : DisplaySurface)
  | GlInitShader
  | GlFiniShader
  | EglDmabufImportTexture (dmabuf : nat)
  (* QEMU core *)
  | GraphicHwGlBlock (block : bool)
  | GraphicHwUpdate
  | DpySetUiInfo (refresh_rate : Z)
  | SetFdHandler (fd : Z)
  | Close (fd : Z)
  | InputQueueAbs (axis : Axis) (value lo hi : Z)
  | InputQueueRel (axis : Axis) (delta : Z)
  | InputEventSync.

Global Instance DisplaySurface_eq_dec : EqDecision DisplaySurface.
Proof. solve_decision. Defined.

Global Instance Axis_eq_dec : EqDecision Axis.
Proof. solve_decision. Defined.

Global Instance Window_eq_dec : EqDecision Window.
Proof. solve_decision. Defined.

Global Instance Event_eq_dec : EqDecision Event.
Proof. solve_decision. Defined.

(** Field updates of [VirtualGfxConsole] ([g->field = v] in C). *)
Definition set_update_interval (v : Z) (g : VirtualGfxConsole) : VirtualGfxConsole :=
  {| dgc_gls := dgc_gls g; update_interval := v; ds := ds g; gls := gls g;
     glupdates := glupdates g; x := x g; y := y g; w := w g; h := h g;
     guest_fb_dmabuf := guest_fb_dmabuf g; y0_top := y0_top g;
     scanout_mode := scanout_mode g; has_dmabuf := has_dmabuf g |}.

Definition set_ds (v : option DisplaySurface) (g : VirtualGfxConsole) : VirtualGfxConsole :=
  {| dgc_gls := dgc_gls g; update_interval := update_interval g; ds := v;
     gls := gls g; glupdates := glupdates g; x := x g; y := y g; w := w g;
     h := h g; guest_fb_dmabuf := guest_fb_dmabuf g; y0_top := y0_top g;
     scanout_mode := scanout_mode g; has_dmabuf := has_dmabuf g |}.

Definition set_gls (v : bool) (g : VirtualGfxConsole) : VirtualGfxConsole :=
  {| dgc_gls := dgc_gls g; update_interval := update_interval g; ds := ds g;
     gls := v; glupdates := glupdates g; x := x g; y := y g; w := w g;
     h := h g; guest_fb_dmabuf := guest_fb_dmabuf g; y0_top := y0_top g;
     scanout_mode := scanout_mode g; has_dmabuf := has_dmabuf g |}.

Definition set_glupdates (v : Z) (g : VirtualGfxConsole) : VirtualGfxConsole :=
  {| dgc_gls := dgc_gls g; update_interval := update_interval g; ds := ds g;
     gls := gls g; glupdates := v; x := x g; y := y g; w := w g; h := h g;
     guest_fb_dmabuf := guest_fb_dmabuf g; y0_top := y0_top g;
     scanout_mode := scanout_mode g; has_dmabuf := has_dmabuf g |}.

(** The five assignments that open [gd_gl_area_scanout_texture]: the
    [uint32_t] arguments land in [int] fields. *)
Definition set_scanout_rect (vx vy vw vh : Z) (top : bool) (g : VirtualGfxConsole)
  : VirtualGfxConsole :=
  {| dgc_gls := dgc_gls g; update_interval := update_interval g; ds := ds g;
     gls := gls g; glupdates := glupdates g;
     x := C.int vx; y := C.int vy; w := C.int vw; h := C.int vh;
     guest_fb_dmabuf := guest_fb_dmabuf g; y0_top := top;
     scanout_mode := scanout_mode g; has_dmabuf := has_dmabuf g |}.

Definition set_guest_fb_dmabuf (v : option nat) (g : VirtualGfxConsole) : VirtualGfxConsole :=
  {| dgc_gls := dgc_gls g; update_interval := update_interval g; ds := ds g;
     gls := gls g; glupdates := glupdates g; x := x g; y := y g; w := w g;
     h := h g; guest_fb_dmabuf := v; y0_top := y0_top g;
     scanout_mode := scanout_mode g; has_dmabuf := has_dmabuf g |}.

Definition set_scanout_mode (v : bool) (g : VirtualGfxConsole) : VirtualGfxConsole :=
  {| dgc_gls := dgc_gls g; update_interval := update_interval g; ds := ds g;
     gls := gls g; glupdates := glupdates g; x := x g; y := y g; w := w g;
     h := h g; guest_fb_dmabuf := guest_fb_dmabuf g; y0_top := y0_top g;
     scanout_mode := v; has_dmabuf := has_dmabuf g |}.

(** Field updates of [QemuDmaBuf]. *)
Definition set_texture (v : Z) (d : QemuDmaBuf) : QemuDmaBuf :=
  {| width := width d; height := height d; texture := v; fence_fd := fence_fd d;
     allow_fences := allow_fences d; draw_submitted := draw_submitted d |}.

Definition set_fence_fd (v : Z) (d : QemuDmaBuf) : QemuDmaBuf :=
  {| width := width d; height := height d; texture := texture d; fence_fd := v;
     allow_fences := allow_fences d; draw_submitted := draw_submitted d |}.

Definition set_draw_submitted (v : bool) (d : QemuDmaBuf) : QemuDmaBuf :=
  {| width := width d; height := height d; texture := texture d;
     fence_fd := fence_fd d; allow_fences := allow_fences d; draw_submitted := v |}.

(** ** One graphics console and the memory it shares with the guest *)

(** What the display-listener callbacks of one console can see: the
    console's [gfx] struct, the guest-owned dma-bufs by address (the console
    only holds a pointer into this store, so a write through
    [guest_fb.dmabuf] is seen by everybody holding the same address), the
    index of the console behind [dcl.con], and the calls made so far. *)
Record World := {
  gfx : VirtualGfxConsole;
  dmabufs : gmap nat QemuDmaBuf;
  con_index : Z;
  events : list Event;
}.

Definition emit (e : Event) (st : World) : World :=
  {| gfx := gfx st; dmabufs := dmabufs st; con_index := con_index st;
     events := events st ++ [e] |}.

Definition with_gfx (f : VirtualGfxConsole -> VirtualGfxConsole) (st : World) : World :=
  {| gfx := f (gfx st); dmabufs := dmabufs st; con_index := con_index st;
     events := events st |}.

(** [p->field = v] for a dma-buf at address [p]. *)
Definition store_dmabuf (p : nat) (d : QemuDmaBuf) (st : World) : World :=
  {| gfx := gfx st; dmabufs := <[p := d]> (dmabufs st); con_index := con_index st;
     events := events st |}.

(** [g_malloc0]: every field zero. *)
Definition gfx_zero : VirtualGfxConsole :=
  {| dgc_gls := false; update_interval := 0; ds := None; gls := false;
     glupdates := 0; x := 0; y := 0; w := 0; h := 0; guest_fb_dmabuf := None;
     y0_top := false; scanout_mode := false; has_dmabuf := false |}.

(** A console right after [virtual_console_gfx_widget_new]: nothing shown,
    nothing pending, nothing logged. *)
Definition initial (heap : gmap nat QemuDmaBuf) (index : Z) : World :=
  {| gfx := gfx_zero; dmabufs := heap; con_index := index; events := [] |}.

(** The dma-buf on whose account a flush has to hold the guest back: the
    pending one, while no draw was submitted for it. *)
Definition blocking_dmabuf (st : World) : option nat :=
  p ← guest_fb_dmabuf (gfx st);
  d ← dmabufs st !! p;
  if draw_submitted d then None else Some p.

(** Events by kind. *)
Definition is_block (e : Event) : bool :=
  match e with GraphicHwGlBlock true => true | _ => false end.

Definition is_resize (e : Event) : bool :=
  match e with GdUpdateWindowsize => true | _ => false end.

Definition is_redraw (e : Event) : bool :=
  match e with GlAreaQueueRender | WidgetQueueDraw => true | _ => false end.

Definition is_texture_op (e : Event) : bool :=
  match e with
  | EglFbDestroy | EglFbSetupForTex _ _ _
  | SurfaceGlDestroyTexture _ | SurfaceGlCreateTexture _ => true
  | _ => false
  end.

Definition is_rel (e : Event) : bool :=
  match e with InputQueueRel _ _ => true | _ => false end.

Definition count (f : Event -> bool) (log : list Event) : nat :=
  length (filter (fun e => f e = true) log).

(** The two calls that rebuild the texture of the composited path for the
    surface a console shows; nothing when it shows none. *)
Definition recreate_surface_texture (shown : option DisplaySurface) : list Event :=
  match shown with
  | Some surface =>
      [SurfaceGlDestroyTexture (Some surface); SurfaceGlCreateTexture surface]
  | None => []
  end.

Definition same_size (a b : DisplaySurface) : bool :=
  (surface_width a =? surface_width b) && (surface_height a =? surface_height b).

(** ** Refresh pacing ([gd_update_monitor_refresh_rate], [ui/gtk4.c]) *)

Section Refresh.

(** [GUI_REFRESH_INTERVAL_DEFAULT] of [ui/console.h], in milliseconds. *)
Variable GUI_REFRESH_INTERVAL_DEFAULT : Z.

(** The ternary that ends [gd_update_monitor_refresh_rate]. *)
Definition refresh_interval (refresh_rate : Z) : Z :=
  if negb (refresh_rate =? 0)
  then C.MIN (C.div (1000 * 1000) refresh_rate) GUI_REFRESH_INTERVAL_DEFAULT
  else GUI_REFRESH_INTERVAL_DEFAULT.

(** [gd_update_monitor_refresh_rate].  [monitor] is [None] when the widget
    has no GDK surface (it is not realized), else the [int] that
    [gdk_monitor_get_refresh_rate] reports, in mHz.  The [int] is stored in
    the [uint32_t] field [refresh_rate] of [QemuUIInfo], and the [int] value
    of the ternary in the [uint64_t] field [update_interval] of the
    listener. *)
Definition gd_update_monitor_refresh_rate (monitor : option Z) (st : World) : World :=
  let refresh_rate := match monitor with Some r => r | None => 0 end in
  let st := emit (DpySetUiInfo (C.uint32_t refresh_rate)) st in
  with_gfx (set_update_interval (C.uint64_t (refresh_interval refresh_rate))) st.

End Refresh.

(** ** The display listener of [ui/gtk4-gfx-vc.c]

    These are the functions entered in [dcl_gl_area_ops], the table that
    [virtual_console_gfx_widget_constructed] installs in [vc->gfx.dcl.ops]. *)

Module GfxVc.

(** [gtk_gl_area_set_scanout_mode] (lines 48-62). *)
Definition gtk_gl_area_set_scanout_mode (scanout : bool) (st : World) : World :=
  if Bool.eqb (scanout_mode (gfx st)) scanout then st
  else
    let st := with_gfx (set_scanout_mode scanout) st in
    if negb (scanout_mode (gfx st)) then
      let st := emit EglFbDestroy st in
      match ds (gfx st) with
      | Some surface =>
          let st := emit (SurfaceGlDestroyTexture (Some surface)) st in
          emit (SurfaceGlCreateTexture surface) st
      | None => st
      end
    else st.

(** [gd_gl_area_scanout_disable]. *)
Definition gd_gl_area_scanout_disable (st : World) : World :=
  let st := emit (InfoReport "Calling gl_area_scanout_disable") st in
  gtk_gl_area_set_scanout_mode false st.

(** [gd_gl_area_scanout_texture] (lines 94-121).  All eight arguments but
    the flag are [uint32_t] values. *)
Definition gd_gl_area_scanout_texture
    (backing_id : Z) (backing_y_0_top : bool) (backing_width backing_height : Z)
    (vx vy vw vh : Z) (st : World) : World :=
  let st := emit (InfoReport "Calling gl_area_scanout_texture") st in
  let st := with_gfx (set_scanout_rect vx vy vw vh backing_y_0_top) st in
  if (backing_id =? 0) || (w (gfx st) =? 0) || (h (gfx st) =? 0) then
    gtk_gl_area_set_scanout_mode false st
  else
    let st := gtk_gl_area_set_scanout_mode true st in
    emit (EglFbSetupForTex backing_width backing_height backing_id) st.

(** [gd_gl_area_scanout_dmabuf] (lines 123-142).  [imported] is what
    [egl_dmabuf_import_texture] leaves in [dmabuf->texture]: the GL texture
    name, or 0 when the import failed.  [None] is a dereference of an address
    that holds no dma-buf. *)
Definition gd_gl_area_scanout_dmabuf (dmabuf : nat) (imported : Z) (st : World)
  : option World :=
  let st := emit (InfoReport "Calling gl_area_scanout_dmabuf") st in
  d ← dmabufs st !! dmabuf;
  let st := emit (EglDmabufImportTexture dmabuf) st in
  let d := set_texture imported d in
  let st := store_dmabuf dmabuf d st in
  if texture d =? 0 then Some st
  else
    let st := emit (InfoReport "Importing texture") st in
    let st := gd_gl_area_scanout_texture (texture d) false (width d) (height d)
                0 0 (width d) (height d) st in
    if allow_fences d
    then Some (with_gfx (set_guest_fb_dmabuf (Some dmabuf)) st)
    else Some st.

(** [gd_gl_area_scanout_flush] (lines 144-149), the [dpy_gl_update] entry of
    the table. *)
Definition gd_gl_area_scanout_flush (vx vy vw vh : Z) (st : World) : World :=
  emit (InfoReport "Calling gl_area_scanout_flush") st.

(** [gd_dpy_gfx_update]. *)
Definition gd_dpy_gfx_update (vx vy vw vh : Z) (st : World) : World :=
  let st := emit GlAreaMakeCurrent st in
  with_gfx (set_glupdates (C.int (glupdates (gfx st) + 1))) st.

(** [gd_dpy_gfx_switch] (lines 178-208). *)
Definition gd_dpy_gfx_switch (surface : DisplaySurface) (st : World) : World :=
  let st := emit (InfoReport "gd_dpy_gfx_switch") st in
  let old_surface := ds (gfx st) in
  let st := emit (TraceGdSwitch (surface_width surface) (surface_height surface)) st in
  let st := emit (SurfaceGlDestroyTexture (ds (gfx st))) st in
  let st := with_gfx (set_ds (Some surface)) st in
  if is_placeholder surface && negb (con_index st =? 0) then
    let st := emit GlFiniShader st in
    with_gfx (set_gls false) st
  else
    let st :=
      if negb (gls (gfx st)) then
        let st := emit GlInitShader st in
        with_gfx (set_gls true) st
      else
        match old_surface with
        | Some old =>
            if negb (surface_width old =? surface_width surface)
               || negb (surface_height old =? surface_height surface)
            then emit GdUpdateWindowsize st
            else st
        | None => st
        end in
    emit (SurfaceGlCreateTexture surface) st.

(** The callbacks the QEMU core can invoke through the table, and running a
    sequence of them. *)
Inductive Op :=
  | Switch (surface : DisplaySurface)
  | GfxUpdate (vx vy vw vh : Z)
  | ScanoutTexture (backing_id : Z) (backing_y_0_top : bool)
      (backing_width backing_height vx vy vw vh : Z)
  | ScanoutDisable
  | ScanoutFlush (vx vy vw vh : Z)
  | ScanoutDmabuf (dmabuf : nat) (imported : Z).

Definition step (o : Op) (st : World) : option World :=
  match o with
  | Switch surface => Some (gd_dpy_gfx_switch surface st)
  | GfxUpdate vx vy vw vh => Some (gd_dpy_gfx_update vx vy vw vh st)
  | ScanoutTexture id top bw bh vx vy vw vh =>
      Some (gd_gl_area_scanout_texture id top bw bh vx vy vw vh st)
  | ScanoutDisable => Some (gd_gl_area_scanout_disable st)
  | ScanoutFlush vx vy vw vh => Some (gd_gl_area_scanout_flush vx vy vw vh st)
  | ScanoutDmabuf dmabuf imported => gd_gl_area_scanout_dmabuf dmabuf imported st
  end.

Fixpoint run (ops : list Op) (st : World) : option World :=
  match ops with
  | [] => Some st
  | o :: ops => st ← step o st; run ops st
  end.

End GfxVc.

(** ** The display listener of [ui/gtk4-gl-area.c]

    A second set of definitions of the same callbacks, with external
    linkage.  No ops table in the sources refers to them. *)

Module GlArea.

(** [gtk_gl_area_set_scanout_mode] (lines 38-49). *)
Definition gtk_gl_area_set_scanout_mode (scanout : bool) (st : World) : World :=
  let st := emit (InfoReport (if scanout then "Setting scanout mode 1"
                              else "Setting scanout mode 0")) st in
  if Bool.eqb (scanout_mode (gfx st)) scanout then st
  else
    let st := with_gfx (set_scanout_mode scanout) st in
    if negb (scanout_mode (gfx st)) then emit EglFbDestroy st else st.

(** [gd_hw_gl_flushed] (lines 51-60), the handler meant for the fence
    descriptor becoming readable.  It dereferences [guest_fb.dmabuf]
    unconditionally. *)
Definition gd_hw_gl_flushed (st : World) : option World :=
  p ← guest_fb_dmabuf (gfx st);
  d ← dmabufs st !! p;
  let st := emit (SetFdHandler (fence_fd d)) st in
  let st := emit (Close (fence_fd d)) st in
  let st := store_dmabuf p (set_fence_fd (-1) d) st in
  Some (emit (GraphicHwGlBlock false) st).

(** [gd_gl_area_switch] (lines 80-106). *)
Definition gd_gl_area_switch (surface : DisplaySurface) (st : World) : World :=
  let st := emit (InfoReport "Calling gl_area_switch") st in
  let st := emit (TraceGdSwitch (surface_width surface) (surface_height surface)) st in
  let resized :=
    match ds (gfx st) with
    | Some old =>
        negb ((surface_width old =? surface_width surface)
              && (surface_height old =? surface_height surface))
    | None => true
    end in
  let st :=
    if gls (gfx st) then
      let st := emit (SurfaceGlDestroyTexture (ds (gfx st))) st in
      emit (SurfaceGlCreateTexture surface) st
    else st in
  let st := with_gfx (set_ds (Some surface)) st in
  if resized then emit GdUpdateWindowsize st else st.

(** [gd_gl_area_scanout_texture] (lines 108-135). *)
Definition gd_gl_area_scanout_texture
    (backing_id : Z) (backing_y_0_top : bool) (backing_width backing_height : Z)
    (vx vy vw vh : Z) (st : World) : World :=
  let st := emit (InfoReport "Calling gl_area_scanout_texture") st in
  let st := with_gfx (set_scanout_rect vx vy vw vh backing_y_0_top) st in
  let st := emit GlAreaMakeCurrent st in
  if (backing_id =? 0) || (w (gfx st) =? 0) || (h (gfx st) =? 0) then
    gtk_gl_area_set_scanout_mode false st
  else
    let st := gtk_gl_area_set_scanout_mode true st in
    emit (EglFbSetupForTex backing_width backing_height backing_id) st.

(** [gd_gl_area_scanout_disable]. *)
Definition gd_gl_area_scanout_disable (st : World) : World :=
  let st := emit (InfoReport "Calling gl_area_scanout_disable") st in
  gtk_gl_area_set_scanout_mode false st.

(** [gd_gl_area_scanout_flush] (lines 145-157). *)
Definition gd_gl_area_scanout_flush (vx vy vw vh : Z) (st : World) : option World :=
  let st := emit (InfoReport "Calling gl_area_scanout_flush") st in
  match guest_fb_dmabuf (gfx st) with
  | Some p =>
      d ← dmabufs st !! p;
      if negb (draw_submitted d) then
        let st := emit (GraphicHwGlBlock true) st in
        let st := store_dmabuf p (set_draw_submitted true d) st in
        Some (emit GlAreaQueueRender st)
      else Some (emit GlAreaQueueRender st)
  | None => Some (emit GlAreaQueueRender st)
  end.

(** [gd_gl_area_scanout_dmabuf] (lines 159-178); [imported] as in
    [GfxVc.gd_gl_area_scanout_dmabuf]. *)
Definition gd_gl_area_scanout_dmabuf (dmabuf : nat) (imported : Z) (st : World)
  : option World :=
  let st := emit (InfoReport "Calling gl_area_scanout_dmabuf") st in
  let st := emit GlAreaMakeCurrent st in
  d ← dmabufs st !! dmabuf;
  let st := emit (EglDmabufImportTexture dmabuf) st in
  let d := set_texture imported d in
  let st := store_dmabuf dmabuf d st in
  if texture d =? 0 then Some st
  else
    let st := gd_gl_area_scanout_texture (texture d) false (width d) (height d)
                0 0 (width d) (height d) st in
    if allow_fences d
    then Some (with_gfx (set_guest_fb_dmabuf (Some dmabuf)) st)
    else Some st.

(** The callbacks of this file, with the fence handler, and running a
    sequence of them. *)
Inductive Op :=
  | Switch (surface : DisplaySurface)
  | ScanoutTexture (backing_id : Z) (backing_y_0_top : bool)
      (backing_width backing_height vx vy vw vh : Z)
  | ScanoutDisable
  | ScanoutFlush (vx vy vw vh : Z)
  | ScanoutDmabuf (dmabuf : nat) (imported : Z)
  | FenceReady.

Definition step (o : Op) (st : World) : option World :=
  match o with
  | Switch surface => Some (gd_gl_area_switch surface st)
  | ScanoutTexture id top bw bh vx vy vw vh =>
      Some (gd_gl_area_scanout_texture id top bw bh vx vy vw vh st)
  | ScanoutDisable => Some (gd_gl_area_scanout_disable st)
  | ScanoutFlush vx vy vw vh => gd_gl_area_scanout_flush vx vy vw vh st
  | ScanoutDmabuf dmabuf imported => gd_gl_area_scanout_dmabuf dmabuf imported st
  | FenceReady => gd_hw_gl_flushed st
  end.

Fixpoint run (ops : list Op) (st : World) : option World :=
  match ops with
  | [] => Some st
  | o :: ops => st ← step o st; run ops st
  end.

End GlArea.

(** ** The display session: grab arbiter and input router ([ui/gtk4.c] and
    the event handlers of [ui/gtk4-gfx-vc.c]) *)

Module Gtk.

(** [VirtualConsole].  [window] tells whether [vc->window] is non-NULL, that
    is, whether the console is detached into a top-level window of its own.
    The next three fields are what [gd_update_cursor] asks GTK and the
    console about [vc->widget]. *)
Record VirtualConsole := {
  label : string;
  window : bool;
  is_gfx_widget : bool;
  is_graphic : bool;
  realized : bool;
  gfx : VirtualGfxConsole;
}.

(** [struct GtkDisplayState].  [actions] holds the boolean state of the
    stateful actions of the [GSimpleActionGroup]; a [VirtualConsole *] is the
    index of the console in [vc].  The last four fields are not part of the
    struct: the fullscreen state of [s->window] and the globals of the QEMU
    core that this code reads, followed by the calls made so far. *)
Record GtkDisplayState := {
  actions : gmap string bool;
  nb_vcs : nat;
  vc : list VirtualConsole;
  last_set : bool;
  last_x : Z;
  last_y : Z;
  grab_x_root : C.double;
  grab_y_root : C.double;
  kbd_owner : option nat;
  ptr_owner : option nat;
  is_fullscreen : bool;
  qemu_name : option string;
  runstate_is_running : bool;
  qemu_input_is_absolute : bool;
  events : list Event;
}.

Definition vc_zero : VirtualConsole :=
  {| label := ""; window := false; is_gfx_widget := false; is_graphic := false;
     realized := false; gfx := gfx_zero |}.

(** [&s->vc[i]], dereferenced. *)
Definition vc_at (s : GtkDisplayState) (i : nat) : VirtualConsole :=
  default vc_zero (vc s !! i).

Definition emit (e : Event) (s : GtkDisplayState) : GtkDisplayState :=
  {| actions := actions s; nb_vcs := nb_vcs s; vc := vc s; last_set := last_set s;
     last_x := last_x s; last_y := last_y s; grab_x_root := grab_x_root s;
     grab_y_root := grab_y_root s; kbd_owner := kbd_owner s;
     ptr_owner := ptr_owner s; is_fullscreen := is_fullscreen s;
     qemu_name := qemu_name s; runstate_is_running := runstate_is_running s;
     qemu_input_is_absolute := qemu_input_is_absolute s;
     events := events s ++ [e] |}.

Definition set_ptr_owner (o : option nat) (s : GtkDisplayState) : GtkDisplayState :=
  {| actions := actions s; nb_vcs := nb_vcs s; vc := vc s; last_set := last_set s;
     last_x := last_x s; last_y := last_y s; grab_x_root := grab_x_root s;
     grab_y_root := grab_y_root s; kbd_owner := kbd_owner s;
     ptr_owner := o; is_fullscreen := is_fullscreen s;
     qemu_name := qemu_name s; runstate_is_running := runstate_is_running s;
     qemu_input_is_absolute := qemu_input_is_absolute s;
     events := events s |}.

Definition set_grab_root (gx gy : C.double) (s : GtkDisplayState) : GtkDisplayState :=
  {| actions := actions s; nb_vcs := nb_vcs s; vc := vc s; last_set := last_set s;
     last_x := last_x s; last_y := last_y s; grab_x_root := gx;
     grab_y_root := gy; kbd_owner := kbd_owner s;
     ptr_owner := ptr_owner s; is_fullscreen := is_fullscreen s;
     qemu_name := qemu_name s; runstate_is_running := runstate_is_running s;
     qemu_input_is_absolute := qemu_input_is_absolute s;
     events := events s |}.

Definition set_last (valid : bool) (lx ly : Z) (s : GtkDisplayState) : GtkDisplayState :=
  {| actions := actions s; nb_vcs := nb_vcs s; vc := vc s; last_set := valid;
     last_x := lx; last_y := ly; grab_x_root := grab_x_root s;
     grab_y_root := grab_y_root s; kbd_owner := kbd_owner s;
     ptr_owner := ptr_owner s; is_fullscreen := is_fullscreen s;
     qemu_name := qemu_name s; runstate_is_running := runstate_is_running s;
     qemu_input_is_absolute := qemu_input_is_absolute s;
     events := events s |}.

(** [s_action_set_state], on the action that [g_action_map_lookup_action]
    finds under [name]: [g_simple_action_set_state] stores the new state in
    the action.  The [activate] callback of the action entry runs on
    [g_action_activate] only. *)
Definition s_action_set_state (name : string) (state : bool) (s : GtkDisplayState)
  : GtkDisplayState :=
  {| actions := <[name := state]> (actions s); nb_vcs := nb_vcs s; vc := vc s;
     last_set := last_set s; last_x := last_x s; last_y := last_y s;
     grab_x_root := grab_x_root s; grab_y_root := grab_y_root s;
     kbd_owner := kbd_owner s; ptr_owner := ptr_owner s;
     is_fullscreen := is_fullscreen s; qemu_name := qemu_name s;
     runstate_is_running := runstate_is_running s;
     qemu_input_is_absolute := qemu_input_is_absolute s; events := events s |}.

(** [owner == vc] for a nullable owner pointer. *)
Definition owner_is (owner : option nat) (vc : nat) : bool :=
  match owner with
  | Some o => Nat.eqb o vc
  | None => false
  end.

(** [gd_update_cursor]. *)
Definition gd_update_cursor (vc : nat) (s : GtkDisplayState) : GtkDisplayState :=
  let v := vc_at s vc in
  if negb (is_gfx_widget v) || negb (is_graphic v) then s
  else if negb (realized v) then s
  else if is_fullscreen s || qemu_input_is_absolute s || owner_is (ptr_owner s) vc
  then emit (WidgetSetCursor vc true) s
  else emit (WidgetSetCursor vc false) s.

(** The titles [gd_update_caption] builds. *)
Definition caption_prefix (s : GtkDisplayState) : string :=
  match qemu_name s with
  | Some name => "QEMU (" +:+ name +:+ ")"
  | None => "QEMU"
  end.

Definition main_title (s : GtkDisplayState) : string :=
  let grab :=
    match ptr_owner s with
    | Some o =>
        if negb (window (vc_at s o))
        then " - Press Ctrl+Alt+G to release grab" else ""
    | None => ""
    end in
  let status := if negb (runstate_is_running s) then " [Paused]" else "" in
  caption_prefix s +:+ status +:+ grab.

Definition vc_title (s : GtkDisplayState) (i : nat) : string :=
  caption_prefix s +:+ ": " +:+ label (vc_at s i)
    +:+ (if owner_is (kbd_owner s) i then " +kbd" else "")
    +:+ (if owner_is (ptr_owner s) i then " +ptr" else "").

(** [gd_update_caption]. *)
Definition gd_update_caption (s : GtkDisplayState) : GtkDisplayState :=
  let is_paused := negb (runstate_is_running s) in
  let s := s_action_set_state "pause" is_paused s in
  let s := emit (WindowSetTitle MainWindow (main_title s)) s in
  foldl (fun s i =>
           if negb (window (vc_at s i)) then s
           else emit (WindowSetTitle (VcWindow i) (vc_title s i)) s)
        s (seq 0 (nb_vcs s)).

(** [gd_grab_update]: the body is commented out in the source. *)
Definition gd_grab_update (vc : nat) (kbd ptr : bool) (s : GtkDisplayState)
  : GtkDisplayState := s.

(** [gd_ungrab_pointer] (lines 300-320). *)
Definition gd_ungrab_pointer (s : GtkDisplayState) : GtkDisplayState :=
  match ptr_owner s with
  | None => s
  | Some vc =>
      let s := set_ptr_owner None s in
      let s := gd_grab_update vc (owner_is (kbd_owner s) vc) false s in
      let s := gd_update_caption s in
      emit (TraceUngrab vc (label (vc_at s vc)) "ptr") s
  end.

(** The part of [gd_grab_pointer] below the ownership test.  [at_x], [at_y]
    are what [gdk_device_get_surface_at_position] writes through its two
    out-pointers. *)
Definition grab_pointer_take (vc : nat) (reason : string) (at_x at_y : C.double)
    (s : GtkDisplayState) : GtkDisplayState :=
  let s := gd_grab_update vc (owner_is (kbd_owner s) vc) true s in
  let s := set_grab_root at_x at_y s in
  let s := set_ptr_owner (Some vc) s in
  let s := gd_update_caption s in
  emit (TraceGrab vc (label (vc_at s vc)) "ptr" reason) s.

(** [gd_grab_pointer] (lines 322-340). *)
Definition gd_grab_pointer (vc : nat) (reason : string) (at_x at_y : C.double)
    (s : GtkDisplayState) : GtkDisplayState :=
  match ptr_owner s with
  | Some o =>
      if Nat.eqb o vc then s
      else grab_pointer_take vc reason at_x at_y (gd_ungrab_pointer s)
  | None => grab_pointer_take vc reason at_x at_y s
  end.

(** The loop that ends [gd_mouse_mode_change]: [gd_update_cursor] on every
    console. *)
Definition update_cursors (s : GtkDisplayState) : GtkDisplayState :=
  foldl (fun s i => gd_update_cursor i s) s (seq 0 (nb_vcs s)).

(** [gd_mouse_mode_change] (lines 249-269), the notifier the QEMU core runs
    when the pointer device changes between relative and absolute. *)
Definition gd_mouse_mode_change (s : GtkDisplayState) : GtkDisplayState :=
  let s :=
    match ptr_owner s with
    | Some o =>
        if qemu_input_is_absolute s then
          if negb (window (vc_at s o))
          then s_action_set_state "grab-input" false s
          else gd_ungrab_pointer s
        else s
    | None => s
    end in
  update_cursors s.

(** What [gd_motion_event] reads from the widget and from GDK: [self->scale]
    of the console widget, width, height and scale factor of the GDK surface,
    and the geometry of the monitor the surface is on. *)
Record Geometry := {
  scale : C.double;
  ww : Z;
  wh : Z;
  ws : Z;
  geometry_x : Z;
  geometry_y : Z;
  geometry_width : Z;
  geometry_height : Z;
}.

(** [fbw], [fbh]: the scaled size of the guest surface (lines 604-605). *)
Definition scaled (n : Z) (geo : Geometry) : Z :=
  C.int_of_double (PrimFloat.mul (C.double_of_int n) (scale geo)).

(** [mx], [my]: the letterbox margin (lines 613-618). *)
Definition margin (win fb : Z) : Z :=
  if win >? fb then C.div (C.int (win - fb)) 2 else 0.

(** Lines 620-621: a window position as a position on the guest surface,
    [((int)pointer - m) / self->scale * ws], stored in an [int]. *)
Definition to_surface (pointer : C.double) (m : Z) (geo : Geometry) : Z :=
  C.int_of_double
    (PrimFloat.mul
       (PrimFloat.div (C.double_of_int (C.int (C.int_of_double pointer - m)))
                      (scale geo))
       (C.double_of_int (ws geo))).

(** [x] and [y] of [gd_motion_event] for a console showing [surface]. *)
Definition surface_x (geo : Geometry) (surface : DisplaySurface) (pointer_x : C.double) : Z :=
  to_surface pointer_x (margin (ww geo) (scaled (surface_width surface) geo)) geo.

Definition surface_y (geo : Geometry) (surface : DisplaySurface) (pointer_y : C.double) : Z :=
  to_surface pointer_y (margin (wh geo) (scaled (surface_height surface) geo)) geo.

(** The test of lines 662-663: the pointer sits on an edge of the monitor. *)
Definition at_monitor_edge (geo : Geometry) (px py : Z) : bool :=
  (px <=? geometry_x geo)
  || (C.int (px - geometry_x geo) >=? C.int (geometry_width geo - 1))
  || (py <=? geometry_y geo)
  || (C.int (py - geometry_y geo) >=? C.int (geometry_height geo - 1)).

(** Lines 639-677 of [gd_motion_event]: record the position, then, in
    relative mode on the owning console, forget it again when the pointer
    reached a monitor edge (the warp itself is commented out). *)
Definition motion_record (geo : Geometry) (pointer_x pointer_y : C.double)
    (vc : nat) (px py : Z) (s : GtkDisplayState) : GtkDisplayState :=
  let s := set_last true px py s in
  if negb (qemu_input_is_absolute s) && owner_is (ptr_owner s) vc then
    if at_monitor_edge geo (C.int_of_double pointer_x) (C.int_of_double pointer_y)
    then set_last false (last_x s) (last_y s) s
    else s
  else s.

(** [gd_motion_event] (lines 585-678). *)
Definition gd_motion_event (geo : Geometry) (pointer_x pointer_y : C.double)
    (vc : nat) (s : GtkDisplayState) : GtkDisplayState :=
  match ds (gfx (vc_at s vc)) with
  | None => s
  | Some surface =>
      let px := surface_x geo surface pointer_x in
      let py := surface_y geo surface pointer_y in
      if qemu_input_is_absolute s then
        if (px <? 0) || (py <? 0)
           || (px >=? surface_width surface) || (py >=? surface_height surface)
        then s
        else
          let s := emit (InputQueueAbs INPUT_AXIS_X px 0 (surface_width surface)) s in
          let s := emit (InputQueueAbs INPUT_AXIS_Y py 0 (surface_height surface)) s in
          let s := emit InputEventSync s in
          motion_record geo pointer_x pointer_y vc px py s
      else if last_set s && owner_is (ptr_owner s) vc then
        let s := emit (InputQueueRel INPUT_AXIS_X (C.int (px - last_x s))) s in
        let s := emit (InputQueueRel INPUT_AXIS_Y (C.int (py - last_y s))) s in
        let s := emit InputEventSync s in
        motion_record geo pointer_x pointer_y vc px py s
      else motion_record geo pointer_x pointer_y vc px py s
  end.

(** Calls into the grab arbiter, and running a sequence of them. *)
Inductive GrabCall :=
  | GrabPointer (vc : nat) (reason : string) (at_x at_y : C.double)
  | UngrabPointer.

Definition call (c : GrabCall) (s : GtkDisplayState) : GtkDisplayState :=
  match c with
  | GrabPointer vc reason at_x at_y => gd_grab_pointer vc reason at_x at_y s
  | UngrabPointer => gd_ungrab_pointer s
  end.

Definition calls (cs : list GrabCall) (s : GtkDisplayState) : GtkDisplayState :=
  foldl (fun s c => call c s) s cs.

(** Who holds the pointer according to the trace points alone: a
    [TraceGrab] of kind "ptr" is legal only while nobody holds it, a
    [TraceUngrab] only for the holder.  [None] when the log breaks this
    discipline. *)
Definition observe (holder : option nat) (e : Event) : option (option nat) :=
  match e with
  | TraceGrab vc _ "ptr" _ =>
      match holder with
      | None => Some (Some vc)
      | Some _ => None
      end
  | TraceUngrab vc _ "ptr" =>
      match holder with
      | Some o => if Nat.eqb o vc then Some None else None
      | None => None
      end
  | _ => Some holder
  end.

Fixpoint observed (holder : option nat) (log : list Event) : option (option nat) :=
  match log with
  | [] => Some holder
  | e :: log =>
      match observe holder e with
      | Some holder => observed holder log
      | None => None
      end
  end.

(** Several events at once. *)
Definition emits (es : list Event) (s : GtkDisplayState) : GtkDisplayState :=
  {| actions := actions s; nb_vcs := nb_vcs s; vc := vc s; last_set := last_set s;
     last_x := last_x s; last_y := last_y s; grab_x_root := grab_x_root s;
     grab_y_root := grab_y_root s; kbd_owner := kbd_owner s;
     ptr_owner := ptr_owner s; is_fullscreen := is_fullscreen s;
     qemu_name := qemu_name s; runstate_is_running := runstate_is_running s;
     qemu_input_is_absolute := qemu_input_is_absolute s;
     events := events s ++ es |}.

(** The titles one run of [gd_update_caption] sets: the main window's, then
    one per detached console among [l]. *)
Definition vc_titles (s : GtkDisplayState) (l : list nat) : list Event :=
  flat_map (fun i => if window (vc_at s i)
                     then [WindowSetTitle (VcWindow i) (vc_title s i)] else []) l.

Definition caption_events (s : GtkDisplayState) : list Event :=
  WindowSetTitle MainWindow (main_title s) :: vc_titles s (seq 0 (nb_vcs s)).

(** Events that are not trace points of a grab or an ungrab. *)
Definition silent (e : Event) : bool :=
  match e with
  | TraceGrab _ _ _ _ | TraceUngrab _ _ _ => false
  | _ => true
  end.

(** The events logged since the log had [n] entries. *)
Definition since (n : nat) (s : GtkDisplayState) : list Event :=
  drop n (events s).

(** Two graphics consoles, "vc0" in its tab and "vc1" detached into a
    window of its own, each showing a 640x480 surface. *)
Definition tabbed_vc : VirtualConsole :=
  {| label := "vc0"; window := false; is_gfx_widget := true; is_graphic := true;
     realized := true;
     gfx := set_ds (Some {| surface_width := 640; surface_height := 480;
                            is_placeholder := false |}) gfx_zero |}.

Definition detached_vc : VirtualConsole :=
  {| label := "vc1"; window := true; is_gfx_widget := true; is_graphic := true;
     realized := true;
     gfx := set_ds (Some {| surface_width := 640; surface_height := 480;
                            is_placeholder := false |}) gfx_zero |}.

Definition session (owner : option nat) (absolute : bool) : GtkDisplayState :=
  {| actions := <["grab-input" := true]> ∅; nb_vcs := 2;
     vc := [tabbed_vc; detached_vc];
     last_set := true; last_x := 100; last_y := 100;
     grab_x_root := C.double_of_int 0; grab_y_root := C.double_of_int 0;
     kbd_owner := None; ptr_owner := owner; is_fullscreen := false;
     qemu_name := None; runstate_is_running := true;
     qemu_input_is_absolute := absolute; events := [] |}.

(** An unscaled 800x600 window on a 1920x1080 monitor at the origin. *)
Definition plain_geometry : Geometry :=
  {| scale := C.double_of_int 1; ww := 800; wh := 600; ws := 1;
     geometry_x := 0; geometry_y := 0;
     geometry_width := 1920; geometry_height := 1080 |}.




End Gtk.

(** The [allow_fences] flag of the dma-buf at an address, if there is one. *)
Definition fence_flag (st : World) (p : nat) : option bool :=
  allow_fences <$> dmabufs st !! p.

(** The pending dma-buf, if any, is one that allows fences. *)
Definition pending_allows_fences (st : World) : Prop :=
  forall p, guest_fb_dmabuf (gfx st) = Some p -> fence_flag st p = Some true.

(** What one callback guarantees: it keeps every [allow_fences] flag, and a dma-buf that is
    pending afterwards was pending before or allows fences. *)
Definition step_frame (st st' : World) : Prop :=
  (forall q, fence_flag st' q = fence_flag st q)
  /\ (forall p, guest_fb_dmabuf (gfx st') = Some p ->
                guest_fb_dmabuf (gfx st) = Some p \/ fence_flag st p = Some true).

(** A dma-buf whose [allow_fences] flag is off is never the pending one:
    from a fresh console, run any callbacks, import [B], run any callbacks;
    the import leaves the pending reference as it was, and afterwards [B] is
    neither pending nor the dma-buf a flush would block the guest for. *)
Definition unfenced_never_pending {Op : Type}
    (run : list Op -> World -> option World)
    (import : nat -> Z -> World -> option World) : Prop :=
  forall heap index before st B imported st1 after st2,
    run before (initial heap index) = Some st ->
    fence_flag st B = Some false ->
    import B imported st = Some st1 ->
    run after st1 = Some st2 ->
    guest_fb_dmabuf (gfx st1) = guest_fb_dmabuf (gfx st)
    /\ guest_fb_dmabuf (gfx st2) <> Some B
    /\ blocking_dmabuf st2 <> Some B.

(** An import makes a dma-buf pending only if it allows fences and the
    import produced a texture; a failed import changes no field of [gfx]. *)
Definition retains_only_fenced (import : nat -> Z -> World -> option World) : Prop :=
  forall st p imported st',
    import p imported st = Some st' ->
    (imported = 0 -> gfx st' = gfx st)
    /\ (guest_fb_dmabuf (gfx st') = Some p ->
        guest_fb_dmabuf (gfx st) = Some p
        \/ (fence_flag st p = Some true /\ imported <> 0)).

(** ** Scenarios *)

Module Scenario.

Definition vga_640 : DisplaySurface :=
  {| surface_width := 640; surface_height := 480; is_placeholder := false |}.

Definition vga_800 : DisplaySurface :=
  {| surface_width := 800; surface_height := 600; is_placeholder := false |}.

Definition placeholder_640 : DisplaySurface :=
  {| surface_width := 640; surface_height := 480; is_placeholder := true |}.

(** A fence-capable dma-buf and one without fences, at addresses 1 and 2. *)
Definition fenced : QemuDmaBuf :=
  {| width := 1920; height := 1080; texture := 0; fence_fd := 9;
     allow_fences := true; draw_submitted := false |}.

Definition unfenced : QemuDmaBuf :=
  {| width := 1920; height := 1080; texture := 0; fence_fd := -1;
     allow_fences := false; draw_submitted := false |}.

Definition heap : gmap nat QemuDmaBuf := <[1%nat := fenced]> (<[2%nat := unfenced]> ∅).

(** The primary console, and a secondary one (index 1). *)
Definition primary : World := initial heap 0.
Definition secondary : World := initial heap 1.

End Scenario.

(** ** The rest of the display listener ([ui/gtk4-gfx-vc.c]) *)

Module Listener.

(** [gd_dpy_refresh] (lines 151-164).  [monitor] is as for
    [gd_update_monitor_refresh_rate].  [graphic_hw_update] lets the device
    emulation produce a frame; the listener callbacks it invokes while doing
    so are [hook], in order. *)
Definition gd_dpy_refresh (GUI_REFRESH_INTERVAL_DEFAULT : Z) (monitor : option Z)
    (hook : list GfxVc.Op) (st : World) : option World :=
  let st := gd_update_monitor_refresh_rate GUI_REFRESH_INTERVAL_DEFAULT monitor st in
  let st := emit GraphicHwUpdate st in
  st ← GfxVc.run hook st;
  if negb (glupdates (gfx st) =? 0) then
    let st := with_gfx (set_glupdates 0) st in
    Some (emit WidgetQueueDraw st)
  else Some st.

(** The guest reporting the dirty rectangles [rects], one
    [gd_dpy_gfx_update] each. *)
Definition gfx_updates (rects : list (Z * Z * Z * Z)) : list GfxVc.Op :=
  map (fun r => match r with
                | (vx, vy, vw, vh) => GfxVc.GfxUpdate vx vy vw vh
                end) rects.

(** The shader is set up exactly when the surface on show is not a
    placeholder on a console other than the first. *)
Definition shader_matches_surface (st : World) : Prop :=
  forall surface,
    ds (gfx st) = Some surface ->
    gls (gfx st) = negb (is_placeholder surface && negb (con_index st =? 0)).

End Listener.

(** ** Input devices of the guest *)

(** [InputButton] of the QAPI schema. *)
Inductive InputButton :=
  | INPUT_BUTTON_LEFT
  | INPUT_BUTTON_MIDDLE
  | INPUT_BUTTON_RIGHT
  | INPUT_BUTTON_WHEEL_UP
  | INPUT_BUTTON_WHEEL_DOWN
  | INPUT_BUTTON_SIDE
  | INPUT_BUTTON_EXTRA
  | INPUT_BUTTON_WHEEL_LEFT
  | INPUT_BUTTON_WHEEL_RIGHT.

(** [GdkScrollDirection]. *)
Inductive GdkScrollDirection :=
  | GDK_SCROLL_UP
  | GDK_SCROLL_DOWN
  | GDK_SCROLL_LEFT
  | GDK_SCROLL_RIGHT
  | GDK_SCROLL_SMOOTH.

(** Calls of the button, scroll and key handlers into the QEMU core, and
    what they print. *)
Inductive Call :=
  | InputQueueBtn (vc : nat) (btn : InputButton) (down : bool)
  | InputSync
  | KbdStateKeyEvent (vc : nat) (qcode : Z) (down : bool)
  | TraceKeyEvent (label : string) (keycode qcode : Z) (direction : string)
  | Stderr (line : string).

Definition is_btn (c : Call) : bool :=
  match c with InputQueueBtn _ _ _ => true | _ => false end.

(** ** More of the display session ([ui/gtk4.c]) and the handlers of the
    graphics widget ([ui/gtk4-gfx-vc.c]) *)

Module Session.

Import Gtk.

Definition set_kbd_owner (o : option nat) (s : GtkDisplayState) : GtkDisplayState :=
  {| actions := actions s; nb_vcs := nb_vcs s; vc := vc s; last_set := last_set s;
     last_x := last_x s; last_y := last_y s; grab_x_root := grab_x_root s;
     grab_y_root := grab_y_root s; kbd_owner := o;
     ptr_owner := ptr_owner s; is_fullscreen := is_fullscreen s;
     qemu_name := qemu_name s; runstate_is_running := runstate_is_running s;
     qemu_input_is_absolute := qemu_input_is_absolute s;
     events := events s |}.

(** [gd_vc_find_by_menu] (lines 79-91): the first of the [nb_vcs] consoles
    whose label is [idx]. *)
Definition gd_vc_find_by_menu (s : GtkDisplayState) (idx : string) : option nat :=
  List.find (fun i => String.eqb (label (vc_at s i)) idx) (seq 0 (nb_vcs s)).

(** [gd_vc_find_by_page] (lines 98-111).  [page_num i] is what
    [gtk_notebook_page_num] answers for the widget of console [i]: its page
    in the notebook, or -1 when it is not in the notebook. *)
Definition gd_vc_find_by_page (page_num : nat -> Z) (s : GtkDisplayState) (page : Z)
  : option nat :=
  List.find (fun i => page_num i =? page) (seq 0 (nb_vcs s)).

(** [gd_vc_find_current] (lines 118-127); [current_page] is the answer of
    [gtk_notebook_get_current_page]. *)
Definition gd_vc_find_current (page_num : nat -> Z) (current_page : Z)
    (s : GtkDisplayState) : option nat :=
  if current_page =? -1 then None
  else gd_vc_find_by_page page_num s current_page.

(** [s_action_get_state] on the action found under [name]; the stateful
    actions of [window_entries] start out false. *)
Definition s_action_get_state (name : string) (s : GtkDisplayState) : bool :=
  default false (actions s !! name).

(** [gd_ungrab_keyboard] (lines 342-354). *)
Definition gd_ungrab_keyboard (s : GtkDisplayState) : GtkDisplayState :=
  match kbd_owner s with
  | None => s
  | Some vc =>
      let s := set_kbd_owner None s in
      let s := gd_grab_update vc false (owner_is (ptr_owner s) vc) s in
      let s := gd_update_caption s in
      Gtk.emit (TraceUngrab vc (label (vc_at s vc)) "kbd") s
  end.

(** The part of [gd_grab_keyboard] below the ownership test. *)
Definition grab_keyboard_take (vc : nat) (reason : string) (s : GtkDisplayState)
  : GtkDisplayState :=
  let s := gd_grab_update vc true (owner_is (ptr_owner s) vc) s in
  let s := set_kbd_owner (Some vc) s in
  let s := gd_update_caption s in
  Gtk.emit (TraceGrab vc (label (vc_at s vc)) "kbd" reason) s.

(** [gd_grab_keyboard] (lines 356-370). *)
Definition gd_grab_keyboard (vc : nat) (reason : string) (s : GtkDisplayState)
  : GtkDisplayState :=
  match kbd_owner s with
  | Some o =>
      if Nat.eqb o vc then s
      else grab_keyboard_take vc reason (gd_ungrab_keyboard s)
  | None => grab_keyboard_take vc reason s
  end.

(** [on_grab_input_cb] (lines 570-588), the [activate] callback of the
    "grab-input" action.  [current] is the console [gd_vc_find_current]
    returns; [at_x], [at_y] as for [gd_grab_pointer]. *)
Definition on_grab_input_cb (current : option nat) (at_x at_y : C.double)
    (s : GtkDisplayState) : GtkDisplayState :=
  match current with
  | None => s
  | Some vc =>
      let s :=
        if negb (s_action_get_state "grab-input" s) then
          let s := s_action_set_state "grab-input" true s in
          let s := gd_grab_keyboard vc "user-request-main-window" s in
          gd_grab_pointer vc "user-request-main-window" at_x at_y s
        else
          let s := s_action_set_state "grab-input" false s in
          let s := gd_ungrab_keyboard s in
          gd_ungrab_pointer s in
      gd_update_cursor vc s
  end.

(** [gd_win_grab] (lines 383-395 of [gtk4-gfx-vc.c]), the Ctrl+Alt+G
    shortcut of a graphics widget.  The line on stderr is printed first. *)
Definition gd_win_grab (vc : nat) (at_x at_y : C.double) (s : GtkDisplayState)
  : list Call * GtkDisplayState :=
  ([Stderr ("gd_win_grab: " +:+ label (vc_at s vc))],
   match ptr_owner s with
   | Some _ => gd_ungrab_pointer s
   | None => gd_grab_pointer vc "user-request-detached-tab" at_x at_y s
   end).

(** The [switch] of [gd_button_event]: GDK button numbers to guest
    buttons. *)
Definition button_of (button_nbr : Z) : option InputButton :=
  if button_nbr =? 1 then Some INPUT_BUTTON_LEFT
  else if button_nbr =? 2 then Some INPUT_BUTTON_MIDDLE
  else if button_nbr =? 3 then Some INPUT_BUTTON_RIGHT
  else if button_nbr =? 8 then Some INPUT_BUTTON_SIDE
  else if button_nbr =? 9 then Some INPUT_BUTTON_EXTRA
  else None.

(** [gd_button_event] (lines 525-570), connected to both "pressed" and
    "released" of the click gesture.  The state changes (an implicit grab)
    come before the calls returned. *)
Definition gd_button_event (n_presses button_nbr : Z) (at_x at_y : C.double)
    (vc : nat) (s : GtkDisplayState) : GtkDisplayState * list Call :=
  let s :=
    if (button_nbr =? 1) && (n_presses =? 1)
       && negb (qemu_input_is_absolute s) && negb (owner_is (ptr_owner s) vc)
    then
      if negb (window (vc_at s vc)) then s
      else gd_grab_pointer vc "relative-mode-click" at_x at_y s
    else s in
  match button_of button_nbr with
  | None => (s, [])
  | Some btn =>
      if (n_presses =? 2) || (n_presses =? 3) then (s, [])
      else (s, [InputQueueBtn vc btn (n_presses =? 1); InputSync])
  end.

(** The press and release pair [on_scroll] queues for one wheel button. *)
Definition wheel_click (vc : nat) (btn : option InputButton) : list Call :=
  match btn with
  | Some b => [InputQueueBtn vc b true; InputSync; InputQueueBtn vc b false; InputSync]
  | None => []
  end.

(** [a > 0] on a [double]. *)
Definition positive (a : C.double) : bool := PrimFloat.ltb (C.double_of_int 0) a.

(** [a < 0] on a [double]. *)
Definition negative (a : C.double) : bool := PrimFloat.ltb a (C.double_of_int 0).

(** [on_scroll] (lines 428-488).  [btn_vertical] with [has_vertical], and
    [btn_horizontal] with [has_horizontal], are options. *)
Definition on_scroll (direction : GdkScrollDirection) (delta_x delta_y : C.double)
    (vc : nat) : list Call :=
  let '(btn_vertical, btn_horizontal) :=
    match direction with
    | GDK_SCROLL_UP => (Some INPUT_BUTTON_WHEEL_UP, None)
    | GDK_SCROLL_DOWN => (Some INPUT_BUTTON_WHEEL_DOWN, None)
    | GDK_SCROLL_LEFT => (None, Some INPUT_BUTTON_WHEEL_LEFT)
    | GDK_SCROLL_RIGHT => (None, Some INPUT_BUTTON_WHEEL_RIGHT)
    | GDK_SCROLL_SMOOTH =>
        if positive delta_y then (Some INPUT_BUTTON_WHEEL_DOWN, None)
        else if negative delta_y then (Some INPUT_BUTTON_WHEEL_UP, None)
        else if positive delta_x then (None, Some INPUT_BUTTON_WHEEL_RIGHT)
        else if negative delta_x then (None, Some INPUT_BUTTON_WHEEL_LEFT)
        else (None, None)
    end in
  wheel_click vc btn_vertical ++ wheel_click vc btn_horizontal.

(** [GDK_KEY_Pause] of [gdk/gdkkeysyms.h]. *)
Definition GDK_KEY_Pause : Z := 0xff13.

(** [gd_key_event] (lines 399-417).  [keyval] and [keycode] are [guint]
    values; [gd_map_keycode] takes an [int].  [Q_KEY_CODE_PAUSE] comes from
    the QAPI schema.  [None] when the table is read past its end. *)
Definition gd_key_event (Q_KEY_CODE_PAUSE : Z) (keymap : Keymap.Statics)
    (keyval keycode : Z) (is_press : bool) (vc : nat) (s : GtkDisplayState)
  : option (list Call) :=
  if keyval =? GDK_KEY_Pause then
    Some [KbdStateKeyEvent vc Q_KEY_CODE_PAUSE is_press]
  else
    qcode ← Keymap.returned (Keymap.gd_map_keycode keymap (C.int keycode));
    Some [TraceKeyEvent (label (vc_at s vc)) keycode qcode
            (if is_press then "down" else "up");
          KbdStateKeyEvent vc qcode is_press].

(** Calls into the arbiter for both devices, and running a sequence. *)
Inductive ArbiterCall :=
  | Pointer (c : GrabCall)
  | GrabKeyboard (vc : nat) (reason : string)
  | UngrabKeyboard.

Definition arbiter_call (c : ArbiterCall) (s : GtkDisplayState) : GtkDisplayState :=
  match c with
  | Pointer c => call c s
  | GrabKeyboard vc reason => gd_grab_keyboard vc reason s
  | UngrabKeyboard => gd_ungrab_keyboard s
  end.

Definition arbiter_calls (cs : list ArbiterCall) (s : GtkDisplayState) : GtkDisplayState :=
  foldl (fun s c => arbiter_call c s) s cs.

(** The pointer calls among [cs]. *)
Definition pointer_calls (cs : list ArbiterCall) : list GrabCall :=
  omap (fun c => match c with Pointer c => Some c | _ => None end) cs.

(** What the grab functions leave as it is: the consoles, the last pointer
    position, the environment, and the state of the "grab-input" action. *)
Definition arbiter_frame (s s' : GtkDisplayState) : Prop :=
  nb_vcs s' = nb_vcs s /\ vc s' = vc s
  /\ (last_set s', last_x s', last_y s') = (last_set s, last_x s, last_y s)
  /\ is_fullscreen s' = is_fullscreen s
  /\ qemu_name s' = qemu_name s
  /\ runstate_is_running s' = runstate_is_running s
  /\ qemu_input_is_absolute s' = qemu_input_is_absolute s
  /\ actions s' !! "grab-input" = actions s !! "grab-input".

(** All labels of the session differ. *)
Definition labels_distinct (s : GtkDisplayState) : Prop :=
  forall i j, (i < nb_vcs s)%nat -> (j < nb_vcs s)%nat ->
              label (vc_at s i) = label (vc_at s j) -> i = j.

End Session.

(** ** The text console ([ui/gtk4-vte-vc.c]) *)

Module Vte.

(** [isprint] of the C library on a value below 128, in the "C.UTF-8"
    locale that [gtk_display_init] selects for [LC_CTYPE]. *)
Definition isprint (c : Z) : bool := (32 <=? c) && (c <=? 126).

(** What the echo loop of [gd_vc_in] (lines 146-160) feeds the terminal for
    one byte of [text]: the byte itself, "\r\n", or a caret and the byte
    with bit 6 flipped.  Bytes are their values from 0 to 255. *)
Definition echo_byte (t : Z) : list Z :=
  let c := C.to_unsigned 8 t in
  if (c >=? 128) || isprint c then [c]
  else if (c =? 13) || (c =? 10) then [13; 10]
  else [94; C.to_unsigned 8 (Z.lxor c 64)].

(** Bytes that do not steer a terminal: carriage return, line feed,
    printable ASCII, and the bytes from 128 up. *)
Definition harmless (b : Z) : bool :=
  (b =? 13) || (b =? 10) || ((32 <=? b) && (b <=? 126))
  || ((128 <=? b) && (b <=? 255)).

(** What [gd_vc_in] does with the [size] bytes [text] typed into the
    terminal, up to its final call of [gd_vc_send_chars]: the chunks fed
    back to the terminal, one [vte_terminal_feed] each, and the bytes pushed
    to the output FIFO.  [free] is the answer of [fifo8_num_free]. *)
Definition gd_vc_in (echo : bool) (free : Z) (text : list Z)
  : list (list Z) * list Z :=
  let size := Z.of_nat (length text) in
  (if echo then map echo_byte text else [],
   take (Z.to_nat (C.MIN free size)) text).

(** [MAX_VCS] of [include/ui/gtk4.h]. *)
Definition MAX_VCS : Z := 10.

(** The statics [nb_vcs] and [vcs] of [gtk4-vte-vc.c]: the character
    devices registered so far, by slot. *)
Record Registry := {
  nb_vcs : Z;
  vcs : list (option nat);
}.

Definition registry_start : Registry :=
  {| nb_vcs := 0; vcs := replicate (Z.to_nat MAX_VCS) None |}.

(** [gd_vc_open] (lines 119-135): [inr] carries the message of
    [error_setg]; on success [*be_opened] is set to false. *)
Definition gd_vc_open (chr : nat) (r : Registry) : Registry + string :=
  if nb_vcs r =? MAX_VCS then inr "Maximum number of consoles reached"
  else inl {| nb_vcs := C.int (nb_vcs r + 1);
              vcs := <[Z.to_nat (nb_vcs r) := Some chr]> (vcs r) |}.

(** Opening the devices [chrs] in turn: a refused one leaves the registry
    alone. *)
Definition open_all (chrs : list nat) (r : Registry) : Registry :=
  foldl (fun r chr => match gd_vc_open chr r with inl r' => r' | inr _ => r end)
        r chrs.

End Vte.

(** * Part II: properties *)

(** ** C integers *)

Lemma int_id v : C.INT_MIN <= v <= C.INT_MAX -> C.int v = v.
Proof.
  unfold C.int, C.to_signed, C.INT_MIN, C.INT_MAX. intros Hv.
  destruct (Z_lt_le_dec v 0) as [Hneg | Hpos].
  - replace (v mod 2 ^ 32) with (v + 2 ^ 32).
    + destruct (Z.ltb_spec (v + 2 ^ 32) (2 ^ (32 - 1))); lia.
    + apply Z.mod_unique with (q := -1); lia.
  - rewrite Z.mod_small by lia.
    destruct (Z.ltb_spec v (2 ^ (32 - 1))); lia.
Qed.

Lemma size_t_id v : 0 <= v < 2 ^ 64 -> C.size_t v = v.
Proof. intros Hv. unfold C.size_t, C.to_unsigned. now apply Z.mod_small. Qed.

Lemma size_t_neg v : - 2 ^ 63 <= v < 0 -> C.size_t v = v + 2 ^ 64.
Proof.
  intros Hv. unfold C.size_t, C.to_unsigned.
  symmetry. apply Z.mod_unique with (q := -1); lia.
Qed.

Lemma size_t_le v : 0 <= v -> C.size_t v <= v.
Proof. intros Hv. unfold C.size_t, C.to_unsigned. apply Z.mod_le; lia. Qed.

Lemma MIN_min a b : C.MIN a b = Z.min a b.
Proof. unfold C.MIN. destruct (Z.ltb_spec a b); lia. Qed.

(** ** Keyboard table *)

Import Keymap.

(** No table, no access: every scancode maps to 0. *)
Lemma map_keycode_without_table maplen scancode :
  gd_map_keycode {| keycode_map := None; keycode_maplen := maplen |} scancode = NoOp.
Proof. reflexivity. Qed.

(** A scancode inside the table reads its own entry. *)
Lemma map_keycode_inside (tbl : list Z) scancode :
  0 <= scancode < Z.of_nat (length tbl) ->
  exists v, tbl !! Z.to_nat scancode = Some v
            /\ gd_map_keycode (gd_get_keymap true tbl) scancode
               = Entry (Z.to_nat scancode) v.
Proof.
  intros Hs. unfold gd_map_keycode, gd_get_keymap. simpl.
  assert (Hle : C.size_t scancode <= scancode) by (apply size_t_le; lia).
  destruct (Z.gtb_spec (C.size_t scancode) (Z.of_nat (length tbl))); [lia |].
  unfold index. destruct (Z.ltb_spec scancode 0); [lia |].
  destruct (lookup_lt_is_Some_2 tbl (Z.to_nat scancode)) as [v Hv]; [lia |].
  exists v. now rewrite Hv.
Qed.

(** An [int] above the length is rejected before the table is touched. *)
Lemma map_keycode_above (tbl : list Z) scancode :
  Z.of_nat (length tbl) < scancode <= C.INT_MAX ->
  gd_map_keycode (gd_get_keymap true tbl) scancode = NoOp.
Proof.
  unfold C.INT_MAX. intros Hs.
  unfold gd_map_keycode, gd_get_keymap. simpl.
  rewrite size_t_id by lia.
  destruct (Z.gtb_spec scancode (Z.of_nat (length tbl))); [reflexivity | lia].
Qed.

(** So is a negative [int]: as a [size_t] it is huge. *)
Lemma map_keycode_negative (tbl : list Z) scancode :
  Z.of_nat (length tbl) < 2 ^ 63 -> C.INT_MIN <= scancode < 0 ->
  gd_map_keycode (gd_get_keymap true tbl) scancode = NoOp.
Proof.
  unfold C.INT_MIN. intros Hl Hs.
  unfold gd_map_keycode, gd_get_keymap. simpl.
  rewrite size_t_neg by lia.
  destruct (Z.gtb_spec (scancode + 2 ^ 64) (Z.of_nat (length tbl))); [reflexivity | lia].
Qed.

(** ** C7: the range test of [gd_map_keycode] lets one index too many
    through.  With a table of [length tbl] entries loaded, the scancode
    [length tbl] is not greater than [keycode_maplen], so the function
    evaluates [keycode_map[length tbl]], one element past the end of the
    table. *)
Theorem map_keycode_at_length_reads_past_end (tbl : list Z) :
  gd_map_keycode (gd_get_keymap true tbl) (Z.of_nat (length tbl))
  = PastEnd (Z.of_nat (length tbl)).
Proof.
  unfold gd_map_keycode, gd_get_keymap. simpl.
  assert (Hle : C.size_t (Z.of_nat (length tbl)) <= Z.of_nat (length tbl))
    by (apply size_t_le; lia).
  destruct (Z.gtb_spec (C.size_t (Z.of_nat (length tbl))) (Z.of_nat (length tbl)));
    [lia |].
  unfold index. destruct (Z.ltb_spec (Z.of_nat (length tbl)) 0); [lia |].
  rewrite Nat2Z.id. now rewrite (lookup_ge_None_2 tbl (length tbl)) by lia.
Qed.

(** The same on the three-entry table: scancode 3 reads index 3. *)
Example map_keycode_small_table :
  gd_map_keycode small_table 3 = PastEnd 3
  /\ gd_map_keycode small_table 2 = Entry 2 46
  /\ gd_map_keycode small_table 4 = NoOp.
Proof. repeat split; vm_compute; reflexivity. Qed.

(** ** Refresh pacing *)





(** A 60 Hz monitor gives 16 ms, a 10 Hz monitor is clamped to the default
    (30 ms in [ui/console.h]). *)
Example update_interval_60Hz :
  update_interval (gfx (gd_update_monitor_refresh_rate 30 (Some 60000) (initial ∅ 0))) = 16
  /\ update_interval (gfx (gd_update_monitor_refresh_rate 30 (Some 10000) (initial ∅ 0))) = 30
  /\ update_interval (gfx (gd_update_monitor_refresh_rate 30 None (initial ∅ 0))) = 30.
Proof. repeat split; vm_compute; reflexivity. Qed.

(** Outside that range the stores wrap: a rate of -60000 gives the [int]
    -16, which [update_interval] holds as 2^64 - 16, above the default, and
    [dpy_set_ui_info] is handed 2^32 - 60000. *)
Example update_interval_negative_rate :
  let st' := gd_update_monitor_refresh_rate 30 (Some (-60000)) (initial ∅ 0) in
  update_interval (gfx st') = 2 ^ 64 - 16
  /\ events st' = [DpySetUiInfo (2 ^ 32 - 60000)].
Proof. split; vm_compute; reflexivity. Qed.

(** ** Scanout pipeline *)

Lemma count_app f (l l' : list Event) : count f (l ++ l') = (count f l + count f l')%nat.
Proof. unfold count. now rewrite filter_app, length_app. Qed.

Lemma count_nil f : count f [] = 0%nat.
Proof. reflexivity. Qed.

Lemma count_cons f (e : Event) (l : list Event) :
  count f (e :: l) = Nat.add (if f e then 1%nat else 0%nat) (count f l).
Proof.
  unfold count. rewrite filter_cons.
  destruct (f e); destruct (decide _); simpl; congruence.
Qed.

Ltac count_events := rewrite ?count_app, ?count_cons, ?count_nil; simpl.

Lemma set_scanout_mode_same (g : VirtualGfxConsole) :
  set_scanout_mode (scanout_mode g) g = g.
Proof. now destruct g. Qed.

(** What [gtk_gl_area_set_scanout_mode] of [gtk4-gfx-vc.c] does, case by
    case: the flag takes the requested value, and only a change from true to
    false calls out. *)
Lemma gfxvc_set_scanout_mode_spec (scanout : bool) (st : World) :
  let st' := GfxVc.gtk_gl_area_set_scanout_mode scanout st in
  gfx st' = set_scanout_mode scanout (gfx st)
  /\ dmabufs st' = dmabufs st
  /\ events st' = events st ++
       (if scanout_mode (gfx st) && negb scanout
        then EglFbDestroy :: recreate_surface_texture (ds (gfx st))
        else []).
Proof.
  unfold GfxVc.gtk_gl_area_set_scanout_mode.
  destruct st as [g heap idx log]; simpl.
  destruct (scanout_mode g) eqn:Hmode, scanout; simpl.
  - rewrite <- Hmode at 1. rewrite set_scanout_mode_same.
    now rewrite app_nil_r.
  - destruct (ds g) as [surface |]; simpl; repeat split;
      now rewrite <- ?app_assoc.
  - now rewrite app_nil_r.
  - rewrite <- Hmode at 1. rewrite set_scanout_mode_same.
    now rewrite app_nil_r.
Qed.

(** The same for the definition in [gtk4-gl-area.c], which reports first and
    never rebuilds the surface texture. *)
Lemma glarea_set_scanout_mode_spec (scanout : bool) (st : World) :
  let st' := GlArea.gtk_gl_area_set_scanout_mode scanout st in
  gfx st' = set_scanout_mode scanout (gfx st)
  /\ dmabufs st' = dmabufs st
  /\ events st' = events st ++
       InfoReport (if scanout then "Setting scanout mode 1"
                   else "Setting scanout mode 0")
       :: (if scanout_mode (gfx st) && negb scanout then [EglFbDestroy] else []).
Proof.
  unfold GlArea.gtk_gl_area_set_scanout_mode.
  destruct st as [g heap idx log]; simpl.
  destruct (scanout_mode g) eqn:Hmode, scanout; simpl.
  - rewrite <- Hmode at 1. now rewrite set_scanout_mode_same.
  - repeat split. now rewrite <- app_assoc.
  - easy.
  - rewrite <- Hmode at 1. now rewrite set_scanout_mode_same.
Qed.

(** ** C10: setting the scanout mode to the value it has changes no field
    and touches no texture or framebuffer (the variant in [gtk4-gl-area.c]
    still prints its diagnostic line); in both variants the guest framebuffer
    is destroyed, and in [gtk4-gfx-vc.c] the surface texture rebuilt, only
    when the mode goes from true to false. *)
Theorem set_scanout_mode_same_value_is_noop (scanout : bool) (st : World) :
  (scanout_mode (gfx st) = scanout ->
     GfxVc.gtk_gl_area_set_scanout_mode scanout st = st
     /\ GlArea.gtk_gl_area_set_scanout_mode scanout st
        = emit (InfoReport (if scanout then "Setting scanout mode 1"
                            else "Setting scanout mode 0")) st)
  /\ (forall e,
        e ∈ drop (length (events st))
              (events (GfxVc.gtk_gl_area_set_scanout_mode scanout st)) ->
        is_texture_op e = true ->
        scanout_mode (gfx st) = true /\ scanout = false)
  /\ (forall e,
        e ∈ drop (length (events st))
              (events (GlArea.gtk_gl_area_set_scanout_mode scanout st)) ->
        is_texture_op e = true ->
        scanout_mode (gfx st) = true /\ scanout = false).
Proof.
  split; [| split].
  - intros Hsame. unfold GfxVc.gtk_gl_area_set_scanout_mode,
      GlArea.gtk_gl_area_set_scanout_mode. simpl.
    rewrite Hsame, Bool.eqb_reflx. easy.
  - intros e He Hop.
    destruct (gfxvc_set_scanout_mode_spec scanout st) as (_ & _ & Hev).
    simpl in Hev. rewrite Hev, drop_app_length in He.
    destruct (scanout_mode (gfx st)), scanout; simpl in He;
      try (now apply elem_of_nil in He); easy.
  - intros e He Hop.
    destruct (glarea_set_scanout_mode_spec scanout st) as (_ & _ & Hev).
    simpl in Hev. rewrite Hev, drop_app_length in He.
    destruct (scanout_mode (gfx st)), scanout; simpl in He;
      try easy;
      apply list_elem_of_singleton in He; subst e; discriminate.
Qed.

(** A witness of the no-op case: a console not in scanout mode asked to
    leave it. *)
Lemma set_scanout_mode_same_value_is_noop_witness :
  GfxVc.gtk_gl_area_set_scanout_mode false Scenario.primary = Scenario.primary
  /\ GlArea.gtk_gl_area_set_scanout_mode false Scenario.primary
     = emit (InfoReport "Setting scanout mode 0") Scenario.primary.
Proof.
  exact (proj1 (set_scanout_mode_same_value_is_noop false Scenario.primary) eq_refl).
Defined.

(** ** C4 (as amended): [gd_gl_area_scanout_texture] called with a zero
    texture id, or a zero width or height of the scanout rectangle, leaves
    the console out of scanout mode whatever the mode was before; and when
    this, or any other call of [gtk_gl_area_set_scanout_mode], takes the
    console out of scanout mode, the guest framebuffer is destroyed and the
    texture of the surface the console shows is destroyed and created anew,
    nothing being rebuilt for a console that shows no surface. *)
Theorem scanout_texture_falls_back
    (backing_id : Z) (top : bool) (bw bh vx vy vw vh : Z) (st : World) :
  backing_id = 0 \/ vw = 0 \/ vh = 0 ->
  let st' := GfxVc.gd_gl_area_scanout_texture backing_id top bw bh vx vy vw vh st in
  scanout_mode (gfx st') = false
  /\ events st' = events st ++
       InfoReport "Calling gl_area_scanout_texture"
       :: (if scanout_mode (gfx st)
           then EglFbDestroy :: recreate_surface_texture (ds (gfx st))
           else [])
  /\ (scanout_mode (gfx st) = true ->
      events (GfxVc.gtk_gl_area_set_scanout_mode false st) = events st ++
        EglFbDestroy :: recreate_surface_texture (ds (gfx st))).
Proof.
  intros Hzero. simpl. unfold GfxVc.gd_gl_area_scanout_texture.
  assert (Hcond : (backing_id =? 0)
                  || (w (gfx (with_gfx (set_scanout_rect vx vy vw vh top)
                     (emit (InfoReport "Calling gl_area_scanout_texture") st))) =? 0)
                  || (h (gfx (with_gfx (set_scanout_rect vx vy vw vh top)
                     (emit (InfoReport "Calling gl_area_scanout_texture") st))) =? 0)
                  = true).
  { simpl. destruct Hzero as [-> | [-> | ->]]; simpl.
    - reflexivity.
    - change (C.int 0) with 0. simpl. now rewrite orb_true_r.
    - change (C.int 0) with 0. simpl. now rewrite orb_true_r. }
  rewrite Hcond.
  match goal with |- context [GfxVc.gtk_gl_area_set_scanout_mode false ?s] =>
    destruct (gfxvc_set_scanout_mode_spec false s) as (Hg & _ & Hev) end.
  simpl in Hg, Hev. rewrite Hg, Hev. simpl.
  split; [reflexivity |]. split.
  - rewrite andb_true_r, <- app_assoc. reflexivity.
  - intros Hmode.
    destruct (gfxvc_set_scanout_mode_spec false st) as (_ & _ & Hev').
    simpl in Hev'. now rewrite Hev', Hmode.
Qed.

(** Scenario B of the specification: texture 7 at 1920x1080 on a console
    showing a 640x480 surface, then texture 0. *)
Lemma scanout_texture_falls_back_witness :
  let st := GfxVc.gd_gl_area_scanout_texture 7 false 1920 1080 0 0 1920 1080
              (GfxVc.gd_dpy_gfx_switch Scenario.vga_640 Scenario.primary) in
  let st' := GfxVc.gd_gl_area_scanout_texture 0 false 0 0 0 0 0 0 st in
  scanout_mode (gfx st) = true
  /\ scanout_mode (gfx st') = false
  /\ drop (length (events st)) (events st') =
       [InfoReport "Calling gl_area_scanout_texture"; EglFbDestroy;
        SurfaceGlDestroyTexture (Some Scenario.vga_640);
        SurfaceGlCreateTexture Scenario.vga_640].
Proof.
  split; [reflexivity |].
  pose proof (scanout_texture_falls_back 0 false 0 0 0 0 0 0
                (GfxVc.gd_gl_area_scanout_texture 7 false 1920 1080 0 0 1920 1080
                   (GfxVc.gd_dpy_gfx_switch Scenario.vga_640 Scenario.primary))
                (or_introl eq_refl)) as (Hmode & Hev & _).
  split; [exact Hmode |].
  rewrite Hev. apply drop_app_length.
Defined.

(** The claim as first stated fails on a console that shows no surface:
    scanout of texture 7 starts before any surface was switched in, texture 0
    ends it, and the exit destroys the guest framebuffer without creating any
    surface texture. *)
Lemma scanout_exit_without_surface_creates_no_texture :
  let st := GfxVc.gd_gl_area_scanout_texture 7 false 1920 1080 0 0 1920 1080
              Scenario.primary in
  let st' := GfxVc.gd_gl_area_scanout_texture 0 false 0 0 0 0 0 0 st in
  scanout_mode (gfx st) = true
  /\ scanout_mode (gfx st') = false
  /\ drop (length (events st)) (events st') =
       [InfoReport "Calling gl_area_scanout_texture"; EglFbDestroy].
Proof. repeat split. Qed.

(** *** Surface switches *)

Lemma events_emit e st : events (emit e st) = events st ++ [e].
Proof. reflexivity. Qed.

(** ** C5 (as amended): [gd_dpy_gfx_switch] to a surface of the size of the
    previous one never asks for a window resize; to a surface of another
    size it asks exactly once when the console's shader is set up and the
    new surface is not a placeholder on a console other than the first, and
    not at all otherwise. *)
Theorem switch_resizes_on_size_change (old surface : DisplaySurface) (st : World) :
  ds (gfx st) = Some old ->
  count is_resize (events (GfxVc.gd_dpy_gfx_switch surface st)) =
    Nat.add (count is_resize (events st))
      (if negb (same_size old surface)
          && gls (gfx st)
          && negb (is_placeholder surface && negb (con_index st =? 0))
       then 1%nat else 0%nat).
Proof.
  intros Hold. unfold GfxVc.gd_dpy_gfx_switch, same_size.
  destruct st as [g heap idx log]; simpl in *. rewrite Hold.
  destruct (is_placeholder surface && negb (idx =? 0)); simpl.
  - count_events. rewrite andb_false_r. lia.
  - destruct (gls g); simpl.
    + destruct (surface_width old =? surface_width surface),
               (surface_height old =? surface_height surface); simpl;
        count_events; lia.
    + count_events. rewrite !andb_false_r. simpl. lia.
Qed.

(** On the first console, with the shader in place: 640x480 to 800x600
    resizes once, 640x480 to 640x480 does not. *)
Lemma switch_resizes_on_size_change_witness :
  let st := GfxVc.gd_dpy_gfx_switch Scenario.vga_640 Scenario.primary in
  count is_resize (events (GfxVc.gd_dpy_gfx_switch Scenario.vga_800 st)) = 1%nat
  /\ count is_resize (events (GfxVc.gd_dpy_gfx_switch Scenario.vga_640 st)) = 0%nat.
Proof.
  split.
  - exact (switch_resizes_on_size_change Scenario.vga_640 Scenario.vga_800
             (GfxVc.gd_dpy_gfx_switch Scenario.vga_640 Scenario.primary) eq_refl).
  - exact (switch_resizes_on_size_change Scenario.vga_640 Scenario.vga_640
             (GfxVc.gd_dpy_gfx_switch Scenario.vga_640 Scenario.primary) eq_refl).
Defined.

(** The claim as first stated fails on a secondary console: a 640x480
    placeholder releases the shader, and the switch to a real 800x600 surface
    that follows sets the shader up again and asks for no resize, although
    the size changed. *)
Lemma switch_after_placeholder_skips_resize :
  GfxVc.run [GfxVc.Switch Scenario.placeholder_640] Scenario.secondary
    = Some (GfxVc.gd_dpy_gfx_switch Scenario.placeholder_640 Scenario.secondary)
  /\ ds (gfx (GfxVc.gd_dpy_gfx_switch Scenario.placeholder_640 Scenario.secondary))
     = Some Scenario.placeholder_640
  /\ same_size Scenario.placeholder_640 Scenario.vga_800 = false
  /\ count is_resize
       (events (GfxVc.gd_dpy_gfx_switch Scenario.vga_800
                  (GfxVc.gd_dpy_gfx_switch Scenario.placeholder_640 Scenario.secondary)))
     = 0%nat.
Proof. repeat split. Qed.

(** [gd_gl_area_switch] of [gtk4-gl-area.c], for comparison, asks for one
    resize whenever the size differs from that of the surface shown. *)
Lemma glarea_switch_resizes (old surface : DisplaySurface) (st : World) :
  ds (gfx st) = Some old ->
  count is_resize (events (GlArea.gd_gl_area_switch surface st)) =
    Nat.add (count is_resize (events st))
      (if same_size old surface then 0%nat else 1%nat).
Proof.
  intros Hold. unfold GlArea.gd_gl_area_switch, same_size.
  destruct st as [g heap idx log]; simpl in *. rewrite Hold.
  destruct (gls g), (surface_width old =? surface_width surface),
           (surface_height old =? surface_height surface); simpl;
    count_events; lia.
Qed.

(** *** Flush and fences *)

(** [gd_gl_area_scanout_flush] of [gtk4-gl-area.c] on a pending dma-buf
    without a submitted draw: the guest is blocked, the draw is marked
    submitted, a redraw is queued. *)
Lemma glarea_flush_blocks (vx vy vw vh : Z) (p : nat) (d : QemuDmaBuf) (st : World) :
  guest_fb_dmabuf (gfx st) = Some p ->
  dmabufs st !! p = Some d ->
  draw_submitted d = false ->
  exists st',
    GlArea.gd_gl_area_scanout_flush vx vy vw vh st = Some st'
    /\ gfx st' = gfx st
    /\ dmabufs st' = <[p := set_draw_submitted true d]> (dmabufs st)
    /\ events st' = events st ++
         [InfoReport "Calling gl_area_scanout_flush"; GraphicHwGlBlock true;
          GlAreaQueueRender].
Proof.
  intros Hp Hd Hsub. unfold GlArea.gd_gl_area_scanout_flush. simpl.
  rewrite Hp, Hd. simpl. rewrite Hsub. simpl.
  eexists. split; [reflexivity |]. simpl. repeat split.
  now rewrite <- !app_assoc.
Qed.

(** With the draw already submitted, or with no dma-buf pending, it queues
    the redraw and nothing else. *)
Lemma glarea_flush_silent (vx vy vw vh : Z) (st : World) :
  blocking_dmabuf st = None ->
  (forall p, guest_fb_dmabuf (gfx st) = Some p -> is_Some (dmabufs st !! p)) ->
  GlArea.gd_gl_area_scanout_flush vx vy vw vh st
  = Some (emit GlAreaQueueRender
            (emit (InfoReport "Calling gl_area_scanout_flush") st)).
Proof.
  unfold blocking_dmabuf, GlArea.gd_gl_area_scanout_flush. simpl.
  intros Hnone Hvalid.
  destruct (guest_fb_dmabuf (gfx st)) as [p |]; [| reflexivity].
  destruct (Hvalid p eq_refl) as [d Hd]. simpl in Hnone. rewrite Hd in *.
  simpl in *. now destruct (draw_submitted d).
Qed.

(** [gd_hw_gl_flushed]: the handler is removed, the descriptor closed once
    and replaced by -1, the guest released. *)
Lemma glarea_flushed_closes_fence (p : nat) (d : QemuDmaBuf) (st : World) :
  guest_fb_dmabuf (gfx st) = Some p ->
  dmabufs st !! p = Some d ->
  exists st',
    GlArea.gd_hw_gl_flushed st = Some st'
    /\ gfx st' = gfx st
    /\ dmabufs st' = <[p := set_fence_fd (-1) d]> (dmabufs st)
    /\ events st' = events st ++
         [SetFdHandler (fence_fd d); Close (fence_fd d); GraphicHwGlBlock false].
Proof.
  intros Hp Hd. unfold GlArea.gd_hw_gl_flushed. rewrite Hp. simpl.
  rewrite Hd. simpl. eexists. split; [reflexivity |]. simpl. repeat split.
  now rewrite <- !app_assoc.
Qed.

(** ** C2: the flush entered in the listener table, the one of
    [gtk4-gfx-vc.c], only prints its diagnostic line.  Whatever dma-buf is
    pending, it leaves [draw_submitted] as it was, sends no block signal to
    the emulation side and queues no redraw. *)
Theorem listener_flush_is_inert (vx vy vw vh : Z) (st : World) :
  let st' := GfxVc.gd_gl_area_scanout_flush vx vy vw vh st in
  gfx st' = gfx st
  /\ dmabufs st' = dmabufs st
  /\ blocking_dmabuf st' = blocking_dmabuf st
  /\ events st' = events st ++ [InfoReport "Calling gl_area_scanout_flush"]
  /\ count is_block (events st') = count is_block (events st)
  /\ count is_redraw (events st') = count is_redraw (events st).
Proof.
  simpl. count_events. repeat split; lia.
Qed.

(** The failing input: the fence-capable dma-buf at address 1 imported as
    texture 5 on the first console, then flushed.  Through the table nothing
    happens; the flush of [gtk4-gl-area.c] blocks the guest and queues the
    redraw. *)
Example flush_of_pending_dmabuf :
  exists st,
    GfxVc.gd_gl_area_scanout_dmabuf 1 5 Scenario.primary = Some st
    /\ blocking_dmabuf st = Some 1%nat
    /\ blocking_dmabuf (GfxVc.gd_gl_area_scanout_flush 0 0 1920 1080 st) = Some 1%nat
    /\ drop (length (events st))
         (events (GfxVc.gd_gl_area_scanout_flush 0 0 1920 1080 st))
       = [InfoReport "Calling gl_area_scanout_flush"]
    /\ exists st',
         GlArea.gd_gl_area_scanout_flush 0 0 1920 1080 st = Some st'
         /\ blocking_dmabuf st' = None
         /\ drop (length (events st)) (events st')
            = [InfoReport "Calling gl_area_scanout_flush"; GraphicHwGlBlock true;
               GlAreaQueueRender].
Proof.
  eexists. split; [reflexivity |]. repeat split.
  eexists. split; [reflexivity |]. repeat split.
Qed.

(** *** Which dma-buf stays pending *)

Lemma fence_flag_store (st : World) (p q : nat) (d d' : QemuDmaBuf) :
  dmabufs st !! p = Some d ->
  allow_fences d' = allow_fences d ->
  fence_flag (store_dmabuf p d' st) q = fence_flag st q.
Proof.
  intros Hd Hflag. unfold fence_flag, store_dmabuf. simpl.
  destruct (decide (p = q)) as [-> | Hne].
  - rewrite lookup_insert_eq, Hd. simpl. now rewrite Hflag.
  - now rewrite lookup_insert_ne.
Qed.

Lemma gfxvc_scanout_texture_frame id top bw bh vx vy vw vh (st : World) :
  let st' := GfxVc.gd_gl_area_scanout_texture id top bw bh vx vy vw vh st in
  guest_fb_dmabuf (gfx st') = guest_fb_dmabuf (gfx st) /\ dmabufs st' = dmabufs st.
Proof.
  simpl. unfold GfxVc.gd_gl_area_scanout_texture.
  match goal with |- context [if ?c then _ else _] => destruct c end.
  - match goal with |- context [GfxVc.gtk_gl_area_set_scanout_mode ?b ?s] =>
      destruct (gfxvc_set_scanout_mode_spec b s) as (Hg & Hd & _) end.
    simpl in Hg, Hd. now rewrite Hg, Hd.
  - match goal with |- context [GfxVc.gtk_gl_area_set_scanout_mode ?b ?s] =>
      destruct (gfxvc_set_scanout_mode_spec b s) as (Hg & Hd & _) end.
    simpl in *. now rewrite Hg, Hd.
Qed.

Lemma glarea_scanout_texture_frame id top bw bh vx vy vw vh (st : World) :
  let st' := GlArea.gd_gl_area_scanout_texture id top bw bh vx vy vw vh st in
  guest_fb_dmabuf (gfx st') = guest_fb_dmabuf (gfx st) /\ dmabufs st' = dmabufs st.
Proof.
  simpl. unfold GlArea.gd_gl_area_scanout_texture.
  match goal with |- context [if ?c then _ else _] => destruct c end.
  - match goal with |- context [GlArea.gtk_gl_area_set_scanout_mode ?b ?s] =>
      destruct (glarea_set_scanout_mode_spec b s) as (Hg & Hd & _) end.
    simpl in Hg, Hd. now rewrite Hg, Hd.
  - match goal with |- context [GlArea.gtk_gl_area_set_scanout_mode ?b ?s] =>
      destruct (glarea_set_scanout_mode_spec b s) as (Hg & Hd & _) end.
    simpl in *. now rewrite Hg, Hd.
Qed.

(** [gd_gl_area_scanout_dmabuf], both definitions: the texture name is
    written into the dma-buf; the console keeps the address only for an
    import that produced a texture of a dma-buf that allows fences; a failed
    import leaves the [gfx] struct alone. *)
Lemma gfxvc_scanout_dmabuf_spec (p : nat) (imported : Z) (st st' : World) :
  GfxVc.gd_gl_area_scanout_dmabuf p imported st = Some st' ->
  exists d,
    dmabufs st !! p = Some d
    /\ dmabufs st' = <[p := set_texture imported d]> (dmabufs st)
    /\ guest_fb_dmabuf (gfx st') =
         (if negb (imported =? 0) && allow_fences d then Some p
          else guest_fb_dmabuf (gfx st))
    /\ (imported = 0 -> gfx st' = gfx st).
Proof.
  unfold GfxVc.gd_gl_area_scanout_dmabuf. simpl. intros Hrun.
  destruct (dmabufs st !! p) as [d |] eqn:Hd; simpl in Hrun; [| discriminate].
  exists d. split; [reflexivity |].
  destruct (Z.eqb_spec imported 0) as [-> | Hne]; simpl in *.
  - injection Hrun as <-. simpl. easy.
  - match type of Hrun with
      context [GfxVc.gd_gl_area_scanout_texture ?a ?b ?c ?e ?f ?g ?i ?j ?s] =>
      destruct (gfxvc_scanout_texture_frame a b c e f g i j s) as (Hg & Hh) end.
    simpl in Hg, Hh.
    destruct (allow_fences d); injection Hrun as <-; simpl; rewrite ?Hg, Hh; easy.
Qed.

Lemma glarea_scanout_dmabuf_spec (p : nat) (imported : Z) (st st' : World) :
  GlArea.gd_gl_area_scanout_dmabuf p imported st = Some st' ->
  exists d,
    dmabufs st !! p = Some d
    /\ dmabufs st' = <[p := set_texture imported d]> (dmabufs st)
    /\ guest_fb_dmabuf (gfx st') =
         (if negb (imported =? 0) && allow_fences d then Some p
          else guest_fb_dmabuf (gfx st))
    /\ (imported = 0 -> gfx st' = gfx st).
Proof.
  unfold GlArea.gd_gl_area_scanout_dmabuf. simpl. intros Hrun.
  destruct (dmabufs st !! p) as [d |] eqn:Hd; simpl in Hrun; [| discriminate].
  exists d. split; [reflexivity |].
  destruct (Z.eqb_spec imported 0) as [-> | Hne]; simpl in *.
  - injection Hrun as <-. simpl. easy.
  - match type of Hrun with
      context [GlArea.gd_gl_area_scanout_texture ?a ?b ?c ?e ?f ?g ?i ?j ?s] =>
      destruct (glarea_scanout_texture_frame a b c e f g i j s) as (Hg & Hh) end.
    simpl in Hg, Hh.
    destruct (allow_fences d); injection Hrun as <-; simpl; rewrite ?Hg, Hh; easy.
Qed.

Lemma step_frame_same (st st' : World) :
  guest_fb_dmabuf (gfx st') = guest_fb_dmabuf (gfx st) ->
  dmabufs st' = dmabufs st ->
  step_frame st st'.
Proof.
  intros Hp Hd. split.
  - intros q. unfold fence_flag. now rewrite Hd.
  - intros p Hp'. left. now rewrite <- Hp.
Qed.

Lemma step_frame_dmabuf (p : nat) (imported : Z) (d : QemuDmaBuf) (st st' : World) :
  dmabufs st !! p = Some d ->
  dmabufs st' = <[p := set_texture imported d]> (dmabufs st) ->
  guest_fb_dmabuf (gfx st') =
    (if negb (imported =? 0) && allow_fences d then Some p
     else guest_fb_dmabuf (gfx st)) ->
  step_frame st st'.
Proof.
  intros Hd Hheap Hp. split.
  - intros q. unfold fence_flag. rewrite Hheap.
    destruct (decide (p = q)) as [-> | Hne].
    + now rewrite lookup_insert_eq, Hd.
    + now rewrite lookup_insert_ne.
  - intros p' Hp'. rewrite Hp in Hp'.
    destruct (negb (imported =? 0) && allow_fences d) eqn:Hkeep.
    + injection Hp' as <-. right. unfold fence_flag. rewrite Hd. simpl.
      apply andb_true_iff in Hkeep as [_ ->]. reflexivity.
    + now left.
Qed.

Lemma glarea_step_frame (o : GlArea.Op) (st st' : World) :
  GlArea.step o st = Some st' -> step_frame st st'.
Proof.
  destruct o as [surface | id top bw bh vx vy vw vh | | vx vy vw vh | p imported |];
    simpl; intros Hstep.
  - injection Hstep as <-. apply step_frame_same.
    + unfold GlArea.gd_gl_area_switch. simpl.
      destruct (gls (gfx st)); simpl;
        match goal with |- context [if ?c then _ else _] => destruct c end;
        reflexivity.
    + unfold GlArea.gd_gl_area_switch. simpl.
      destruct (gls (gfx st)); simpl;
        match goal with |- context [if ?c then _ else _] => destruct c end;
        reflexivity.
  - injection Hstep as <-.
    destruct (glarea_scanout_texture_frame id top bw bh vx vy vw vh st) as (Hg & Hh).
    now apply step_frame_same.
  - injection Hstep as <-. unfold GlArea.gd_gl_area_scanout_disable.
    match goal with |- context [GlArea.gtk_gl_area_set_scanout_mode ?b ?s] =>
      destruct (glarea_set_scanout_mode_spec b s) as (Hg & Hd & _) end.
    simpl in Hg, Hd. apply step_frame_same; [now rewrite Hg | now rewrite Hd].
  - unfold GlArea.gd_gl_area_scanout_flush in Hstep. simpl in Hstep.
    destruct (guest_fb_dmabuf (gfx st)) as [p |] eqn:Hp.
    + destruct (dmabufs st !! p) as [d |] eqn:Hd; simpl in Hstep; [| discriminate].
      destruct (draw_submitted d); simpl in Hstep; injection Hstep as <-.
      * now apply step_frame_same.
      * split.
        -- intros q. simpl.
           change (fence_flag (store_dmabuf p (set_draw_submitted true d) st) q
                   = fence_flag st q).
           now apply fence_flag_store with (d := d).
        -- intros p' Hp'. simpl in Hp'. left. congruence.
    + injection Hstep as <-. now apply step_frame_same.
  - destruct (glarea_scanout_dmabuf_spec p imported st st' Hstep)
      as (d & Hd & Hheap & Hp & _).
    now apply step_frame_dmabuf with (p := p) (imported := imported) (d := d).
  - unfold GlArea.gd_hw_gl_flushed in Hstep.
    destruct (guest_fb_dmabuf (gfx st)) as [p |] eqn:Hp; simpl in Hstep;
      [| discriminate].
    destruct (dmabufs st !! p) as [d |] eqn:Hd; simpl in Hstep; [| discriminate].
    injection Hstep as <-. split.
    + intros q. simpl.
      change (fence_flag (store_dmabuf p (set_fence_fd (-1) d) st) q
              = fence_flag st q).
      now apply fence_flag_store with (d := d).
    + intros p' Hp'. simpl in Hp'. left. congruence.
Qed.

Lemma gfxvc_step_frame (o : GfxVc.Op) (st st' : World) :
  GfxVc.step o st = Some st' -> step_frame st st'.
Proof.
  destruct o as [surface | vx vy vw vh | id top bw bh vx vy vw vh | | vx vy vw vh
                | p imported]; simpl; intros Hstep.
  - injection Hstep as <-. apply step_frame_same.
    + unfold GfxVc.gd_dpy_gfx_switch. simpl.
      repeat (match goal with
              | |- context [if ?c then _ else _] => destruct c
              | |- context [match ?c with Some _ => _ | None => _ end] => destruct c
              end; simpl); reflexivity.
    + unfold GfxVc.gd_dpy_gfx_switch. simpl.
      repeat (match goal with
              | |- context [if ?c then _ else _] => destruct c
              | |- context [match ?c with Some _ => _ | None => _ end] => destruct c
              end; simpl); reflexivity.
  - injection Hstep as <-. now apply step_frame_same.
  - injection Hstep as <-.
    destruct (gfxvc_scanout_texture_frame id top bw bh vx vy vw vh st) as (Hg & Hh).
    now apply step_frame_same.
  - injection Hstep as <-. unfold GfxVc.gd_gl_area_scanout_disable.
    match goal with |- context [GfxVc.gtk_gl_area_set_scanout_mode ?b ?s] =>
      destruct (gfxvc_set_scanout_mode_spec b s) as (Hg & Hd & _) end.
    simpl in Hg, Hd. apply step_frame_same; [now rewrite Hg | now rewrite Hd].
  - injection Hstep as <-. now apply step_frame_same.
  - destruct (gfxvc_scanout_dmabuf_spec p imported st st' Hstep)
      as (d & Hd & Hheap & Hp & _).
    now apply step_frame_dmabuf with (p := p) (imported := imported) (d := d).
Qed.

Lemma step_frame_pending (st st' : World) :
  step_frame st st' -> pending_allows_fences st -> pending_allows_fences st'.
Proof.
  intros [Hflag Hpend] Hinv p Hp. rewrite Hflag.
  destruct (Hpend p Hp) as [Hold | Hnew]; [now apply Hinv | exact Hnew].
Qed.

(** Over a whole run. *)
Lemma glarea_run_frame (ops : list GlArea.Op) (st st' : World) :
  GlArea.run ops st = Some st' ->
  (forall q, fence_flag st' q = fence_flag st q)
  /\ (pending_allows_fences st -> pending_allows_fences st').
Proof.
  revert st. induction ops as [| o ops IH]; simpl; intros st Hrun.
  - injection Hrun as <-. easy.
  - destruct (GlArea.step o st) as [st1 |] eqn:Hstep; simpl in Hrun; [| discriminate].
    pose proof (glarea_step_frame o st st1 Hstep) as Hframe.
    destruct (IH st1 Hrun) as (Hflag & Hinv). split.
    + intros q. rewrite Hflag. apply Hframe.
    + intros Hst. apply Hinv. now apply step_frame_pending with (st := st).
Qed.

Lemma gfxvc_run_frame (ops : list GfxVc.Op) (st st' : World) :
  GfxVc.run ops st = Some st' ->
  (forall q, fence_flag st' q = fence_flag st q)
  /\ (pending_allows_fences st -> pending_allows_fences st').
Proof.
  revert st. induction ops as [| o ops IH]; simpl; intros st Hrun.
  - injection Hrun as <-. easy.
  - destruct (GfxVc.step o st) as [st1 |] eqn:Hstep; simpl in Hrun; [| discriminate].
    pose proof (gfxvc_step_frame o st st1 Hstep) as Hframe.
    destruct (IH st1 Hrun) as (Hflag & Hinv). split.
    + intros q. rewrite Hflag. apply Hframe.
    + intros Hst. apply Hinv. now apply step_frame_pending with (st := st).
Qed.

Lemma initial_pending_allows_fences heap index :
  pending_allows_fences (initial heap index).
Proof. intros p Hp. discriminate. Qed.

Lemma blocking_is_pending (st : World) (p : nat) :
  blocking_dmabuf st = Some p -> guest_fb_dmabuf (gfx st) = Some p.
Proof.
  unfold blocking_dmabuf. destruct (guest_fb_dmabuf (gfx st)) as [q |]; simpl;
    [| discriminate].
  destruct (dmabufs st !! q) as [d |]; simpl; [| discriminate].
  destruct (draw_submitted d); [discriminate | congruence].
Qed.

(** The flush of [gtk4-gl-area.c] sends a block signal exactly on account of
    the blocking dma-buf. *)
Lemma glarea_flush_block_cause (vx vy vw vh : Z) (st st' : World) :
  GlArea.gd_gl_area_scanout_flush vx vy vw vh st = Some st' ->
  count is_block (events st') =
    Nat.add (count is_block (events st))
      (match blocking_dmabuf st with Some _ => 1%nat | None => 0%nat end).
Proof.
  unfold GlArea.gd_gl_area_scanout_flush, blocking_dmabuf. simpl. intros Hrun.
  destruct (guest_fb_dmabuf (gfx st)) as [p |]; simpl in *.
  - destruct (dmabufs st !! p) as [d |]; simpl in *; [| discriminate].
    destruct (draw_submitted d); simpl in *; injection Hrun as <-; simpl;
      count_events; lia.
  - injection Hrun as <-. simpl. count_events. lia.
Qed.

Lemma retains_only_fenced_from_spec (import : nat -> Z -> World -> option World) :
  (forall p imported st st',
     import p imported st = Some st' ->
     exists d,
       dmabufs st !! p = Some d
       /\ dmabufs st' = <[p := set_texture imported d]> (dmabufs st)
       /\ guest_fb_dmabuf (gfx st') =
            (if negb (imported =? 0) && allow_fences d then Some p
             else guest_fb_dmabuf (gfx st))
       /\ (imported = 0 -> gfx st' = gfx st)) ->
  retains_only_fenced import.
Proof.
  intros Hspec st p imported st' Himport.
  destruct (Hspec p imported st st' Himport) as (d & Hd & _ & Hp & Hfail).
  split; [exact Hfail |]. intros Hnow. rewrite Hp in Hnow.
  destruct (Z.eqb_spec imported 0) as [-> | Hne]; simpl in Hnow; [now left |].
  destruct (allow_fences d) eqn:Hflag; [| now left].
  right. unfold fence_flag. rewrite Hd. simpl. now rewrite Hflag.
Qed.

Lemma unfenced_never_pending_from_frames {Op : Type}
    (run : list Op -> World -> option World)
    (import : nat -> Z -> World -> option World) :
  (forall ops st st',
     run ops st = Some st' ->
     (forall q, fence_flag st' q = fence_flag st q)
     /\ (pending_allows_fences st -> pending_allows_fences st')) ->
  (forall p imported st st', import p imported st = Some st' -> step_frame st st') ->
  (forall p imported st st',
     import p imported st = Some st' -> fence_flag st p = Some false ->
     guest_fb_dmabuf (gfx st') = guest_fb_dmabuf (gfx st)) ->
  unfenced_never_pending run import.
Proof.
  intros Hrun Himport Hkeep heap index before st B imported st1 after st2
         Hbefore Hflag Hcall Hafter.
  destruct (Hrun before _ _ Hbefore) as (_ & Hinv).
  specialize (Hinv (initial_pending_allows_fences heap index)).
  pose proof (Himport B imported st st1 Hcall) as Hframe.
  pose proof (step_frame_pending st st1 Hframe Hinv) as Hinv1.
  destruct (Hrun after _ _ Hafter) as (Hflags2 & Hinv2).
  specialize (Hinv2 Hinv1).
  assert (Hflag2 : fence_flag st2 B = Some false).
  { rewrite Hflags2. destruct Hframe as [Hflags1 _]. now rewrite Hflags1. }
  assert (Hnot : guest_fb_dmabuf (gfx st2) <> Some B).
  { intros Hp. specialize (Hinv2 B Hp). congruence. }
  split; [now apply Hkeep with (p := B) (imported := imported) |].
  split; [exact Hnot |].
  intros Hblock. apply Hnot. now apply blocking_is_pending.
Qed.

(** ** C6: a dma-buf imported with [allow_fences] off is not kept as the
    pending guest framebuffer, and no later flush blocks the guest for it;
    the pending reference is taken only from an import that produced a
    texture of a dma-buf with [allow_fences] on, and a failed import leaves
    the scanout state as it was.  This holds for the callbacks of
    [gtk4-gl-area.c], whose flush sends the block signal exactly when a
    dma-buf is blocking, and for those of [gtk4-gfx-vc.c]. *)
Theorem unfenced_dmabuf_never_blocks :
  unfenced_never_pending GlArea.run GlArea.gd_gl_area_scanout_dmabuf
  /\ retains_only_fenced GlArea.gd_gl_area_scanout_dmabuf
  /\ (forall vx vy vw vh st st',
        GlArea.gd_gl_area_scanout_flush vx vy vw vh st = Some st' ->
        count is_block (events st') =
          Nat.add (count is_block (events st))
            (match blocking_dmabuf st with Some _ => 1%nat | None => 0%nat end))
  /\ unfenced_never_pending GfxVc.run GfxVc.gd_gl_area_scanout_dmabuf
  /\ retains_only_fenced GfxVc.gd_gl_area_scanout_dmabuf.
Proof.
  split; [| split; [| split; [| split]]].
  - apply unfenced_never_pending_from_frames.
    + apply glarea_run_frame.
    + intros p imported st st' H.
      exact (glarea_step_frame (GlArea.ScanoutDmabuf p imported) st st' H).
    + intros p imported st st' H Hflag.
      destruct (glarea_scanout_dmabuf_spec p imported st st' H) as (d & Hd & _ & Hp & _).
      unfold fence_flag in Hflag. rewrite Hd in Hflag. injection Hflag as Hflag.
      now rewrite Hp, Hflag, andb_false_r.
  - apply retains_only_fenced_from_spec. apply glarea_scanout_dmabuf_spec.
  - apply glarea_flush_block_cause.
  - apply unfenced_never_pending_from_frames.
    + apply gfxvc_run_frame.
    + intros p imported st st' H.
      exact (gfxvc_step_frame (GfxVc.ScanoutDmabuf p imported) st st' H).
    + intros p imported st st' H Hflag.
      destruct (gfxvc_scanout_dmabuf_spec p imported st st' H) as (d & Hd & _ & Hp & _).
      unfold fence_flag in Hflag. rewrite Hd in Hflag. injection Hflag as Hflag.
      now rewrite Hp, Hflag, andb_false_r.
  - apply retains_only_fenced_from_spec. apply gfxvc_scanout_dmabuf_spec.
Qed.

(** The scenario of the specification with a buffer that has no fences:
    dma-buf 2 is imported as texture 6 on the first console, then a flush
    arrives. *)
Lemma unfenced_dmabuf_never_blocks_witness :
  exists st1 st2,
    GlArea.gd_gl_area_scanout_dmabuf 2 6 Scenario.primary = Some st1
    /\ GlArea.run [GlArea.ScanoutFlush 0 0 1920 1080] st1 = Some st2
    /\ guest_fb_dmabuf (gfx st1) = None
    /\ guest_fb_dmabuf (gfx st2) <> Some 2%nat
    /\ blocking_dmabuf st2 <> Some 2%nat.
Proof.
  eexists. eexists. split; [reflexivity |]. split; [reflexivity |].
  exact (proj1 unfenced_dmabuf_never_blocks Scenario.heap 0 [] Scenario.primary
           2%nat 6 _ [GlArea.ScanoutFlush 0 0 1920 1080] _
           eq_refl eq_refl eq_refl eq_refl).
Defined.

(** ** Display listener *)

Lemma gfxvc_set_scanout_mode_fields (scanout : bool) (st : World) :
  let st' := GfxVc.gtk_gl_area_set_scanout_mode scanout st in
  con_index st' = con_index st
  /\ ds (gfx st') = ds (gfx st)
  /\ gls (gfx st') = gls (gfx st)
  /\ glupdates (gfx st') = glupdates (gfx st)
  /\ guest_fb_dmabuf (gfx st') = guest_fb_dmabuf (gfx st).
Proof.
  cbv zeta. unfold GfxVc.gtk_gl_area_set_scanout_mode.
  destruct st as [g heap idx log]. destruct g. simpl.
  match goal with |- context [if ?c then _ else _] => destruct c end; [easy |].
  destruct scanout; simpl; [easy |].
  match goal with |- context [match ?c with Some _ => _ | None => _ end] =>
    destruct c end; easy.
Qed.

Lemma gfxvc_scanout_texture_fields id top bw bh vx vy vw vh (st : World) :
  let st' := GfxVc.gd_gl_area_scanout_texture id top bw bh vx vy vw vh st in
  con_index st' = con_index st
  /\ ds (gfx st') = ds (gfx st)
  /\ gls (gfx st') = gls (gfx st)
  /\ glupdates (gfx st') = glupdates (gfx st)
  /\ guest_fb_dmabuf (gfx st') = guest_fb_dmabuf (gfx st).
Proof.
  cbv zeta. unfold GfxVc.gd_gl_area_scanout_texture.
  match goal with |- context [if ?c then _ else _] => destruct c end;
    match goal with |- context [GfxVc.gtk_gl_area_set_scanout_mode ?b ?s] =>
      destruct (gfxvc_set_scanout_mode_fields b s) as (H1 & H2 & H3 & H4 & H5) end;
    simpl in *; now rewrite ?H1, ?H2, ?H3, ?H4, ?H5.
Qed.

(** What every callback but the surface switch leaves alone, and what no
    callback undoes. *)
Lemma gfxvc_step_fields (o : GfxVc.Op) (st st' : World) :
  GfxVc.step o st = Some st' ->
  con_index st' = con_index st
  /\ (is_Some (guest_fb_dmabuf (gfx st)) -> is_Some (guest_fb_dmabuf (gfx st')))
  /\ ((exists surface, o = GfxVc.Switch surface)
      \/ (ds (gfx st') = ds (gfx st) /\ gls (gfx st') = gls (gfx st))).
Proof.
  destruct o as [surface | vx vy vw vh | id top bw bh vx vy vw vh | | vx vy vw vh
                | p imported]; simpl; intros Hstep.
  - injection Hstep as <-. unfold GfxVc.gd_dpy_gfx_switch.
    repeat (match goal with
            | |- context [if ?c then _ else _] => destruct c
            | |- context [match ?c with Some _ => _ | None => _ end] => destruct c
            end; simpl); eauto.
  - injection Hstep as <-. simpl. eauto.
  - injection Hstep as <-.
    destruct (gfxvc_scanout_texture_fields id top bw bh vx vy vw vh st)
      as (H1 & H2 & H3 & _ & H5).
    simpl in *. rewrite H1, H2, H3, H5. eauto.
  - injection Hstep as <-. unfold GfxVc.gd_gl_area_scanout_disable.
    match goal with |- context [GfxVc.gtk_gl_area_set_scanout_mode ?b ?s] =>
      destruct (gfxvc_set_scanout_mode_fields b s) as (H1 & H2 & H3 & _ & H5) end.
    simpl in *. rewrite H1, H2, H3, H5. eauto.
  - injection Hstep as <-. simpl. eauto.
  - unfold GfxVc.gd_gl_area_scanout_dmabuf in Hstep. simpl in Hstep.
    destruct (dmabufs st !! p) as [d |]; simpl in Hstep; [| discriminate].
    destruct (imported =? 0); simpl in Hstep.
    + injection Hstep as <-. simpl. eauto.
    + match type of Hstep with
        context [GfxVc.gd_gl_area_scanout_texture ?a ?b ?c ?e ?f ?g ?i ?j ?s] =>
        destruct (gfxvc_scanout_texture_fields a b c e f g i j s)
          as (H1 & H2 & H3 & _ & H5) end.
      simpl in *.
      destruct (allow_fences d); injection Hstep as <-; simpl;
        rewrite ?H1, ?H2, ?H3, ?H5; eauto.
Qed.

Lemma switch_shader_matches (surface : DisplaySurface) (st : World) :
  Listener.shader_matches_surface (GfxVc.gd_dpy_gfx_switch surface st).
Proof.
  intros shown. unfold GfxVc.gd_dpy_gfx_switch.
  destruct st as [g heap idx log]. destruct g. simpl.
  destruct (is_placeholder surface && negb (idx =? 0)) eqn:Hph; simpl.
  - intros [= <-]. now rewrite Hph.
  - match goal with |- context [negb ?b] => is_var b; destruct b end; simpl;
      repeat (match goal with
              | |- context [if ?c then _ else _] => destruct c
              | |- context [match ?c with Some _ => _ | None => _ end] => destruct c
              end; simpl);
      intros [= <-]; now rewrite Hph.
Qed.

(** ** X4: on a console that starts fresh, after any sequence of listener
    callbacks, the shader is set up exactly when the surface on show is not
    a placeholder on a console other than the first; in particular a real
    surface is never shown without a shader. *)
Theorem shader_follows_surface (heap : gmap nat QemuDmaBuf) (index : Z)
    (ops : list GfxVc.Op) (st : World) :
  GfxVc.run ops (initial heap index) = Some st ->
  Listener.shader_matches_surface st.
Proof.
  assert (Hgen : forall ops st0 st1,
             Listener.shader_matches_surface st0 ->
             GfxVc.run ops st0 = Some st1 ->
             Listener.shader_matches_surface st1).
  { clear. induction ops as [| o ops IH]; simpl; intros st0 st1 Hinv Hrun.
    - now injection Hrun as <-.
    - destruct (GfxVc.step o st0) as [st |] eqn:Hstep; simpl in Hrun;
        [| discriminate].
      apply (IH st st1); [| exact Hrun].
      destruct (gfxvc_step_fields o st0 st Hstep) as (Hidx & _ & [[surface ->] | [Hds Hgls]]).
      + simpl in Hstep. injection Hstep as <-. apply switch_shader_matches.
      + intros shown Hshown. rewrite Hgls, Hidx. apply Hinv. now rewrite <- Hds. }
  apply Hgen. intros shown Hshown. discriminate.
Qed.

Lemma shader_follows_surface_witness :
  exists st,
    GfxVc.run [GfxVc.Switch Scenario.placeholder_640; GfxVc.ScanoutDisable;
               GfxVc.Switch Scenario.vga_800] Scenario.secondary = Some st
    /\ Listener.shader_matches_surface st.
Proof.
  eexists. split; [reflexivity |].
  apply (shader_follows_surface Scenario.heap 1
           [GfxVc.Switch Scenario.placeholder_640; GfxVc.ScanoutDisable;
            GfxVc.Switch Scenario.vga_800]).
  reflexivity.
Defined.

(** ** X5: no listener callback clears the reference to the pending dma-buf:
    once some dma-buf is pending, some dma-buf is pending after every
    further sequence of callbacks, scanout of a plain texture and disabling
    scanout included. *)
Theorem pending_dmabuf_is_never_cleared (ops : list GfxVc.Op) (st st' : World) :
  GfxVc.run ops st = Some st' ->
  is_Some (guest_fb_dmabuf (gfx st)) ->
  is_Some (guest_fb_dmabuf (gfx st')).
Proof.
  revert st. induction ops as [| o ops IH]; simpl; intros st Hrun Hpending.
  - now injection Hrun as <-.
  - destruct (GfxVc.step o st) as [st1 |] eqn:Hstep; simpl in Hrun; [| discriminate].
    apply (IH st1 Hrun).
    now apply (gfxvc_step_fields o st st1 Hstep).
Qed.

Lemma pending_dmabuf_is_never_cleared_witness :
  exists st',
    GfxVc.run [GfxVc.ScanoutTexture 7 false 640 480 0 0 640 480;
               GfxVc.ScanoutDisable]
      (with_gfx (set_guest_fb_dmabuf (Some 1%nat)) Scenario.primary) = Some st'
    /\ is_Some (guest_fb_dmabuf (gfx st')).
Proof.
  eexists. split; [reflexivity |].
  exact (pending_dmabuf_is_never_cleared
           [GfxVc.ScanoutTexture 7 false 640 480 0 0 640 480; GfxVc.ScanoutDisable]
           (with_gfx (set_guest_fb_dmabuf (Some 1%nat)) Scenario.primary) _
           eq_refl (ex_intro _ 1%nat eq_refl)).
Defined.

Lemma run_gfx_updates (rects : list (Z * Z * Z * Z)) (st : World) :
  0 <= glupdates (gfx st) ->
  glupdates (gfx st) + Z.of_nat (length rects) <= C.INT_MAX ->
  exists st',
    GfxVc.run (Listener.gfx_updates rects) st = Some st'
    /\ glupdates (gfx st') = glupdates (gfx st) + Z.of_nat (length rects)
    /\ count is_redraw (events st') = count is_redraw (events st).
Proof.
  revert st. induction rects as [| [[[vx vy] vw] vh] rects IH]; intros st Hpos Hfit.
  - exists st. simpl. split; [reflexivity |]. split; [lia | reflexivity].
  - simpl in Hfit. simpl.
    destruct (IH (GfxVc.gd_dpy_gfx_update vx vy vw vh st)) as (st' & Hrun & Hn & Hlog).
    + simpl. rewrite int_id; unfold C.INT_MIN, C.INT_MAX in *; lia.
    + simpl. rewrite int_id; unfold C.INT_MIN, C.INT_MAX in *; lia.
    + exists st'. split; [exact Hrun |]. split.
      * rewrite Hn. simpl. rewrite int_id; unfold C.INT_MIN, C.INT_MAX in *; lia.
      * rewrite Hlog. simpl. count_events. lia.
Qed.

(** ** X6: a refresh tick coalesces the guest's updates.  On a console with
    no update outstanding, a tick during which the guest reports any number
    of dirty rectangles (at least one, at most [INT_MAX]) queues exactly one
    redraw, a tick without any queues none, and either way no update is
    outstanding afterwards. *)
Theorem refresh_coalesces_updates (GUI_REFRESH_INTERVAL_DEFAULT : Z)
    (monitor : option Z) (rects : list (Z * Z * Z * Z)) (st : World) :
  glupdates (gfx st) = 0 ->
  Z.of_nat (length rects) <= C.INT_MAX ->
  exists st',
    Listener.gd_dpy_refresh GUI_REFRESH_INTERVAL_DEFAULT monitor
      (Listener.gfx_updates rects) st = Some st'
    /\ glupdates (gfx st') = 0
    /\ count is_redraw (events st') =
         Nat.add (count is_redraw (events st))
                 (match rects with [] => 0%nat | _ :: _ => 1%nat end).
Proof.
  intros Hzero Hfit. unfold Listener.gd_dpy_refresh.
  match goal with |- context [GfxVc.run _ ?s] =>
    destruct (run_gfx_updates rects s) as (st1 & Hrun & Hn & Hlog) end.
  { simpl. lia. }
  { simpl. lia. }
  rewrite Hrun. simpl in Hn, Hlog |- *. rewrite Hzero in Hn. rewrite Hn.
  revert Hlog. count_events. intros Hlog.
  destruct rects as [| r rects]; simpl.
  - exists st1. split; [reflexivity |]. split; [now rewrite Hn | lia].
  - destruct (Z.eqb_spec (0 + Z.pos (Pos.of_succ_nat (length rects))) 0); [lia |].
    simpl. eexists. split; [reflexivity |]. simpl. split; [reflexivity |].
    count_events. lia.
Qed.

(** Three dirty rectangles in one tick of a 60 Hz monitor: one redraw. *)
Lemma refresh_coalesces_updates_witness :
  exists st',
    Listener.gd_dpy_refresh 30 (Some 60000)
      (Listener.gfx_updates [(0, 0, 8, 8); (8, 0, 8, 8); (0, 8, 16, 1)])
      Scenario.primary = Some st'
    /\ glupdates (gfx st') = 0
    /\ count is_redraw (events st') = 1%nat.
Proof.
  exact (refresh_coalesces_updates 30 (Some 60000)
           [(0, 0, 8, 8); (8, 0, 8, 8); (0, 8, 16, 1)] Scenario.primary
           eq_refl ltac:(unfold C.INT_MAX; simpl; lia)).
Defined.

Lemma int_of_uint32_nonzero (v : Z) : 0 < v < 2 ^ 32 -> C.int v <> 0.
Proof.
  intros Hv. unfold C.int, C.to_signed. rewrite Z.mod_small by lia.
  destruct (Z.ltb_spec v (2 ^ (32 - 1))); lia.
Qed.

(** ** X7: [gd_gl_area_scanout_texture] with a non-zero texture id and a
    non-zero width and height of the scanout rectangle puts the console in
    scanout mode and binds the guest framebuffer to the texture at the
    backing size; entering scanout mode destroys nothing. *)
Theorem scanout_texture_enters_scanout
    (backing_id : Z) (top : bool) (bw bh vx vy vw vh : Z) (st : World) :
  backing_id <> 0 -> 0 < vw < 2 ^ 32 -> 0 < vh < 2 ^ 32 ->
  let st' := GfxVc.gd_gl_area_scanout_texture backing_id top bw bh vx vy vw vh st in
  scanout_mode (gfx st') = true
  /\ y0_top (gfx st') = top
  /\ (x (gfx st'), y (gfx st'), w (gfx st'), h (gfx st'))
     = (C.int vx, C.int vy, C.int vw, C.int vh)
  /\ events st' = events st ++
       [InfoReport "Calling gl_area_scanout_texture";
        EglFbSetupForTex bw bh backing_id].
Proof.
  intros Hid Hw Hh. cbv zeta. unfold GfxVc.gd_gl_area_scanout_texture. simpl.
  destruct (Z.eqb_spec backing_id 0); [easy |].
  destruct (Z.eqb_spec (C.int vw) 0) as [Hw0 | _];
    [now apply int_of_uint32_nonzero in Hw |].
  destruct (Z.eqb_spec (C.int vh) 0) as [Hh0 | _];
    [now apply int_of_uint32_nonzero in Hh |].
  simpl.
  match goal with |- context [GfxVc.gtk_gl_area_set_scanout_mode true ?s] =>
    destruct (gfxvc_set_scanout_mode_spec true s) as (Hg & _ & Hev) end.
  simpl in Hg, Hev. rewrite Hg, Hev. simpl.
  rewrite andb_false_r, app_nil_r, <- app_assoc. easy.
Qed.

Lemma scanout_texture_enters_scanout_witness :
  let st' := GfxVc.gd_gl_area_scanout_texture 7 false 1920 1080 0 0 1920 1080
               (GfxVc.gd_dpy_gfx_switch Scenario.vga_640 Scenario.primary) in
  scanout_mode (gfx st') = true
  /\ count is_texture_op (events st') = 3%nat.
Proof.
  destruct (scanout_texture_enters_scanout 7 false 1920 1080 0 0 1920 1080
              (GfxVc.gd_dpy_gfx_switch Scenario.vga_640 Scenario.primary)
              ltac:(discriminate) ltac:(lia) ltac:(lia)) as (Hmode & _ & _ & Hev).
  split; [exact Hmode |]. rewrite Hev. reflexivity.
Defined.

(** ** X8: a dma-buf import that succeeds writes the texture name into the
    dma-buf and touches no other dma-buf; the console is in scanout mode
    afterwards exactly when width and height of the dma-buf are non-zero.
    An import at an address that holds no dma-buf is a wild dereference. *)
Theorem dmabuf_import_writes_texture (p : nat) (imported : Z) (st : World) :
  (dmabufs st !! p = None ->
     GfxVc.gd_gl_area_scanout_dmabuf p imported st = None)
  /\ (forall d,
        dmabufs st !! p = Some d -> imported <> 0 ->
        exists st',
          GfxVc.gd_gl_area_scanout_dmabuf p imported st = Some st'
          /\ dmabufs st' = <[p := set_texture imported d]> (dmabufs st)
          /\ scanout_mode (gfx st')
             = negb ((C.int (width d) =? 0) || (C.int (height d) =? 0))).
Proof.
  unfold GfxVc.gd_gl_area_scanout_dmabuf. simpl. split.
  - now intros ->.
  - intros d Hd Hne. rewrite Hd. simpl.
    destruct (Z.eqb_spec imported 0) as [| _]; [easy |].
    assert (Hmode : forall s,
               dmabufs (GfxVc.gd_gl_area_scanout_texture imported false (width d)
                          (height d) 0 0 (width d) (height d) s) = dmabufs s
               /\ scanout_mode (gfx (GfxVc.gd_gl_area_scanout_texture imported false
                                       (width d) (height d) 0 0 (width d) (height d) s))
                  = negb ((C.int (width d) =? 0) || (C.int (height d) =? 0))).
    { intros s. unfold GfxVc.gd_gl_area_scanout_texture. simpl.
      destruct (Z.eqb_spec imported 0) as [| _]; [easy |]. simpl.
      destruct ((C.int (width d) =? 0) || (C.int (height d) =? 0)); simpl.
      - match goal with |- context [GfxVc.gtk_gl_area_set_scanout_mode ?b ?t] =>
          destruct (gfxvc_set_scanout_mode_spec b t) as (Hg & Hh & _) end.
        simpl in Hg, Hh. now rewrite Hg, Hh.
      - match goal with |- context [GfxVc.gtk_gl_area_set_scanout_mode ?b ?t] =>
          destruct (gfxvc_set_scanout_mode_spec b t) as (Hg & Hh & _) end.
        simpl in Hg, Hh. now rewrite Hg, Hh. }
    match goal with |- context [GfxVc.gd_gl_area_scanout_texture _ _ _ _ _ _ _ _ ?s] =>
      destruct (Hmode s) as (Hh & Hm) end.
    destruct (allow_fences d); eexists; (split; [reflexivity |]); simpl;
      rewrite Hh, Hm; easy.
Qed.

Lemma dmabuf_import_writes_texture_witness :
  GfxVc.gd_gl_area_scanout_dmabuf 3 5 Scenario.primary = None
  /\ exists st',
       GfxVc.gd_gl_area_scanout_dmabuf 2 5 Scenario.primary = Some st'
       /\ dmabufs st' = <[2%nat := set_texture 5 Scenario.unfenced]> Scenario.heap
       /\ scanout_mode (gfx st') = true.
Proof.
  destruct (dmabuf_import_writes_texture 3 5 Scenario.primary) as (Hwild & _).
  destruct (dmabuf_import_writes_texture 2 5 Scenario.primary) as (_ & Hok).
  split; [apply Hwild; reflexivity |].
  exact (Hok Scenario.unfenced eq_refl ltac:(discriminate)).
Defined.

(** *** The fence protocol of [gtk4-gl-area.c] *)

(** ** X9: with a dma-buf pending that has no draw submitted, two flushes
    of [gtk4-gl-area.c] in a row block the guest once: the first sends the
    block signal and marks the draw submitted, the second only queues its
    redraw. *)
Theorem glarea_two_flushes_block_once (vx vy vw vh vx' vy' vw' vh' : Z) (p : nat)
    (d : QemuDmaBuf) (st : World) :
  guest_fb_dmabuf (gfx st) = Some p ->
  dmabufs st !! p = Some d ->
  draw_submitted d = false ->
  exists st',
    GlArea.run [GlArea.ScanoutFlush vx vy vw vh;
                GlArea.ScanoutFlush vx' vy' vw' vh'] st = Some st'
    /\ dmabufs st' = <[p := set_draw_submitted true d]> (dmabufs st)
    /\ events st' = events st ++
         [InfoReport "Calling gl_area_scanout_flush"; GraphicHwGlBlock true;
          GlAreaQueueRender;
          InfoReport "Calling gl_area_scanout_flush"; GlAreaQueueRender].
Proof.
  intros Hp Hd Hsub.
  destruct (glarea_flush_blocks vx vy vw vh p d st Hp Hd Hsub)
    as (st1 & Hrun1 & Hg1 & Hh1 & Hev1).
  assert (Hrun2 : GlArea.gd_gl_area_scanout_flush vx' vy' vw' vh' st1
                  = Some (emit GlAreaQueueRender
                            (emit (InfoReport "Calling gl_area_scanout_flush") st1))).
  { apply glarea_flush_silent.
    - unfold blocking_dmabuf. rewrite Hg1, Hp, Hh1. simpl.
      now rewrite lookup_insert_eq.
    - intros q. rewrite Hg1, Hp, Hh1. intros [= <-].
      rewrite lookup_insert_eq. eauto. }
  eexists. split.
  - cbn [GlArea.run GlArea.step]. rewrite Hrun1. cbn [mbind option_bind].
    rewrite Hrun2. reflexivity.
  - cbn [dmabufs emit events]. split; [exact Hh1 |].
    rewrite Hev1, <- !app_assoc. reflexivity.
Qed.

Lemma glarea_two_flushes_block_once_witness :
  exists st',
    GlArea.run [GlArea.ScanoutFlush 0 0 1920 1080; GlArea.ScanoutFlush 0 0 1920 1080]
      (with_gfx (set_guest_fb_dmabuf (Some 1%nat)) Scenario.primary) = Some st'
    /\ count is_block (events st') = 1%nat.
Proof.
  destruct (glarea_two_flushes_block_once 0 0 1920 1080 0 0 1920 1080 1
              Scenario.fenced
              (with_gfx (set_guest_fb_dmabuf (Some 1%nat)) Scenario.primary)
              eq_refl eq_refl eq_refl) as (st' & Hrun & _ & Hev).
  exists st'. split; [exact Hrun |]. rewrite Hev. reflexivity.
Defined.

(** ** X10: [gd_hw_gl_flushed] of [gtk4-gl-area.c] removes the handler of
    the fence descriptor, closes the descriptor, stores -1 in its place and
    releases the guest; were it to run again it would hand -1 to [close],
    not the descriptor it closed before.  Without a pending dma-buf it
    dereferences a null pointer. *)
Theorem glarea_fence_closed_once (p : nat) (d : QemuDmaBuf) (st : World) :
  (guest_fb_dmabuf (gfx st) = None -> GlArea.gd_hw_gl_flushed st = None)
  /\ (guest_fb_dmabuf (gfx st) = Some p -> dmabufs st !! p = Some d ->
      exists st1 st2,
        GlArea.gd_hw_gl_flushed st = Some st1
        /\ fence_fd <$> dmabufs st1 !! p = Some (-1)
        /\ events st1 = events st ++
             [SetFdHandler (fence_fd d); Close (fence_fd d); GraphicHwGlBlock false]
        /\ GlArea.gd_hw_gl_flushed st1 = Some st2
        /\ events st2 = events st1 ++
             [SetFdHandler (-1); Close (-1); GraphicHwGlBlock false]).
Proof.
  unfold GlArea.gd_hw_gl_flushed. split.
  - now intros ->.
  - intros Hp Hd. rewrite Hp. simpl. rewrite Hd. simpl.
    eexists. eexists. split; [reflexivity |]. simpl.
    rewrite Hp. simpl. rewrite lookup_insert_eq. simpl.
    split; [reflexivity |]. split; [now rewrite <- !app_assoc |].
    split; [reflexivity |]. simpl. now rewrite <- !app_assoc.
Qed.

Lemma glarea_fence_closed_once_witness :
  GlArea.gd_hw_gl_flushed Scenario.primary = None
  /\ exists st1,
       GlArea.gd_hw_gl_flushed
         (with_gfx (set_guest_fb_dmabuf (Some 1%nat)) Scenario.primary) = Some st1
       /\ events st1 = [SetFdHandler 9; Close 9; GraphicHwGlBlock false].
Proof.
  split.
  - exact (proj1 (glarea_fence_closed_once 1 Scenario.fenced Scenario.primary) eq_refl).
  - destruct (proj2 (glarea_fence_closed_once 1 Scenario.fenced
                       (with_gfx (set_guest_fb_dmabuf (Some 1%nat)) Scenario.primary))
                eq_refl eq_refl) as (st1 & _ & Hrun & _ & Hev & _).
    exists st1. split; [exact Hrun | exact Hev].
Defined.

(** ** X11: [gd_gl_area_switch] of [gtk4-gl-area.c] asks for one window
    resize when the new surface differs in size from the one on show, and
    for none when the size is the same. *)
Theorem glarea_switch_resizes_on_size_change (old surface : DisplaySurface)
    (st : World) :
  ds (gfx st) = Some old ->
  count is_resize (events (GlArea.gd_gl_area_switch surface st)) =
    Nat.add (count is_resize (events st))
      (if same_size old surface then 0%nat else 1%nat)
  /\ ds (gfx (GlArea.gd_gl_area_switch surface st)) = Some surface.
Proof.
  intros Hold. split; [now apply glarea_switch_resizes |].
  unfold GlArea.gd_gl_area_switch. simpl.
  destruct (gls (gfx st)); simpl;
    match goal with |- context [if ?c then _ else _] => destruct c end;
    reflexivity.
Qed.

Lemma glarea_switch_resizes_on_size_change_witness :
  let st := GlArea.gd_gl_area_switch Scenario.vga_640 Scenario.secondary in
  count is_resize (events (GlArea.gd_gl_area_switch Scenario.vga_800 st)) = 2%nat
  /\ count is_resize (events (GlArea.gd_gl_area_switch Scenario.vga_640 st)) = 1%nat.
Proof.
  split.
  - exact (proj1 (glarea_switch_resizes_on_size_change Scenario.vga_640 Scenario.vga_800
             (GlArea.gd_gl_area_switch Scenario.vga_640 Scenario.secondary) eq_refl)).
  - exact (proj1 (glarea_switch_resizes_on_size_change Scenario.vga_640 Scenario.vga_640
             (GlArea.gd_gl_area_switch Scenario.vga_640 Scenario.secondary) eq_refl)).
Defined.


(** ** Grab arbiter *)

Import Gtk.

Lemma emits_nil (s : GtkDisplayState) : emits [] s = s.
Proof. destruct s. unfold emits. simpl. now rewrite app_nil_r. Qed.

Lemma emit_emits (e : Event) (es : list Event) (s : GtkDisplayState) :
  Gtk.emit e (emits es s) = emits (es ++ [e]) s.
Proof. unfold Gtk.emit, emits. simpl. now rewrite app_assoc. Qed.

Lemma emits_emits (es es' : list Event) (s : GtkDisplayState) :
  emits es' (emits es s) = emits (es ++ es') s.
Proof. unfold emits. simpl. now rewrite app_assoc. Qed.

Lemma emit_as_emits (e : Event) (s : GtkDisplayState) : Gtk.emit e s = emits [e] s.
Proof. reflexivity. Qed.

(** The loop over the consoles in [gd_update_caption] sets the titles of the
    detached ones and changes nothing else. *)
Lemma caption_loop (l : list nat) (s : GtkDisplayState) :
  foldl (fun s i =>
           if negb (window (vc_at s i)) then s
           else Gtk.emit (WindowSetTitle (VcWindow i) (vc_title s i)) s) s l
  = emits (vc_titles s l) s.
Proof.
  revert s. induction l as [| i l IH]; intros s; simpl.
  - now rewrite emits_nil.
  - destruct (window (vc_at s i)) eqn:Hwin; simpl.
    + rewrite IH, emit_as_emits, emits_emits. reflexivity.
    + apply IH.
Qed.

Lemma gd_update_caption_spec (s : GtkDisplayState) :
  gd_update_caption s
  = emits (caption_events s)
      (s_action_set_state "pause" (negb (runstate_is_running s)) s).
Proof.
  unfold gd_update_caption. rewrite caption_loop, emit_as_emits, emits_emits.
  reflexivity.
Qed.

Lemma gd_ungrab_pointer_spec (vc : nat) (s : GtkDisplayState) :
  ptr_owner s = Some vc ->
  gd_ungrab_pointer s
  = emits (caption_events (set_ptr_owner None s)
           ++ [TraceUngrab vc (label (vc_at s vc)) "ptr"])
      (s_action_set_state "pause" (negb (runstate_is_running s))
         (set_ptr_owner None s)).
Proof.
  intros Howner. unfold gd_ungrab_pointer, gd_grab_update. rewrite Howner.
  rewrite gd_update_caption_spec, emit_emits. reflexivity.
Qed.

Lemma grab_pointer_take_spec (vc : nat) (reason : string) (at_x at_y : C.double)
    (s : GtkDisplayState) :
  grab_pointer_take vc reason at_x at_y s
  = emits (caption_events (set_ptr_owner (Some vc) (set_grab_root at_x at_y s))
           ++ [TraceGrab vc (label (vc_at s vc)) "ptr" reason])
      (s_action_set_state "pause" (negb (runstate_is_running s))
         (set_ptr_owner (Some vc) (set_grab_root at_x at_y s))).
Proof.
  unfold grab_pointer_take, gd_grab_update.
  rewrite gd_update_caption_spec, emit_emits. reflexivity.
Qed.

Arguments caption_events : simpl never.

(** Reading the trace points. *)
Lemma observed_app (h : option nat) (l l' : list Event) :
  observed h (l ++ l') = h' ← observed h l; observed h' l'.
Proof.
  revert h. induction l as [| e l IH]; intros h; simpl; [reflexivity |].
  destruct (observe h e); simpl; [apply IH | reflexivity].
Qed.

Lemma observe_silent (h : option nat) (e : Event) :
  silent e = true -> observe h e = Some h.
Proof. destruct e; simpl; intros H; try reflexivity; discriminate. Qed.

Lemma observed_silent (h : option nat) (l : list Event) :
  Forall (fun e => silent e = true) l -> observed h l = Some h.
Proof.
  induction 1 as [| e l He _ IH]; simpl; [reflexivity |].
  now rewrite observe_silent.
Qed.

Lemma vc_titles_silent (s : GtkDisplayState) (l : list nat) :
  Forall (fun e => silent e = true) (vc_titles s l).
Proof.
  induction l as [| i l IH]; simpl; [constructor |].
  destruct (window (vc_at s i)); simpl; [constructor |]; easy.
Qed.

Lemma caption_events_silent (s : GtkDisplayState) :
  Forall (fun e => silent e = true) (caption_events s).
Proof. constructor; [reflexivity | apply vc_titles_silent]. Qed.

Lemma observed_ungrab (vc : nat) (lbl : string) (s : GtkDisplayState) :
  observed (Some vc) (caption_events s ++ [TraceUngrab vc lbl "ptr"]) = Some None.
Proof.
  rewrite observed_app, observed_silent by apply caption_events_silent.
  simpl. now rewrite Nat.eqb_refl.
Qed.

Lemma observed_grab (vc : nat) (lbl reason : string) (s : GtkDisplayState) :
  observed None (caption_events s ++ [TraceGrab vc lbl "ptr" reason]) = Some (Some vc).
Proof.
  rewrite observed_app, observed_silent by apply caption_events_silent.
  reflexivity.
Qed.

Lemma events_emits (es : list Event) (s : GtkDisplayState) :
  Gtk.events (emits es s) = Gtk.events s ++ es.
Proof. reflexivity. Qed.

Lemma events_ungrab (vc : nat) (s : GtkDisplayState) :
  ptr_owner s = Some vc ->
  Gtk.events (gd_ungrab_pointer s)
  = Gtk.events s ++ caption_events (set_ptr_owner None s)
      ++ [TraceUngrab vc (label (vc_at s vc)) "ptr"].
Proof. intros H. now rewrite (gd_ungrab_pointer_spec vc s H). Qed.

Lemma events_take (vc : nat) (reason : string) (at_x at_y : C.double)
    (s : GtkDisplayState) :
  Gtk.events (grab_pointer_take vc reason at_x at_y s)
  = Gtk.events s
      ++ caption_events (set_ptr_owner (Some vc) (set_grab_root at_x at_y s))
      ++ [TraceGrab vc (label (vc_at s vc)) "ptr" reason].
Proof. now rewrite grab_pointer_take_spec. Qed.

Lemma owner_after_ungrab (s : GtkDisplayState) : ptr_owner (gd_ungrab_pointer s) = None.
Proof.
  destruct (ptr_owner s) as [vc |] eqn:H.
  - now rewrite (gd_ungrab_pointer_spec vc s H).
  - unfold gd_ungrab_pointer. now rewrite H.
Qed.

Lemma owner_after_take (vc : nat) (reason : string) (at_x at_y : C.double)
    (s : GtkDisplayState) :
  ptr_owner (grab_pointer_take vc reason at_x at_y s) = Some vc.
Proof. now rewrite grab_pointer_take_spec. Qed.

(** One call extends the log by trace points that tell the change of
    owner. *)
Lemma call_observed (c : GrabCall) (s : GtkDisplayState) :
  exists es,
    Gtk.events (call c s) = Gtk.events s ++ es
    /\ observed (ptr_owner s) es = Some (ptr_owner (call c s)).
Proof.
  destruct c as [vc reason at_x at_y |]; unfold call.
  - unfold gd_grab_pointer. destruct (ptr_owner s) as [o |] eqn:Howner.
    + destruct (Nat.eqb_spec o vc) as [-> | Hne].
      * exists []. rewrite app_nil_r. now rewrite Howner.
      * rewrite events_take, (events_ungrab o s Howner), owner_after_take.
        eexists. split; [rewrite <- app_assoc; reflexivity |].
        rewrite observed_app, observed_ungrab. apply observed_grab.
    + rewrite events_take, owner_after_take.
      eexists. split; [reflexivity |]. apply observed_grab.
  - rewrite owner_after_ungrab. destruct (ptr_owner s) as [o |] eqn:Howner.
    + rewrite (events_ungrab o s Howner).
      eexists. split; [reflexivity |]. apply observed_ungrab.
    + exists []. rewrite app_nil_r. unfold gd_ungrab_pointer. now rewrite Howner.
Qed.

Lemma calls_observed (cs : list GrabCall) (s : GtkDisplayState) :
  exists es,
    Gtk.events (calls cs s) = Gtk.events s ++ es
    /\ observed (ptr_owner s) es = Some (ptr_owner (calls cs s)).
Proof.
  revert s. induction cs as [| c cs IH]; intros s; simpl.
  - exists []. now rewrite app_nil_r.
  - destruct (call_observed c s) as (es1 & Hev1 & Hobs1).
    destruct (IH (call c s)) as (es2 & Hev2 & Hobs2).
    exists (es1 ++ es2). split.
    + unfold calls in *. simpl. rewrite Hev2, Hev1. now rewrite app_assoc.
    + rewrite observed_app, Hobs1. simpl. exact Hobs2.
Qed.

(** ** C3: over any sequence of [gd_grab_pointer] and [gd_ungrab_pointer]
    calls the trace points of the log name at most one holder of the pointer
    at any time, and that holder is [ptr_owner]; grabbing for the console
    that owns the pointer changes nothing; and a grab for console [b] while
    console [a] owns the pointer runs the whole ungrab sequence for [a]
    (owner cleared, caption updated, ungrab traced) and only then the grab
    sequence for [b]. *)
Theorem pointer_owner_is_exclusive :
  (forall cs s,
     exists es,
       Gtk.events (calls cs s) = Gtk.events s ++ es
       /\ observed (ptr_owner s) es = Some (ptr_owner (calls cs s)))
  /\ (forall vc reason at_x at_y s,
        ptr_owner s = Some vc -> gd_grab_pointer vc reason at_x at_y s = s)
  /\ (forall a b reason at_x at_y s,
        ptr_owner s = Some a -> a <> b ->
        let s1 := gd_ungrab_pointer s in
        let s2 := gd_grab_pointer b reason at_x at_y s in
        ptr_owner s1 = None
        /\ s2 = grab_pointer_take b reason at_x at_y s1
        /\ ptr_owner s2 = Some b
        /\ Gtk.events s2 =
             Gtk.events s
             ++ (caption_events (set_ptr_owner None s)
                 ++ [TraceUngrab a (label (vc_at s a)) "ptr"])
             ++ (caption_events (set_ptr_owner (Some b) (set_grab_root at_x at_y s1))
                 ++ [TraceGrab b (label (vc_at s1 b)) "ptr" reason])).
Proof.
  split; [exact calls_observed | split].
  - intros vc reason at_x at_y s Howner. unfold gd_grab_pointer.
    now rewrite Howner, Nat.eqb_refl.
  - intros a b reason at_x at_y s Howner Hne. cbv zeta.
    assert (Hcall : gd_grab_pointer b reason at_x at_y s
                    = grab_pointer_take b reason at_x at_y (gd_ungrab_pointer s)).
    { unfold gd_grab_pointer. rewrite Howner.
      now destruct (Nat.eqb_spec a b). }
    split; [apply owner_after_ungrab |]. split; [exact Hcall |].
    rewrite Hcall. split; [apply owner_after_take |].
    rewrite events_take, (events_ungrab a s Howner), <- !app_assoc. reflexivity.
Qed.

(** Scenario A of the specification: "vc0" grabs, then "vc1" grabs. *)
Lemma pointer_owner_is_exclusive_witness :
  let origin := C.double_of_int 0 in
  let s := gd_grab_pointer 0 "test" origin origin (session None false) in
  let s2 := gd_grab_pointer 1 "test" origin origin s in
  ptr_owner s = Some 0%nat
  /\ gd_grab_pointer 0 "again" origin origin s = s
  /\ ptr_owner (gd_ungrab_pointer s) = None
  /\ ptr_owner s2 = Some 1%nat
  /\ observed None (Gtk.events s2) = Some (Some 1%nat).
Proof.
  cbv zeta.
  destruct pointer_owner_is_exclusive as (Hobs & Hidem & Hswap).
  split; [reflexivity |].
  split; [apply Hidem; reflexivity |].
  destruct (Hswap 0%nat 1%nat "test" (C.double_of_int 0) (C.double_of_int 0)
              (gd_grab_pointer 0 "test" (C.double_of_int 0) (C.double_of_int 0)
                 (session None false)) eq_refl ltac:(discriminate))
    as (Hnone & _ & Hnew & _).
  split; [exact Hnone |]. split; [exact Hnew |].
  reflexivity.
Defined.

(** *** Mode change *)

Lemma cursor_loop (l : list nat) (s : GtkDisplayState) :
  exists es,
    foldl (fun s i => gd_update_cursor i s) s l = emits es s
    /\ Forall (fun e => silent e = true) es.
Proof.
  revert s. induction l as [| i l IH]; intros s; simpl.
  - exists []. now rewrite emits_nil.
  - assert (Hstep : gd_update_cursor i s = s
                    \/ exists hidden, gd_update_cursor i s
                                      = Gtk.emit (WidgetSetCursor i hidden) s).
    { unfold gd_update_cursor.
      repeat match goal with |- context [if ?c then _ else _] => destruct c end;
        eauto. }
    destruct Hstep as [-> | [hidden ->]]; [apply IH |].
    destruct (IH (Gtk.emit (WidgetSetCursor i hidden) s)) as (es & -> & Hes).
    exists (WidgetSetCursor i hidden :: es). split.
    + rewrite emit_as_emits, emits_emits. reflexivity.
    + now constructor.
Qed.

Lemma update_cursors_spec (s : GtkDisplayState) :
  exists es, update_cursors s = emits es s /\ Forall (fun e => silent e = true) es.
Proof. apply cursor_loop. Qed.

(** ** C1 (as amended): when the pointer mode has become absolute while a
    console owns the pointer, [gd_mouse_mode_change] runs the ungrab
    sequence if the owner is detached into a window of its own, leaving no
    owner, and sets the state of the "grab-input" action to false if the
    owner sits in its tab; in relative mode, or with no owner, the owner is
    left as it is. *)
Theorem mode_change_ungrabs_detached_owner (s : GtkDisplayState) :
  let s' := gd_mouse_mode_change s in
  (forall o,
     ptr_owner s = Some o -> qemu_input_is_absolute s = true ->
     window (vc_at s o) = true ->
     ptr_owner s' = None
     /\ s' = update_cursors (gd_ungrab_pointer s)
     /\ observed (Some o) (since (length (Gtk.events s)) s') = Some None)
  /\ (forall o,
        ptr_owner s = Some o -> qemu_input_is_absolute s = true ->
        window (vc_at s o) = false ->
        actions s' !! "grab-input" = Some false)
  /\ (qemu_input_is_absolute s = false \/ ptr_owner s = None ->
      ptr_owner s' = ptr_owner s).
Proof.
  cbv zeta. unfold gd_mouse_mode_change. split; [| split].
  - intros o Howner Habs Hwin. rewrite Howner, Habs, Hwin. simpl.
    destruct (update_cursors_spec (gd_ungrab_pointer s)) as (es & -> & Hes).
    split; [apply owner_after_ungrab |]. split; [reflexivity |].
    unfold since. rewrite events_emits, (events_ungrab o s Howner).
    rewrite <- app_assoc, drop_app_length, observed_app, observed_ungrab.
    simpl. now apply observed_silent.
  - intros o Howner Habs Hwin. rewrite Howner, Habs, Hwin. simpl.
    destruct (update_cursors_spec (s_action_set_state "grab-input" false s))
      as (es & -> & _).
    simpl. apply lookup_insert_eq.
  - intros Hcase.
    assert (Hskip : match ptr_owner s with
                    | Some o =>
                        if qemu_input_is_absolute s then
                          if negb (window (vc_at s o))
                          then s_action_set_state "grab-input" false s
                          else gd_ungrab_pointer s
                        else s
                    | None => s
                    end = s).
    { destruct Hcase as [-> | ->]; [now destruct (ptr_owner s) | reflexivity]. }
    rewrite Hskip.
    now destruct (update_cursors_spec s) as (es & -> & _).
Qed.

(** "vc1", detached, owns the pointer when the mode turns absolute. *)
Lemma mode_change_ungrabs_detached_owner_witness :
  ptr_owner (gd_mouse_mode_change (session (Some 1%nat) true)) = None
  /\ observed (Some 1%nat)
       (since (length (Gtk.events (session (Some 1%nat) true)))
              (gd_mouse_mode_change (session (Some 1%nat) true))) = Some None.
Proof.
  destruct (proj1 (mode_change_ungrabs_detached_owner (session (Some 1%nat) true))
              1%nat eq_refl eq_refl eq_refl) as (Hnone & _ & Hobs).
  split; [exact Hnone | exact Hobs].
Defined.

(** The claim as first stated fails on the same input: the owner has a
    window of its own, and the handler does not preserve its grab. *)
Lemma mode_change_drops_grab_of_detached_owner :
  window (vc_at (session (Some 1%nat) true) 1) = true
  /\ qemu_input_is_absolute (session (Some 1%nat) true) = true
  /\ ptr_owner (session (Some 1%nat) true) = Some 1%nat
  /\ ptr_owner (gd_mouse_mode_change (session (Some 1%nat) true)) = None.
Proof. repeat split. Qed.

(** With "vc0", in its tab, as the owner, the handler stores false in the
    action and the owner stays: the [activate] callback that would ungrab is
    not run by [g_simple_action_set_state]. *)
Example mode_change_with_tabbed_owner :
  window (vc_at (session (Some 0%nat) true) 0) = false
  /\ actions (gd_mouse_mode_change (session (Some 0%nat) true)) !! "grab-input"
     = Some false
  /\ ptr_owner (gd_mouse_mode_change (session (Some 0%nat) true)) = Some 0%nat.
Proof. repeat split. Qed.

(** ** Input router *)

Lemma motion_record_keeps_log (geo : Geometry) (pointer_x pointer_y : C.double)
    (vc : nat) (px py : Z) (s : GtkDisplayState) :
  let s' := motion_record geo pointer_x pointer_y vc px py s in
  Gtk.events s' = Gtk.events s /\ last_x s' = px /\ last_y s' = py.
Proof.
  cbv zeta. unfold motion_record.
  repeat match goal with |- context [if ?c then _ else _] => destruct c end;
    easy.
Qed.

Lemma owner_is_other (owner : option nat) (vc : nat) :
  owner <> Some vc -> owner_is owner vc = false.
Proof.
  destruct owner as [o |]; simpl; [| reflexivity].
  intros Hne. destruct (Nat.eqb_spec o vc); congruence.
Qed.




(** In absolute mode the handler queues no relative event either. *)
Lemma absolute_motion_sends_no_delta (geo : Geometry) (pointer_x pointer_y : C.double)
    (vc : nat) (s : GtkDisplayState) :
  qemu_input_is_absolute s = true ->
  count is_rel (Gtk.events (gd_motion_event geo pointer_x pointer_y vc s))
  = count is_rel (Gtk.events s).
Proof.
  intros Habs. unfold gd_motion_event.
  destruct (ds (gfx (vc_at s vc))) as [surface |]; [| reflexivity].
  rewrite Habs.
  match goal with |- context [if ?c then _ else _] => destruct c end;
    [reflexivity |].
  match goal with |- context [motion_record ?g ?a ?b ?c ?d ?e ?t] =>
    destruct (motion_record_keeps_log g a b c d e t) as (-> & _) end.
  simpl. count_events. lia.
Qed.

(** * Part III: further properties of the code *)

(** ** Keyboard *)

(** ** X1: with a table loaded, a scancode from 0 up to, but not including,
    the length of the table returns the entry of the table at that index. *)
Theorem map_keycode_reads_own_entry (tbl : list Z) (scancode : Z) :
  0 <= scancode < Z.of_nat (length tbl) ->
  exists v,
    tbl !! Z.to_nat scancode = Some v
    /\ gd_map_keycode (gd_get_keymap true tbl) scancode = Entry (Z.to_nat scancode) v
    /\ returned (gd_map_keycode (gd_get_keymap true tbl) scancode) = Some v.
Proof.
  intros Hs. destruct (map_keycode_inside tbl scancode Hs) as (v & Hv & Hmap).
  exists v. rewrite Hmap. easy.
Qed.

Lemma map_keycode_reads_own_entry_witness :
  exists v,
    [30; 48; 46] !! Z.to_nat 2 = Some v
    /\ gd_map_keycode (gd_get_keymap true [30; 48; 46]) 2 = Entry (Z.to_nat 2) v
    /\ returned (gd_map_keycode (gd_get_keymap true [30; 48; 46]) 2) = Some v.
Proof.
  apply (map_keycode_reads_own_entry [30; 48; 46] 2). simpl. lia.
Defined.

(** ** X2: with a table loaded, every [int] scancode that is negative or
    greater than the length of the table yields 0 and the table is not
    read. *)
Theorem map_keycode_outside_yields_zero (tbl : list Z) (scancode : Z) :
  Z.of_nat (length tbl) < 2 ^ 63 ->
  C.INT_MIN <= scancode <= C.INT_MAX ->
  scancode < 0 \/ Z.of_nat (length tbl) < scancode ->
  gd_map_keycode (gd_get_keymap true tbl) scancode = NoOp.
Proof.
  intros Hlen Hint [Hneg | Habove].
  - apply map_keycode_negative; lia.
  - apply map_keycode_above; lia.
Qed.

Lemma map_keycode_outside_yields_zero_witness :
  gd_map_keycode (gd_get_keymap true [30; 48; 46]) (-1) = NoOp
  /\ gd_map_keycode (gd_get_keymap true [30; 48; 46]) 4 = NoOp.
Proof.
  split.
  - apply (map_keycode_outside_yields_zero [30; 48; 46] (-1));
      [simpl; lia | unfold C.INT_MIN, C.INT_MAX; lia | left; lia].
  - apply (map_keycode_outside_yields_zero [30; 48; 46] 4);
      [simpl; lia | unfold C.INT_MIN, C.INT_MAX; lia | right; simpl; lia].
Defined.

Import Session.

Lemma int_of_large_guint (keycode : Z) :
  2 ^ 31 <= keycode < 2 ^ 32 -> C.int keycode = keycode - 2 ^ 32.
Proof.
  intros Hk. unfold C.int, C.to_signed.
  rewrite Z.mod_small by lia.
  destruct (Z.ltb_spec keycode (2 ^ (32 - 1))); [lia | reflexivity].
Qed.

(** ** X3: [gd_key_event] forwards the Pause key as [Q_KEY_CODE_PAUSE]
    without consulting the table, whatever the keycode; it forwards qcode 0
    for every key when no table is loaded, and for every [guint] keycode
    from 2^31 up (negative once passed as an [int]) when one is. *)
Theorem key_event_fallbacks (Q_KEY_CODE_PAUSE : Z) (keymap : Keymap.Statics)
    (keyval keycode : Z) (is_press : bool) (vc : nat) (s : GtkDisplayState) :
  (keyval = GDK_KEY_Pause ->
     gd_key_event Q_KEY_CODE_PAUSE keymap keyval keycode is_press vc s
     = Some [KbdStateKeyEvent vc Q_KEY_CODE_PAUSE is_press])
  /\ (keyval <> GDK_KEY_Pause -> keycode_map keymap = None ->
      exists trace,
        gd_key_event Q_KEY_CODE_PAUSE keymap keyval keycode is_press vc s
        = Some [trace; KbdStateKeyEvent vc 0 is_press])
  /\ (forall tbl,
        keyval <> GDK_KEY_Pause -> keymap = gd_get_keymap true tbl ->
        Z.of_nat (length tbl) < 2 ^ 63 -> 2 ^ 31 <= keycode < 2 ^ 32 ->
        exists trace,
          gd_key_event Q_KEY_CODE_PAUSE keymap keyval keycode is_press vc s
          = Some [trace; KbdStateKeyEvent vc 0 is_press]).
Proof.
  unfold gd_key_event. split; [| split].
  - intros ->. now rewrite Z.eqb_refl.
  - intros Hkey Hmap. destruct (Z.eqb_spec keyval GDK_KEY_Pause); [easy |].
    unfold gd_map_keycode. rewrite Hmap. simpl. eauto.
  - intros tbl Hkey -> Hlen Hcode.
    destruct (Z.eqb_spec keyval GDK_KEY_Pause); [easy |].
    rewrite int_of_large_guint by exact Hcode.
    rewrite map_keycode_negative by (unfold C.INT_MIN; lia).
    simpl. eauto.
Qed.

Lemma key_event_fallbacks_witness :
  gd_key_event 198 small_table GDK_KEY_Pause 3 true 0 (session None false)
  = Some [KbdStateKeyEvent 0 198 true]
  /\ (exists trace,
        gd_key_event 198 small_table 97 (2 ^ 31) true 0 (session None false)
        = Some [trace; KbdStateKeyEvent 0 0 true]).
Proof.
  destruct (key_event_fallbacks 198 small_table GDK_KEY_Pause 3 true 0
              (session None false)) as (Hpause & _ & _).
  destruct (key_event_fallbacks 198 small_table 97 (2 ^ 31) true 0
              (session None false)) as (_ & _ & Hlarge).
  split.
  - apply Hpause. reflexivity.
  - apply (Hlarge [30; 48; 46]).
    + discriminate.
    + reflexivity.
    + simpl. lia.
    + lia.
Defined.

(** ** Grab arbiter, both devices *)

Lemma arbiter_frame_refl (s : GtkDisplayState) : arbiter_frame s s.
Proof. unfold arbiter_frame. easy. Qed.

Lemma arbiter_frame_trans (s1 s2 s3 : GtkDisplayState) :
  arbiter_frame s1 s2 -> arbiter_frame s2 s3 -> arbiter_frame s1 s3.
Proof.
  unfold arbiter_frame. intros (A1 & A2 & A3 & A4 & A5 & A6 & A7 & A8)
    (B1 & B2 & B3 & B4 & B5 & B6 & B7 & B8).
  repeat split; congruence.
Qed.

Lemma caption_frame (s : GtkDisplayState) :
  arbiter_frame s (gd_update_caption s)
  /\ ptr_owner (gd_update_caption s) = ptr_owner s
  /\ kbd_owner (gd_update_caption s) = kbd_owner s.
Proof.
  rewrite gd_update_caption_spec. unfold arbiter_frame. simpl.
  repeat split. now rewrite lookup_insert_ne.
Qed.

Lemma ungrab_pointer_frame (s : GtkDisplayState) :
  arbiter_frame s (gd_ungrab_pointer s)
  /\ kbd_owner (gd_ungrab_pointer s) = kbd_owner s.
Proof.
  destruct (ptr_owner s) as [o |] eqn:Howner.
  - rewrite (gd_ungrab_pointer_spec o s Howner). unfold arbiter_frame. simpl.
    repeat split. now rewrite lookup_insert_ne.
  - unfold gd_ungrab_pointer. rewrite Howner. split; [apply arbiter_frame_refl | easy].
Qed.

Lemma take_pointer_frame (vc : nat) (reason : string) (at_x at_y : C.double)
    (s : GtkDisplayState) :
  arbiter_frame s (grab_pointer_take vc reason at_x at_y s)
  /\ kbd_owner (grab_pointer_take vc reason at_x at_y s) = kbd_owner s.
Proof.
  rewrite grab_pointer_take_spec. unfold arbiter_frame. simpl.
  repeat split. now rewrite lookup_insert_ne.
Qed.

Lemma grab_pointer_frame (vc : nat) (reason : string) (at_x at_y : C.double)
    (s : GtkDisplayState) :
  arbiter_frame s (gd_grab_pointer vc reason at_x at_y s)
  /\ kbd_owner (gd_grab_pointer vc reason at_x at_y s) = kbd_owner s.
Proof.
  unfold gd_grab_pointer. destruct (ptr_owner s) as [o |].
  - destruct (Nat.eqb o vc); [split; [apply arbiter_frame_refl | easy] |].
    destruct (ungrab_pointer_frame s) as (F1 & K1).
    destruct (take_pointer_frame vc reason at_x at_y (gd_ungrab_pointer s)) as (F2 & K2).
    split; [now apply arbiter_frame_trans with (s2 := gd_ungrab_pointer s) | congruence].
  - apply take_pointer_frame.
Qed.

Lemma owner_after_grab (vc : nat) (reason : string) (at_x at_y : C.double)
    (s : GtkDisplayState) :
  ptr_owner (gd_grab_pointer vc reason at_x at_y s) = Some vc.
Proof.
  unfold gd_grab_pointer. destruct (ptr_owner s) as [o |] eqn:Howner.
  - destruct (Nat.eqb_spec o vc) as [-> | _]; [exact Howner | apply owner_after_take].
  - apply owner_after_take.
Qed.

Lemma ungrab_keyboard_frame (s : GtkDisplayState) :
  arbiter_frame s (gd_ungrab_keyboard s)
  /\ ptr_owner (gd_ungrab_keyboard s) = ptr_owner s
  /\ kbd_owner (gd_ungrab_keyboard s) = None.
Proof.
  unfold gd_ungrab_keyboard, gd_grab_update.
  destruct (kbd_owner s) as [o |] eqn:Howner.
  - rewrite gd_update_caption_spec. unfold arbiter_frame. simpl.
    repeat split. now rewrite lookup_insert_ne.
  - split; [apply arbiter_frame_refl | easy].
Qed.

Lemma take_keyboard_frame (vc : nat) (reason : string) (s : GtkDisplayState) :
  arbiter_frame s (grab_keyboard_take vc reason s)
  /\ ptr_owner (grab_keyboard_take vc reason s) = ptr_owner s
  /\ kbd_owner (grab_keyboard_take vc reason s) = Some vc.
Proof.
  unfold grab_keyboard_take, gd_grab_update.
  rewrite gd_update_caption_spec. unfold arbiter_frame. simpl.
  repeat split. now rewrite lookup_insert_ne.
Qed.

Lemma grab_keyboard_frame (vc : nat) (reason : string) (s : GtkDisplayState) :
  arbiter_frame s (gd_grab_keyboard vc reason s)
  /\ ptr_owner (gd_grab_keyboard vc reason s) = ptr_owner s
  /\ kbd_owner (gd_grab_keyboard vc reason s) = Some vc.
Proof.
  unfold gd_grab_keyboard. destruct (kbd_owner s) as [o |] eqn:Howner.
  - destruct (Nat.eqb_spec o vc) as [-> | _];
      [split; [apply arbiter_frame_refl | easy] |].
    destruct (ungrab_keyboard_frame s) as (F1 & P1 & _).
    destruct (take_keyboard_frame vc reason (gd_ungrab_keyboard s)) as (F2 & P2 & K2).
    split; [now apply arbiter_frame_trans with (s2 := gd_ungrab_keyboard s) |].
    split; [congruence | exact K2].
  - apply take_keyboard_frame.
Qed.

(** ** X12: [gd_ungrab_pointer] on a session without a pointer owner
    changes nothing, so releasing twice is releasing once. *)
Theorem ungrab_pointer_is_idempotent (s : GtkDisplayState) :
  (ptr_owner s = None -> gd_ungrab_pointer s = s)
  /\ gd_ungrab_pointer (gd_ungrab_pointer s) = gd_ungrab_pointer s.
Proof.
  assert (Hnone : forall t, ptr_owner t = None -> gd_ungrab_pointer t = t).
  { intros t Ht. unfold gd_ungrab_pointer. now rewrite Ht. }
  split; [apply Hnone |]. apply Hnone, owner_after_ungrab.
Qed.

Lemma ungrab_pointer_is_idempotent_witness :
  gd_ungrab_pointer (session None false) = session None false
  /\ gd_ungrab_pointer (gd_ungrab_pointer (session (Some 1%nat) false))
     = gd_ungrab_pointer (session (Some 1%nat) false).
Proof.
  split.
  - exact (proj1 (ungrab_pointer_is_idempotent (session None false)) eq_refl).
  - exact (proj2 (ungrab_pointer_is_idempotent (session (Some 1%nat) false))).
Defined.

Lemma call_owner_only (c : GrabCall) (s t : GtkDisplayState) :
  ptr_owner s = ptr_owner t -> ptr_owner (call c s) = ptr_owner (call c t).
Proof.
  intros Hsame. destruct c as [vc reason at_x at_y |]; simpl.
  - now rewrite !owner_after_grab.
  - now rewrite !owner_after_ungrab.
Qed.

Lemma call_keeps_keyboard (c : GrabCall) (s : GtkDisplayState) :
  kbd_owner (call c s) = kbd_owner s /\ arbiter_frame s (call c s).
Proof.
  destruct c as [vc reason at_x at_y |]; simpl.
  - destruct (grab_pointer_frame vc reason at_x at_y s); easy.
  - destruct (ungrab_pointer_frame s); easy.
Qed.

(** ** X13: pointer and keyboard grabs do not interfere.  Over any mix of
    grab and ungrab calls for the two devices, the pointer owner is the one
    the pointer calls alone would leave, and the calls for the pointer leave
    the keyboard owner as it was. *)
Theorem grabs_are_independent (cs : list ArbiterCall) (s : GtkDisplayState) :
  ptr_owner (arbiter_calls cs s) = ptr_owner (calls (pointer_calls cs) s)
  /\ (forall pcs, kbd_owner (calls pcs s) = kbd_owner s).
Proof.
  split.
  - assert (Hgen : forall cs s t,
               ptr_owner s = ptr_owner t ->
               ptr_owner (arbiter_calls cs s) = ptr_owner (calls (pointer_calls cs) t)).
    { clear. induction cs as [| c cs IH]; intros s t Hsame; [exact Hsame |].
      destruct c as [c | vc reason |]; simpl.
      - apply IH. now apply call_owner_only.
      - apply IH. now destruct (grab_keyboard_frame vc reason s) as (_ & -> & _).
      - apply IH. now destruct (ungrab_keyboard_frame s) as (_ & -> & _). }
    now apply Hgen.
  - intros pcs. revert s. induction pcs as [| c pcs IH]; intros s; [reflexivity |].
    unfold calls in *. simpl. rewrite IH. apply call_keeps_keyboard.
Qed.

Lemma grabs_are_independent_witness :
  let origin := C.double_of_int 0 in
  ptr_owner (arbiter_calls [GrabKeyboard 0 "a"; Pointer (GrabPointer 1 "b" origin origin);
                            UngrabKeyboard; GrabKeyboard 1 "c"] (session None false))
  = Some 1%nat.
Proof.
  cbv zeta.
  rewrite (proj1 (grabs_are_independent
                    [GrabKeyboard 0 "a";
                     Pointer (GrabPointer 1 "b" (C.double_of_int 0) (C.double_of_int 0));
                     UngrabKeyboard; GrabKeyboard 1 "c"] (session None false))).
  reflexivity.
Defined.

Lemma update_cursor_frame (vc : nat) (s : GtkDisplayState) :
  arbiter_frame s (gd_update_cursor vc s)
  /\ ptr_owner (gd_update_cursor vc s) = ptr_owner s
  /\ kbd_owner (gd_update_cursor vc s) = kbd_owner s.
Proof.
  unfold gd_update_cursor.
  repeat match goal with |- context [if ?c then _ else _] => destruct c end;
    unfold arbiter_frame; easy.
Qed.

(** ** X14: activating the "grab-input" action toggles the grab of the
    current console.  With the action's state false it becomes true and the
    console owns keyboard and pointer; with the state true it becomes false
    and neither device has an owner.  Without a current console nothing
    happens. *)
Theorem grab_input_toggles (vc : nat) (at_x at_y : C.double) (s : GtkDisplayState) :
  let s' := on_grab_input_cb (Some vc) at_x at_y s in
  (s_action_get_state "grab-input" s = false ->
     s_action_get_state "grab-input" s' = true
     /\ kbd_owner s' = Some vc /\ ptr_owner s' = Some vc)
  /\ (s_action_get_state "grab-input" s = true ->
      s_action_get_state "grab-input" s' = false
      /\ kbd_owner s' = None /\ ptr_owner s' = None)
  /\ on_grab_input_cb None at_x at_y s = s.
Proof.
  cbv zeta. unfold on_grab_input_cb. split; [| split; [| reflexivity]].
  - intros Hoff. rewrite Hoff. simpl.
    set (s1 := s_action_set_state "grab-input" true s).
    destruct (grab_keyboard_frame vc "user-request-main-window" s1) as (F1 & _ & K1).
    set (s2 := gd_grab_keyboard vc "user-request-main-window" s1) in *.
    destruct (grab_pointer_frame vc "user-request-main-window" at_x at_y s2) as (F2 & K2).
    pose proof (owner_after_grab vc "user-request-main-window" at_x at_y s2) as P2.
    set (s3 := gd_grab_pointer vc "user-request-main-window" at_x at_y s2) in *.
    destruct (update_cursor_frame vc s3) as (F3 & P3 & K3).
    split; [| split; congruence].
    unfold s_action_get_state.
    destruct F1 as (_ & _ & _ & _ & _ & _ & _ & A1).
    destruct F2 as (_ & _ & _ & _ & _ & _ & _ & A2).
    destruct F3 as (_ & _ & _ & _ & _ & _ & _ & A3).
    rewrite A3, A2, A1. subst s1. simpl. now rewrite lookup_insert_eq.
  - intros Hon. rewrite Hon. simpl.
    set (s1 := s_action_set_state "grab-input" false s).
    destruct (ungrab_keyboard_frame s1) as (F1 & _ & K1).
    set (s2 := gd_ungrab_keyboard s1) in *.
    destruct (ungrab_pointer_frame s2) as (F2 & K2).
    pose proof (owner_after_ungrab s2) as P2.
    set (s3 := gd_ungrab_pointer s2) in *.
    destruct (update_cursor_frame vc s3) as (F3 & P3 & K3).
    split; [| split; congruence].
    unfold s_action_get_state.
    destruct F1 as (_ & _ & _ & _ & _ & _ & _ & A1).
    destruct F2 as (_ & _ & _ & _ & _ & _ & _ & A2).
    destruct F3 as (_ & _ & _ & _ & _ & _ & _ & A3).
    rewrite A3, A2, A1. subst s1. simpl. now rewrite lookup_insert_eq.
Qed.

(** Ctrl+Alt+G twice on "vc0": grabbed, then released. *)
Lemma grab_input_toggles_witness :
  let origin := C.double_of_int 0 in
  let s := s_action_set_state "grab-input" false (session None false) in
  let s1 := on_grab_input_cb (Some 0%nat) origin origin s in
  let s2 := on_grab_input_cb (Some 0%nat) origin origin s1 in
  (kbd_owner s1, ptr_owner s1) = (Some 0%nat, Some 0%nat)
  /\ (kbd_owner s2, ptr_owner s2) = (None, None).
Proof.
  cbv zeta.
  destruct (proj1 (grab_input_toggles 0 (C.double_of_int 0) (C.double_of_int 0)
                     (s_action_set_state "grab-input" false (session None false)))
              eq_refl) as (Hstate & Hk & Hp).
  destruct (proj1 (proj2 (grab_input_toggles 0 (C.double_of_int 0) (C.double_of_int 0)
                     (on_grab_input_cb (Some 0%nat) (C.double_of_int 0)
                        (C.double_of_int 0)
                        (s_action_set_state "grab-input" false (session None false)))))
              Hstate) as (_ & Hk2 & Hp2).
  split; congruence.
Defined.

(** ** X15: the Ctrl+Alt+G shortcut of a graphics widget releases the
    pointer whenever any console owns it, also when the owner is another
    console, and grabs it for its own console only when nobody owns it. *)
Theorem win_grab_toggles (vc : nat) (at_x at_y : C.double) (s : GtkDisplayState) :
  ptr_owner (gd_win_grab vc at_x at_y s).2 =
    match ptr_owner s with
    | Some _ => None
    | None => Some vc
    end
  /\ kbd_owner (gd_win_grab vc at_x at_y s).2 = kbd_owner s.
Proof.
  unfold gd_win_grab. simpl. destruct (ptr_owner s) as [o |].
  - split; [apply owner_after_ungrab | apply ungrab_pointer_frame].
  - split; [apply owner_after_grab | apply grab_pointer_frame].
Qed.

(** ** X16: [gd_button_event] forwards a click as one button event and a
    sync: GDK button 1 as the left, 2 as the middle, 3 as the right, 8 as
    the side and 9 as the extra button, and nothing for any other button or
    for the second and third press of a multi-click; the button is reported
    down exactly when the press count is 1.  Before that, a single click of
    button 1 in relative mode on a detached console that does not own the
    pointer makes that console the pointer owner; in every other case, a
    console in its tab included, the session is left as it is. *)
Theorem button_event_forwards (n_presses button_nbr : Z) (at_x at_y : C.double)
    (vc : nat) (s : GtkDisplayState) :
  let r := gd_button_event n_presses button_nbr at_x at_y vc s in
  let forwarded btn := [InputQueueBtn vc btn (n_presses =? 1); InputSync] in
  r.2 = (if (n_presses =? 2) || (n_presses =? 3) then []
         else if button_nbr =? 1 then forwarded INPUT_BUTTON_LEFT
         else if button_nbr =? 2 then forwarded INPUT_BUTTON_MIDDLE
         else if button_nbr =? 3 then forwarded INPUT_BUTTON_RIGHT
         else if button_nbr =? 8 then forwarded INPUT_BUTTON_SIDE
         else if button_nbr =? 9 then forwarded INPUT_BUTTON_EXTRA
         else [])
  /\ (button_nbr = 1 -> n_presses = 1 -> qemu_input_is_absolute s = false ->
      ptr_owner s <> Some vc -> window (vc_at s vc) = true ->
      ptr_owner r.1 = Some vc
      /\ r.2 = [InputQueueBtn vc INPUT_BUTTON_LEFT true; InputSync])
  /\ (button_nbr <> 1 \/ n_presses <> 1 \/ qemu_input_is_absolute s = true
      \/ ptr_owner s = Some vc \/ window (vc_at s vc) = false ->
      r.1 = s).
Proof.
  cbv zeta. unfold gd_button_event. split; [| split].
  - unfold button_of.
    destruct (button_nbr =? 1), (button_nbr =? 2), (button_nbr =? 3),
      (button_nbr =? 8), (button_nbr =? 9);
      destruct ((n_presses =? 2) || (n_presses =? 3)); reflexivity.
  - intros -> -> Hrel Hother Hwin. rewrite Hrel, Hwin.
    rewrite (owner_is_other _ _ Hother). simpl.
    split; [apply owner_after_grab | reflexivity].
  - intros Hcase.
    assert (Hskip : (if (button_nbr =? 1) && (n_presses =? 1)
                        && negb (qemu_input_is_absolute s)
                        && negb (owner_is (ptr_owner s) vc)
                     then if negb (window (vc_at s vc)) then s
                          else gd_grab_pointer vc "relative-mode-click" at_x at_y s
                     else s) = s).
    { destruct Hcase as [H | [H | [H | [H | H]]]].
      - destruct (Z.eqb_spec button_nbr 1); [easy | reflexivity].
      - destruct (Z.eqb_spec n_presses 1); [easy | now rewrite andb_false_r].
      - rewrite H. simpl. now rewrite andb_false_r.
      - rewrite H. simpl. rewrite Nat.eqb_refl. simpl. now rewrite andb_false_r.
      - rewrite H. simpl. now destruct (_ && _). }
    rewrite Hskip.
    destruct (button_of button_nbr); [| reflexivity].
    destruct ((n_presses =? 2) || (n_presses =? 3)); reflexivity.
Qed.

(** A first click into the detached "vc1" in relative mode; buttons 2 and
    3 with a press count of 0, buttons 8 and 9 with a press count of 1; a
    double click and the unknown button 4 forward nothing. *)
Lemma button_event_forwards_witness :
  let origin := C.double_of_int 0 in
  let s := session None false in
  ptr_owner (gd_button_event 1 1 origin origin 1 s).1 = Some 1%nat
  /\ (gd_button_event 1 1 origin origin 1 s).2
     = [InputQueueBtn 1 INPUT_BUTTON_LEFT true; InputSync]
  /\ (gd_button_event 0 2 origin origin 1 s).2
     = [InputQueueBtn 1 INPUT_BUTTON_MIDDLE false; InputSync]
  /\ (gd_button_event 0 3 origin origin 1 s).2
     = [InputQueueBtn 1 INPUT_BUTTON_RIGHT false; InputSync]
  /\ (gd_button_event 1 8 origin origin 1 s).2
     = [InputQueueBtn 1 INPUT_BUTTON_SIDE true; InputSync]
  /\ (gd_button_event 1 9 origin origin 1 s).2
     = [InputQueueBtn 1 INPUT_BUTTON_EXTRA true; InputSync]
  /\ (gd_button_event 2 1 origin origin 1 s).2 = []
  /\ (gd_button_event 1 4 origin origin 1 s).2 = [].
Proof.
  cbv zeta.
  destruct (button_event_forwards 1 1 (C.double_of_int 0) (C.double_of_int 0) 1
              (session None false)) as (_ & Hgrab & _).
  destruct (Hgrab eq_refl eq_refl eq_refl ltac:(discriminate) eq_refl) as (Ho & Hc).
  split; [exact Ho |]. split; [exact Hc |].
  split; [| split; [| split; [| split; [| split]]]].
  - exact (proj1 (button_event_forwards 0 2 (C.double_of_int 0) (C.double_of_int 0) 1
                    (session None false))).
  - exact (proj1 (button_event_forwards 0 3 (C.double_of_int 0) (C.double_of_int 0) 1
                    (session None false))).
  - exact (proj1 (button_event_forwards 1 8 (C.double_of_int 0) (C.double_of_int 0) 1
                    (session None false))).
  - exact (proj1 (button_event_forwards 1 9 (C.double_of_int 0) (C.double_of_int 0) 1
                    (session None false))).
  - exact (proj1 (button_event_forwards 2 1 (C.double_of_int 0) (C.double_of_int 0) 1
                    (session None false))).
  - exact (proj1 (button_event_forwards 1 4 (C.double_of_int 0) (C.double_of_int 0) 1
                    (session None false))).
Defined.

(** ** X17: [on_scroll] queues, for at most one wheel button, a press, a
    sync, a release and a sync, in that order.  A discrete direction always
    clicks its own wheel button.  A smooth scroll clicks wheel-down for a
    positive and wheel-up for a negative vertical delta, whatever the
    horizontal one, looks at the horizontal delta only when the vertical one
    is neither, and queues nothing when both are neither positive nor
    negative. *)
Theorem scroll_clicks_one_wheel (direction : GdkScrollDirection)
    (delta_x delta_y : C.double) (vc : nat) :
  let click btn :=
    [InputQueueBtn vc btn true; InputSync; InputQueueBtn vc btn false; InputSync] in
  on_scroll direction delta_x delta_y vc =
    match direction with
    | GDK_SCROLL_UP => click INPUT_BUTTON_WHEEL_UP
    | GDK_SCROLL_DOWN => click INPUT_BUTTON_WHEEL_DOWN
    | GDK_SCROLL_LEFT => click INPUT_BUTTON_WHEEL_LEFT
    | GDK_SCROLL_RIGHT => click INPUT_BUTTON_WHEEL_RIGHT
    | GDK_SCROLL_SMOOTH =>
        if PrimFloat.ltb PrimFloat.zero delta_y then click INPUT_BUTTON_WHEEL_DOWN
        else if PrimFloat.ltb delta_y PrimFloat.zero then click INPUT_BUTTON_WHEEL_UP
        else if PrimFloat.ltb PrimFloat.zero delta_x then click INPUT_BUTTON_WHEEL_RIGHT
        else if PrimFloat.ltb delta_x PrimFloat.zero then click INPUT_BUTTON_WHEEL_LEFT
        else []
    end.
Proof.
  cbv zeta. unfold on_scroll.
  destruct direction; try reflexivity.
  change (PrimFloat.ltb PrimFloat.zero delta_y) with (positive delta_y).
  change (PrimFloat.ltb delta_y PrimFloat.zero) with (negative delta_y).
  change (PrimFloat.ltb PrimFloat.zero delta_x) with (positive delta_x).
  change (PrimFloat.ltb delta_x PrimFloat.zero) with (negative delta_x).
  destruct (positive delta_y), (negative delta_y), (positive delta_x),
    (negative delta_x); reflexivity.
Qed.

(** A smooth scroll by (3, -1) goes up, by (3, 0) to the right, by (0, 0)
    nowhere; a discrete scroll to the left clicks the left wheel button
    whatever the deltas. *)
Lemma scroll_clicks_one_wheel_witness :
  on_scroll GDK_SCROLL_SMOOTH (C.double_of_int 3) (C.double_of_int (-1)) 0
  = [InputQueueBtn 0 INPUT_BUTTON_WHEEL_UP true; InputSync;
     InputQueueBtn 0 INPUT_BUTTON_WHEEL_UP false; InputSync]
  /\ on_scroll GDK_SCROLL_SMOOTH (C.double_of_int 3) (C.double_of_int 0) 0
     = [InputQueueBtn 0 INPUT_BUTTON_WHEEL_RIGHT true; InputSync;
        InputQueueBtn 0 INPUT_BUTTON_WHEEL_RIGHT false; InputSync]
  /\ on_scroll GDK_SCROLL_SMOOTH (C.double_of_int 0) (C.double_of_int 0) 0 = []
  /\ on_scroll GDK_SCROLL_LEFT (C.double_of_int 0) (C.double_of_int 5) 0
     = [InputQueueBtn 0 INPUT_BUTTON_WHEEL_LEFT true; InputSync;
        InputQueueBtn 0 INPUT_BUTTON_WHEEL_LEFT false; InputSync].
Proof.
  split; [| split; [| split]].
  - exact (scroll_clicks_one_wheel GDK_SCROLL_SMOOTH (C.double_of_int 3)
             (C.double_of_int (-1)) 0).
  - exact (scroll_clicks_one_wheel GDK_SCROLL_SMOOTH (C.double_of_int 3)
             (C.double_of_int 0) 0).
  - exact (scroll_clicks_one_wheel GDK_SCROLL_SMOOTH (C.double_of_int 0)
             (C.double_of_int 0) 0).
  - exact (scroll_clicks_one_wheel GDK_SCROLL_LEFT (C.double_of_int 0)
             (C.double_of_int 5) 0).
Defined.

(** ** Pointer motion *)

(** ** X18: in absolute mode, a motion event whose position on the guest
    surface lies outside the surface is dropped without a trace, the last
    position included; one inside queues the two absolute axis events,
    scaled to the width and the height of the surface, and a sync, and
    becomes the last position. *)
Theorem absolute_motion_in_bounds (geo : Geometry) (pointer_x pointer_y : C.double)
    (vc : nat) (surface : DisplaySurface) (s : GtkDisplayState) :
  qemu_input_is_absolute s = true ->
  ds (gfx (vc_at s vc)) = Some surface ->
  let px := surface_x geo surface pointer_x in
  let py := surface_y geo surface pointer_y in
  let s' := gd_motion_event geo pointer_x pointer_y vc s in
  (px < 0 \/ py < 0 \/ surface_width surface <= px \/ surface_height surface <= py ->
     s' = s)
  /\ (0 <= px < surface_width surface -> 0 <= py < surface_height surface ->
      Gtk.events s' = Gtk.events s ++
        [InputQueueAbs INPUT_AXIS_X px 0 (surface_width surface);
         InputQueueAbs INPUT_AXIS_Y py 0 (surface_height surface);
         InputEventSync]
      /\ (last_set s', last_x s', last_y s') = (true, px, py)).
Proof.
  intros Habs Hds. cbv zeta. unfold gd_motion_event. rewrite Hds, Habs. split.
  - intros Hout.
    assert (Hcond : (surface_x geo surface pointer_x <? 0)
                    || (surface_y geo surface pointer_y <? 0)
                    || (surface_x geo surface pointer_x >=? surface_width surface)
                    || (surface_y geo surface pointer_y >=? surface_height surface)
                    = true).
    { destruct (Z.ltb_spec (surface_x geo surface pointer_x) 0); [reflexivity |].
      destruct (Z.ltb_spec (surface_y geo surface pointer_y) 0); [reflexivity |].
      destruct (Z.geb_spec (surface_x geo surface pointer_x) (surface_width surface));
        [reflexivity |].
      destruct (Z.geb_spec (surface_y geo surface pointer_y) (surface_height surface));
        [reflexivity | lia]. }
    now rewrite Hcond.
  - intros Hx Hy.
    destruct (Z.ltb_spec (surface_x geo surface pointer_x) 0); [lia |].
    destruct (Z.ltb_spec (surface_y geo surface pointer_y) 0); [lia |].
    destruct (Z.geb_spec (surface_x geo surface pointer_x) (surface_width surface));
      [lia |].
    destruct (Z.geb_spec (surface_y geo surface pointer_y) (surface_height surface));
      [lia |].
    simpl. unfold motion_record. simpl. rewrite Habs. simpl.
    split; [now rewrite <- !app_assoc | reflexivity].
Qed.

(** "vc0" in absolute mode: window position (110, 120) is (30, 60) on the
    surface; window position (10, 120) is left of the letterboxed surface. *)
Lemma absolute_motion_in_bounds_witness :
  Gtk.events (gd_motion_event plain_geometry (C.double_of_int 110)
                (C.double_of_int 120) 0 (session None true))
  = [InputQueueAbs INPUT_AXIS_X 30 0 640; InputQueueAbs INPUT_AXIS_Y 60 0 480;
     InputEventSync]
  /\ gd_motion_event plain_geometry (C.double_of_int 10) (C.double_of_int 120) 0
       (session None true) = session None true.
Proof.
  destruct (absolute_motion_in_bounds plain_geometry (C.double_of_int 110)
              (C.double_of_int 120) 0
              {| surface_width := 640; surface_height := 480; is_placeholder := false |}
              (session None true) eq_refl eq_refl) as (_ & Hin).
  destruct (absolute_motion_in_bounds plain_geometry (C.double_of_int 10)
              (C.double_of_int 120) 0
              {| surface_width := 640; surface_height := 480; is_placeholder := false |}
              (session None true) eq_refl eq_refl) as (Hout & _).
  split.
  - apply Hin; vm_compute; split; congruence.
  - apply Hout. left. vm_compute. reflexivity.
Defined.

Lemma motion_frame (geo : Geometry) (pointer_x pointer_y : C.double) (vc : nat)
    (s : GtkDisplayState) :
  let s' := gd_motion_event geo pointer_x pointer_y vc s in
  qemu_input_is_absolute s' = qemu_input_is_absolute s
  /\ ptr_owner s' = ptr_owner s /\ Gtk.vc s' = Gtk.vc s.
Proof.
  assert (Hrecord : forall px py t,
            qemu_input_is_absolute (motion_record geo pointer_x pointer_y vc px py t)
            = qemu_input_is_absolute t
            /\ ptr_owner (motion_record geo pointer_x pointer_y vc px py t) = ptr_owner t
            /\ Gtk.vc (motion_record geo pointer_x pointer_y vc px py t) = Gtk.vc t).
  { intros px py t. unfold motion_record. cbv zeta.
    destruct (negb _ && _); [destruct (at_monitor_edge _ _ _) |];
      repeat split; reflexivity. }
  cbv zeta. unfold gd_motion_event.
  destruct (ds (gfx (vc_at s vc))) as [surface |]; [| repeat split; reflexivity].
  cbv zeta.
  destruct (qemu_input_is_absolute s) eqn:Habs.
  - destruct (_ || _); [now rewrite Habs |].
    match goal with |- context [motion_record _ _ _ _ ?px ?py ?t] =>
      destruct (Hrecord px py t) as (-> & -> & ->) end.
    repeat split; simpl; auto.
  - destruct (last_set s && owner_is (ptr_owner s) vc);
      match goal with |- context [motion_record _ _ _ _ ?px ?py ?t] =>
        destruct (Hrecord px py t) as (-> & -> & ->) end;
      repeat split; simpl; auto.
Qed.

Lemma at_monitor_edge_spec (geo : Geometry) (px py : Z) :
  at_monitor_edge geo px py = true
  <-> (px <= geometry_x geo
       \/ C.int (geometry_width geo - 1) <= C.int (px - geometry_x geo)
       \/ py <= geometry_y geo
       \/ C.int (geometry_height geo - 1) <= C.int (py - geometry_y geo)).
Proof.
  unfold at_monitor_edge. rewrite !orb_true_iff, Z.leb_le, Z.leb_le, !Z.geb_le.
  tauto.
Qed.

(** ** X19: in relative mode, on a console that shows a surface and owns
    the pointer, a motion event with the pointer on an edge of the monitor
    (at or before its left or top edge, or at or past its last column or
    row) clears the last position, and the motion event after that
    queues nothing: the jump away from the edge is not sent to the guest as
    a delta.  That second event records a last position again exactly when
    it is not itself on an edge.  On a console without a surface both events
    leave the session as it is. *)
Theorem edge_hit_swallows_next_delta (geo geo' : Geometry)
    (pointer_x pointer_y pointer_x' pointer_y' : C.double) (vc : nat)
    (s : GtkDisplayState) :
  qemu_input_is_absolute s = false ->
  ptr_owner s = Some vc ->
  C.int_of_double pointer_x <= geometry_x geo
  \/ C.int (geometry_width geo - 1)
     <= C.int (C.int_of_double pointer_x - geometry_x geo)
  \/ C.int_of_double pointer_y <= geometry_y geo
  \/ C.int (geometry_height geo - 1)
     <= C.int (C.int_of_double pointer_y - geometry_y geo) ->
  let s1 := gd_motion_event geo pointer_x pointer_y vc s in
  let s2 := gd_motion_event geo' pointer_x' pointer_y' vc s1 in
  match ds (gfx (vc_at s vc)) with
  | None => s1 = s /\ s2 = s
  | Some _ =>
      last_set s1 = false
      /\ Gtk.events s2 = Gtk.events s1
      /\ (last_set s2 = false
          <-> (C.int_of_double pointer_x' <= geometry_x geo'
               \/ C.int (geometry_width geo' - 1)
                  <= C.int (C.int_of_double pointer_x' - geometry_x geo')
               \/ C.int_of_double pointer_y' <= geometry_y geo'
               \/ C.int (geometry_height geo' - 1)
                  <= C.int (C.int_of_double pointer_y' - geometry_y geo')))
  end.
Proof.
  intros Hrel Howner Hedge. apply at_monitor_edge_spec in Hedge. cbv zeta.
  destruct (ds (gfx (vc_at s vc))) as [surface |] eqn:Hds.
  - destruct (motion_frame geo pointer_x pointer_y vc s) as (Hrel1 & Howner1 & Hvc1).
    cbv zeta in Hrel1, Howner1, Hvc1.
    assert (Hlast : last_set (gd_motion_event geo pointer_x pointer_y vc s) = false).
    { unfold gd_motion_event. rewrite Hds, Hrel, Howner. simpl. rewrite Nat.eqb_refl.
      destruct (last_set s); simpl; unfold motion_record; simpl;
        rewrite Hrel, Howner; simpl; rewrite Nat.eqb_refl, Hedge; reflexivity. }
    split; [exact Hlast |].
    rewrite <- at_monitor_edge_spec.
    set (s1 := gd_motion_event geo pointer_x pointer_y vc s) in *.
    unfold gd_motion_event. unfold vc_at. rewrite Hvc1. fold (vc_at s vc).
    rewrite Hds, Hrel1, Hrel, Hlast. simpl.
    unfold motion_record. simpl. rewrite Hrel1, Hrel, Howner1, Howner. simpl.
    rewrite Nat.eqb_refl.
    destruct (at_monitor_edge geo' _ _); simpl; split; try reflexivity;
      split; congruence.
  - assert (Hsame : gd_motion_event geo pointer_x pointer_y vc s = s).
    { unfold gd_motion_event. now rewrite Hds. }
    rewrite Hsame. split; [reflexivity |].
    unfold gd_motion_event. now rewrite Hds.
Qed.

(** "vc0" owns the pointer; the pointer reaches the bottom row of the
    monitor, then appears at (400, 300): nothing is queued for the second
    event, which is not on an edge.  A second event at the right edge does
    not record a last position either. *)
Lemma edge_hit_swallows_next_delta_witness :
  let s1 := gd_motion_event plain_geometry (C.double_of_int 500) (C.double_of_int 1079)
              0 (session (Some 0%nat) false) in
  let s2 := gd_motion_event plain_geometry (C.double_of_int 400) (C.double_of_int 300)
              0 s1 in
  let s2' := gd_motion_event plain_geometry (C.double_of_int 1919)
               (C.double_of_int 300) 0 s1 in
  last_set s1 = false /\ Gtk.events s2 = Gtk.events s1 /\ last_set s2 = true
  /\ last_set s2' = false.
Proof.
  cbv zeta.
  destruct (edge_hit_swallows_next_delta plain_geometry plain_geometry
              (C.double_of_int 500) (C.double_of_int 1079)
              (C.double_of_int 400) (C.double_of_int 300) 0
              (session (Some 0%nat) false) eq_refl eq_refl
              ltac:(do 3 right; vm_compute; discriminate))
    as (Hlast & Hlog & _).
  destruct (edge_hit_swallows_next_delta plain_geometry plain_geometry
              (C.double_of_int 500) (C.double_of_int 1079)
              (C.double_of_int 1919) (C.double_of_int 300) 0
              (session (Some 0%nat) false) eq_refl eq_refl
              ltac:(do 3 right; vm_compute; discriminate))
    as (_ & _ & Hedge).
  split; [exact Hlast |]. split; [exact Hlog |]. split; [reflexivity |].
  apply Hedge. right. left. vm_compute. discriminate.
Defined.

(** ** Console lookup *)

Lemma find_seq_spec (f : nat -> bool) (n a : nat) :
  match List.find f (seq a n) with
  | Some i => (a <= i < a + n)%nat /\ f i = true
              /\ forall j, (a <= j < i)%nat -> f j = false
  | None => forall j, (a <= j < a + n)%nat -> f j = false
  end.
Proof.
  revert a. induction n as [| n IH]; intros a; simpl.
  - intros j Hj. lia.
  - destruct (f a) eqn:Hfa.
    + split; [lia | split; [exact Hfa | intros j Hj; lia]].
    + specialize (IH (S a)). destruct (List.find f (seq (S a) n)) as [i |].
      * destruct IH as (Hi & Hfi & Hbefore).
        split; [lia | split; [exact Hfi |]].
        intros j Hj. destruct (Nat.eq_dec j a) as [-> | Hne]; [exact Hfa |].
        apply Hbefore. lia.
      * intros j Hj. destruct (Nat.eq_dec j a) as [-> | Hne]; [exact Hfa |].
        apply IH. lia.
Qed.

(** ** X20: looking a console up by the label of one of the session's
    consoles finds that very console whenever the labels of the session are
    pairwise distinct; in any session the console found is the first one
    with the label, so that of two consoles sharing a label the later one is
    never found. *)
Theorem find_by_menu_round_trip (s : GtkDisplayState) (i : nat) :
  (i < Gtk.nb_vcs s)%nat ->
  (exists k, gd_vc_find_by_menu s (label (vc_at s i)) = Some k
             /\ (k <= i)%nat /\ label (vc_at s k) = label (vc_at s i))
  /\ (labels_distinct s -> gd_vc_find_by_menu s (label (vc_at s i)) = Some i).
Proof.
  intros Hi. unfold gd_vc_find_by_menu.
  pose proof (find_seq_spec
                (fun k => String.eqb (label (vc_at s k)) (label (vc_at s i)))
                (Gtk.nb_vcs s) 0) as Hfind.
  destruct (List.find _ (seq 0 (Gtk.nb_vcs s))) as [k |].
  - destruct Hfind as (Hk & Hlabel & Hbefore). apply String.eqb_eq in Hlabel.
    assert (Hle : (k <= i)%nat).
    { destruct (Nat.le_gt_cases k i) as [Hle | Hgt]; [exact Hle |].
      specialize (Hbefore i ltac:(lia)). simpl in Hbefore.
      rewrite String.eqb_refl in Hbefore. discriminate. }
    split; [exists k; auto |].
    intros Hdistinct. f_equal. apply Hdistinct; [lia | exact Hi | exact Hlabel].
  - specialize (Hfind i ltac:(lia)). simpl in Hfind.
    rewrite String.eqb_refl in Hfind. discriminate.
Qed.

Lemma find_by_menu_round_trip_witness :
  gd_vc_find_by_menu (session None true) "vc1" = Some 1%nat.
Proof.
  refine (proj2 (find_by_menu_round_trip (session None true) 1 _) _).
  - simpl. lia.
  - intros i j Hi Hj. simpl in Hi, Hj.
    destruct i as [| [| i]]; destruct j as [| [| j]];
      try lia; try reflexivity; vm_compute; intros Heq; discriminate Heq.
Defined.

(** ** X21: a label that no console of the session carries is not found,
    and a console that is found carries the label and is one of the
    session's [nb_vcs] consoles. *)
Theorem find_by_menu_sound (s : GtkDisplayState) (idx : string) :
  match gd_vc_find_by_menu s idx with
  | Some k => (k < Gtk.nb_vcs s)%nat /\ label (vc_at s k) = idx
  | None => forall j, (j < Gtk.nb_vcs s)%nat -> label (vc_at s j) <> idx
  end.
Proof.
  unfold gd_vc_find_by_menu.
  pose proof (find_seq_spec (fun k => String.eqb (label (vc_at s k)) idx)
                (Gtk.nb_vcs s) 0) as Hfind.
  destruct (List.find _ (seq 0 (Gtk.nb_vcs s))) as [k |].
  - destruct Hfind as (Hk & Hlabel & _). apply String.eqb_eq in Hlabel.
    split; [lia | exact Hlabel].
  - intros j Hj Heq. specialize (Hfind j ltac:(lia)). simpl in Hfind.
    apply String.eqb_neq in Hfind. contradiction.
Qed.

(** ** X22: the current console is always a page of the notebook: a console
    that is not in the notebook (page number -1, as for a detached one) is
    never the current console, and with no current page there is no current
    console. *)
Theorem find_current_is_a_page (page_num : nat -> Z) (current_page : Z)
    (s : GtkDisplayState) (k : nat) :
  gd_vc_find_current page_num current_page s = Some k ->
  (k < Gtk.nb_vcs s)%nat /\ page_num k = current_page /\ page_num k <> -1
  /\ forall j, (j < k)%nat -> page_num j <> current_page.
Proof.
  unfold gd_vc_find_current, gd_vc_find_by_page.
  destruct (Z.eqb_spec current_page (-1)) as [| Hcurrent]; [discriminate |].
  pose proof (find_seq_spec (fun i => page_num i =? current_page)
                (Gtk.nb_vcs s) 0) as Hfind.
  destruct (List.find _ (seq 0 (Gtk.nb_vcs s))) as [k' |]; [| discriminate].
  intros [= ->]. destruct Hfind as (Hk & Hpage & Hbefore).
  apply Z.eqb_eq in Hpage.
  split; [lia | split; [exact Hpage | split; [congruence |]]].
  intros j Hj. specialize (Hbefore j ltac:(lia)). simpl in Hbefore.
  now apply Z.eqb_neq in Hbefore.
Qed.

(** "vc0" is page 0 of the notebook, "vc1" is detached. *)
Lemma find_current_is_a_page_witness :
  gd_vc_find_current (fun i => if Nat.eqb i 0 then 0 else -1) 0 (session None true)
  = Some 0%nat
  /\ (if Nat.eqb 0 0 then 0 else -1) = 0.
Proof.
  split; [reflexivity |].
  exact (proj1 (proj2 (find_current_is_a_page
                         (fun i => if Nat.eqb i 0 then 0 else -1) 0
                         (session None true) 0 eq_refl))).
Defined.

(** ** Text console *)

Lemma echo_byte_harmless (t : Z) :
  Forall (fun b => Vte.harmless b = true) (Vte.echo_byte t)
  /\ (1 <= length (Vte.echo_byte t) <= 2)%nat.
Proof.
  unfold Vte.echo_byte. cbv zeta.
  assert (Hc : 0 <= C.to_unsigned 8 t < 256).
  { unfold C.to_unsigned. apply Z.mod_pos_bound. lia. }
  set (c := C.to_unsigned 8 t) in *.
  destruct (Z.geb_spec c 128) as [Hhigh | Hlow]; simpl.
  - split; [| simpl; lia]. repeat constructor. unfold Vte.harmless.
    replace (128 <=? c) with true by (symmetry; apply Z.leb_le; lia).
    replace (c <=? 255) with true by (symmetry; apply Z.leb_le; lia).
    simpl. now rewrite !orb_true_r.
  - destruct (Vte.isprint c) eqn:Hprint.
    + split; [| simpl; lia]. repeat constructor. unfold Vte.harmless.
      unfold Vte.isprint in Hprint. rewrite Hprint. simpl.
      now rewrite !orb_true_r.
    + destruct ((c =? 13) || (c =? 10)).
      * split; [| simpl; lia]. repeat constructor.
      * split; [| simpl; lia]. constructor; [reflexivity |]. constructor; [| constructor].
        unfold Vte.isprint in Hprint.
        assert (Hcases : 0 <= c < 32 \/ c = 127).
        { destruct (Z.leb_spec 32 c); destruct (Z.leb_spec c 126);
            simpl in Hprint; try discriminate; lia. }
        clearbody c. clear Hprint Hlow.
        assert (Hall : forall n, (n < 128)%nat ->
                  (Z.of_nat n < 32 \/ Z.of_nat n = 127) ->
                  Vte.harmless (C.to_unsigned 8 (Z.lxor (Z.of_nat n) 64)) = true).
        { intros n Hn.
          do 128 (destruct n as [| n];
                  [vm_compute; intros [H | H]; (reflexivity || discriminate H
                                                || (exfalso; lia)) |]).
          lia. }
        replace c with (Z.of_nat (Z.to_nat c)) by lia.
        apply Hall; lia.
Qed.

Lemma echo_byte_caret (t : Z) :
  let c := t mod 256 in
  Vte.echo_byte t =
    if (128 <=? c) || ((32 <=? c) && (c <=? 126)) then [c]
    else if (c =? 13) || (c =? 10) then [13; 10]
    else if c <? 32 then [94; c + 64]
    else [94; 63].
Proof.
  cbv zeta. unfold Vte.echo_byte, Vte.isprint, C.to_unsigned. cbv zeta.
  change (2 ^ 8) with 256.
  assert (Hc : 0 <= t mod 256 < 256) by (apply Z.mod_pos_bound; lia).
  set (c := t mod 256) in *. rewrite Z.geb_leb.
  destruct (Z.leb_spec 128 c) as [Hhigh | Hlow]; simpl; [reflexivity |].
  destruct ((32 <=? c) && (c <=? 126)) eqn:Hprint; [reflexivity |].
  destruct ((c =? 13) || (c =? 10)); [reflexivity |].
  assert (Hcases : 0 <= c < 32 \/ c = 127).
  { destruct (Z.leb_spec 32 c); destruct (Z.leb_spec c 126);
      simpl in Hprint; try discriminate; lia. }
  clearbody c. clear Hprint Hlow.
  assert (Hall : forall n, (n < 128)%nat ->
            (Z.of_nat n < 32 \/ Z.of_nat n = 127) ->
            [94; Z.lxor (Z.of_nat n) 64 mod 256]
            = (if Z.of_nat n <? 32 then [94; Z.of_nat n + 64] else [94; 63])).
  { intros n Hn.
    do 128 (destruct n as [| n];
            [vm_compute; intros [H | H]; (reflexivity || discriminate H
                                          || (exfalso; lia)) |]).
    lia. }
  replace c with (Z.of_nat (Z.to_nat c)) by lia.
  apply Hall; lia.
Qed.

(** ** X23: with echo on, typing into the text console feeds the terminal
    once per typed byte, in order: a byte from 128 up or a printable ASCII
    byte (32..126) as it is, carriage return and line feed both as CR LF,
    and any other byte in caret notation, a caret followed by the byte plus
    64 for the control characters below 32 and by a question mark for DEL.
    So every fed byte is CR, LF, printable ASCII or at least 128, and each
    feed has one or two bytes.  With echo off nothing is fed. *)
Theorem echo_feeds_no_control_bytes (free : Z) (text : list Z) :
  let fed := fst (Vte.gd_vc_in true free text) in
  length fed = length text
  /\ Forall (fun chunk => (1 <= length chunk <= 2)%nat
                          /\ Forall (fun b => Vte.harmless b = true) chunk) fed
  /\ fst (Vte.gd_vc_in false free text) = []
  /\ forall (i : nat) (t : Z),
       text !! i = Some t ->
       let c := t mod 256 in
       fed !! i = Some (if (128 <=? c) || ((32 <=? c) && (c <=? 126)) then [c]
                        else if (c =? 13) || (c =? 10) then [13; 10]
                        else if c <? 32 then [94; c + 64]
                        else [94; 63]).
Proof.
  cbv zeta. unfold Vte.gd_vc_in. simpl.
  split; [now rewrite length_map |]. split; [| split; [reflexivity |]].
  - apply Forall_forall. intros chunk Hin. apply list_elem_of_In in Hin.
    apply in_map_iff in Hin. destruct Hin as (t & <- & _).
    destruct (echo_byte_harmless t). split; assumption.
  - intros i t Hi.
    change (map Vte.echo_byte text) with (Vte.echo_byte <$> text).
    rewrite list_lookup_fmap, Hi. simpl. f_equal. apply echo_byte_caret.
Qed.

(** Typing "h", Ctrl-C, Return, DEL and the byte 200 with echo on feeds
    "h", "^C", CR LF, "^?" and the byte 200. *)
Lemma echo_feeds_no_control_bytes_witness :
  fst (Vte.gd_vc_in true 0 [104; 3; 13; 127; 200])
  = [[104]; [94; 67]; [13; 10]; [94; 63]; [200]]
  /\ fst (Vte.gd_vc_in true 0 [104; 3; 13; 127; 200]) !! 1%nat = Some [94; 67]
  /\ fst (Vte.gd_vc_in true 0 [104; 3; 13; 127; 200]) !! 3%nat = Some [94; 63].
Proof.
  destruct (echo_feeds_no_control_bytes 0 [104; 3; 13; 127; 200])
    as (_ & _ & _ & Hcaret).
  split; [reflexivity |]. split.
  - exact (Hcaret 1%nat 3 eq_refl).
  - exact (Hcaret 3%nat 127 eq_refl).
Defined.

(** ** X24: of the typed bytes, the text console pushes to its output queue
    the first min(free, size): never more than the queue has room for, all
    of them when there is room, and none of the rest. *)
Theorem typed_bytes_fit_the_queue (echo : bool) (free : Z) (text : list Z) :
  0 <= free ->
  let pushed := snd (Vte.gd_vc_in echo free text) in
  Z.of_nat (length pushed) = Z.min free (Z.of_nat (length text))
  /\ pushed = take (length pushed) text
  /\ (Z.of_nat (length text) <= free -> pushed = text).
Proof.
  intros Hfree. cbv zeta. unfold Vte.gd_vc_in. simpl. rewrite MIN_min.
  rewrite length_take. split; [lia |]. split.
  - f_equal. lia.
  - intros Hroom. apply take_ge. lia.
Qed.

Lemma typed_bytes_fit_the_queue_witness :
  Z.of_nat (length (snd (Vte.gd_vc_in true 2 [104; 105; 13]))) = 2.
Proof.
  exact (proj1 (typed_bytes_fit_the_queue true 2 [104; 105; 13] ltac:(lia))).
Defined.

Lemma open_all_snoc (chrs : list nat) (chr : nat) (r : Vte.Registry) :
  Vte.open_all (chrs ++ [chr]) r
  = match Vte.gd_vc_open chr (Vte.open_all chrs r) with
    | inl r' => r'
    | inr _ => Vte.open_all chrs r
    end.
Proof. unfold Vte.open_all. now rewrite foldl_app. Qed.

(** ** X25: opening character devices one after the other registers the
    first [MAX_VCS] = 10 of them, in order, in slots 0 to 9; every later
    open is refused with "Maximum number of consoles reached" and changes
    nothing. *)
Theorem registry_holds_first_ten (chrs : list nat) :
  let r := Vte.open_all chrs Vte.registry_start in
  Vte.nb_vcs r = Z.min (Z.of_nat (length chrs)) Vte.MAX_VCS
  /\ Vte.vcs r = take 10 (Some <$> chrs) ++ replicate (10 - length chrs) None
  /\ forall chr, (10 <= length chrs)%nat ->
       Vte.gd_vc_open chr r = inr "Maximum number of consoles reached"
       /\ Vte.open_all (chrs ++ [chr]) Vte.registry_start = r.
Proof.
  cbv zeta.
  assert (Hmain : Vte.nb_vcs (Vte.open_all chrs Vte.registry_start)
                  = Z.min (Z.of_nat (length chrs)) Vte.MAX_VCS
                  /\ Vte.vcs (Vte.open_all chrs Vte.registry_start)
                     = take 10 (Some <$> chrs)
                       ++ replicate (10 - length chrs) None).
  { induction chrs as [| chr chrs IH] using rev_ind.
    - split; reflexivity.
    - destruct IH as (Hnb & Hvcs). rewrite open_all_snoc.
      unfold Vte.gd_vc_open. rewrite Hnb, Hvcs. unfold Vte.MAX_VCS in *.
      rewrite length_app. simpl length.
      destruct (Z.eqb_spec (Z.min (Z.of_nat (length chrs)) 10) 10) as [Hfull | Hroom].
      + rewrite Hnb, Hvcs. split; [lia |].
        rewrite fmap_app, take_app_le by (rewrite length_fmap; lia).
        do 2 f_equal. lia.
      + simpl. assert (Hlen : (length chrs < 10)%nat) by lia.
        split; [rewrite int_id by (unfold C.INT_MIN, C.INT_MAX; lia); lia |].
        replace (Z.to_nat (Z.min (Z.of_nat (length chrs)) 10)) with (length chrs)
          by lia.
        rewrite (take_ge (Some <$> chrs)) by (rewrite length_fmap; lia).
        rewrite fmap_app, take_ge by (rewrite length_app, length_fmap; simpl; lia).
        replace (length chrs) with (length (Some <$> chrs) + 0)%nat at 1
          by (rewrite length_fmap; lia).
        rewrite insert_app_r.
        replace (10 - length chrs)%nat with (S (10 - (length chrs + 1)))%nat by lia.
        simpl. now rewrite <- app_assoc. }
  destruct Hmain as (Hnb & Hvcs). split; [exact Hnb | split; [exact Hvcs |]].
  intros chr Hfull. rewrite open_all_snoc.
  assert (Hopen : Vte.gd_vc_open chr (Vte.open_all chrs Vte.registry_start)
                  = inr "Maximum number of consoles reached").
  { unfold Vte.gd_vc_open. rewrite Hnb. unfold Vte.MAX_VCS.
    destruct (Z.eqb_spec (Z.min (Z.of_nat (length chrs)) 10) 10); [reflexivity | lia]. }
  rewrite Hopen. split; reflexivity.
Qed.
